(** * NASA SDO solar image downloader: discovery, fetch and monitoring core

    A shallow embedding of the download/monitoring subsystem
    ([src/downloader], [src/storage], [src/scheduler]) together with the
    properties of its specification.

    Conventions.
    - A Python [str] is a [string]; characters are the code points below 256.
      On that range the regular-expression class [\d] is exactly ['0'..'9'].
    - [datetime] values are records of the seven fields the Python class
      stores (naive datetimes; no time zone is ever attached in this code).
    - Python exceptions that a function lets escape are results of type
      [py_result]; loops whose trip count is not structural take fuel and
      return [None] only when the fuel runs out. *)

From Stdlib Require Import ZArith Lia List Bool Ascii DecimalString QArith Lqa.
From stdpp Require Import gmap strings sorting.

Local Open Scope Z_scope.
Set Warnings "-clear-no-such-hyp".

(** ** Python results *)

Inductive py_exn :=
| ValueError (msg : string)
| OverflowError
| OSError (msg : string).

Inductive py_result (A : Type) :=
| Ok (a : A)
| Raise (e : py_exn).
Arguments Ok {A} a.
Arguments Raise {A} e.

(** ** Characters, digits and the fragments of [re] the code relies on *)

Module Text.

(** Strings are strings of characters below code point 256.  There a
    character is a decimal digit for [\d] and for [int] exactly when it is
    one of ['0'] .. ['9'] (Python takes every Unicode decimal digit, and the
    others all lie above).  Text with characters from above is outside what
    is modelled. *)
Definition is_digit (c : ascii) : bool :=
  ((48 <=? N_of_ascii c) && (N_of_ascii c <=? 57))%N.

Definition digit_char (n : Z) : ascii := ascii_of_N (48 + Z.to_N n).

Definition digit_val (c : ascii) : Z := Z.of_N (N_of_ascii c) - 48.

(** [int(s)] on a string of decimal digits (the only use in the modelled
    code is on [\d{n}] groups of a successful match). *)
Fixpoint int_acc (acc : Z) (s : string) : Z :=
  match s with
  | EmptyString => acc
  | String c s' => int_acc (10 * acc + digit_val c) s'
  end.

Definition int_of_digits (s : string) : Z := int_acc 0 s.

(** [f"{n:02d}"] / [strftime] two-digit fields; every caller passes
    [0 <= n <= 99]. *)
Definition fmt02 (n : Z) : string :=
  String (digit_char (n / 10 mod 10)) (String (digit_char (n mod 10)) EmptyString).

(** Four decimal digits, zero-padded. *)
Definition fmt04 (n : Z) : string :=
  String (digit_char (n / 1000 mod 10))
    (String (digit_char (n / 100 mod 10)) (fmt02 n)).

(** The year field of [strftime] ([%Y]) for a year of [datetime]
    (1 .. 9999).  CPython hands the format to the C library, and the one the
    program runs on (glibc) writes the year in decimal without padding: four
    digits from the year 1000 on, fewer before (["999"], not ["0999"]). *)
Definition fmt_year (n : Z) : string :=
  if n <? 10 then String (digit_char (n mod 10)) EmptyString
  else if n <? 100 then fmt02 n
  else if n <? 1000 then String (digit_char (n / 100 mod 10)) (fmt02 n)
  else fmt04 n.

(** The regular expression [\d{n}] matched at the head of [s]: the [n]
    digits and the rest of the input. *)
Fixpoint take_digits (n : nat) (s : string) : option (string * string) :=
  match n with
  | O => Some (EmptyString, s)
  | S n' =>
      match s with
      | String c s' =>
          if is_digit c then
            match take_digits n' s' with
            | Some (ds, r) => Some (String c ds, r)
            | None => None
            end
          else None
      | EmptyString => None
      end
  end.

(** A literal matched at the head of [s]. *)
Fixpoint expect (lit s : string) : option string :=
  match lit with
  | EmptyString => Some s
  | String c lit' =>
      match s with
      | String c' s' => if Ascii.eqb c c' then expect lit' s' else None
      | EmptyString => None
      end
  end.

(** [n] characters, all of them digits. *)
Fixpoint all_digits (n : nat) (s : string) : bool :=
  match n, s with
  | O, EmptyString => true
  | S n', String c s' => is_digit c && all_digits n' s'
  | _, _ => false
  end.

(** The resolution and filter codes the program is run with are digit
    strings (["1024"], ["0211"], ...). *)
Definition digit_code (c : string) : bool := all_digits (String.length c) c.

(** [needle in haystack] for Python strings. *)
Fixpoint contains (needle hay : string) : bool :=
  if String.prefix needle hay then true
  else match hay with
       | EmptyString => false
       | String _ hay' => contains needle hay'
       end.

End Text.

(** ** [datetime] and [timedelta(days=..)] arithmetic *)

Module Calendar.

Record datetime := mk_datetime {
  year : Z; month : Z; day : Z;
  hour : Z; minute : Z; second : Z; microsecond : Z }.

Definition MINYEAR : Z := 1.
Definition MAXYEAR : Z := 9999.

Definition is_leap (y : Z) : bool :=
  (y mod 4 =? 0) && (negb (y mod 100 =? 0) || (y mod 400 =? 0)).

Definition days_in_month (y m : Z) : Z :=
  if m =? 2 then (if is_leap y then 29 else 28)
  else if (m =? 4) || (m =? 6) || (m =? 9) || (m =? 11) then 30
  else 31.

Definition valid_date (y m d : Z) : bool :=
  (MINYEAR <=? y) && (y <=? MAXYEAR) && (1 <=? m) && (m <=? 12)
  && (1 <=? d) && (d <=? days_in_month y m).

Definition valid_time (h mi s us : Z) : bool :=
  (0 <=? h) && (h <=? 23) && (0 <=? mi) && (mi <=? 59)
  && (0 <=? s) && (s <=? 59) && (0 <=? us) && (us <=? 999999).

(** The class invariant of [datetime]: every value the interpreter can hold
    satisfies it. *)
Definition valid (d : datetime) : bool :=
  valid_date (year d) (month d) (day d)
  && valid_time (hour d) (minute d) (second d) (microsecond d).

(** [datetime(y, m, d)]: [None] stands for the [ValueError] of an
    impossible calendar date. *)
Definition datetime_ymd (y m d : Z) : option datetime :=
  if valid_date y m d then Some (mk_datetime y m d 0 0 0 0) else None.

(** The date of [d] at 00:00:00. *)
Definition midnight (d : datetime) : datetime :=
  mk_datetime (year d) (month d) (day d) 0 0 0 0.

Definition with_ymd (d : datetime) (y m dd : Z) : datetime :=
  mk_datetime y m dd (hour d) (minute d) (second d) (microsecond d).

(** [d + timedelta(days=1)]; [None] is the [OverflowError] past
    9999-12-31. *)
Definition next_day (d : datetime) : option datetime :=
  if day d <? days_in_month (year d) (month d)
  then Some (with_ymd d (year d) (month d) (day d + 1))
  else if month d <? 12 then Some (with_ymd d (year d) (month d + 1) 1)
  else if year d <? MAXYEAR then Some (with_ymd d (year d + 1) 1 1)
  else None.

(** [d - timedelta(days=1)]; [None] is the [OverflowError] before
    0001-01-01. *)
Definition prev_day (d : datetime) : option datetime :=
  if 1 <? day d then Some (with_ymd d (year d) (month d) (day d - 1))
  else if 1 <? month d
  then Some (with_ymd d (year d) (month d - 1)
               (days_in_month (year d) (month d - 1)))
  else if MINYEAR <? year d then Some (with_ymd d (year d - 1) 12 31)
  else None.

Fixpoint iter_days (step : datetime -> option datetime) (n : nat)
    (d : datetime) : option datetime :=
  match n with
  | O => Some d
  | S n' => match step d with
            | Some d' => iter_days step n' d'
            | None => None
            end
  end.

(** [d + timedelta(days=n)] for any sign of [n]. *)
Definition add_days (d : datetime) (n : Z) : option datetime :=
  if 0 <=? n then iter_days next_day (Z.to_nat n) d
  else iter_days prev_day (Z.to_nat (- n)) d.

Definition lex (c1 c2 : comparison) : comparison :=
  match c1 with Eq => c2 | _ => c1 end.

(** Comparison of naive datetimes: field by field, most significant first. *)
Definition compare (a b : datetime) : comparison :=
  lex (year a ?= year b) (lex (month a ?= month b) (lex (day a ?= day b)
    (lex (hour a ?= hour b) (lex (minute a ?= minute b)
      (lex (second a ?= second b) (microsecond a ?= microsecond b)))))).

(** [a <= b] *)
Definition leb (a b : datetime) : bool :=
  match compare a b with Gt => false | _ => true end.

(** The [n] consecutive calendar days that start at [d] (cut short at the
    end of the calendar). *)
Fixpoint days_from (n : nat) (d : datetime) : list datetime :=
  match n with
  | O => []
  | S n' => d :: match next_day d with
                 | Some d' => days_from n' d'
                 | None => []
                 end
  end.

(** An order embedding of calendar dates into the integers, and the relation
    of having the same time of day; both only serve to state the facts about
    [compare] below. *)
Definition ymd_key (d : datetime) : Z :=
  (year d * 12 + (month d - 1)) * 31 + (day d - 1).

Definition same_time (a b : datetime) : Prop :=
  hour a = hour b /\ minute a = minute b /\ second a = second b
  /\ microsecond a = microsecond b.

Definition strftime_Y (d : datetime) : string := Text.fmt_year (year d).
Definition strftime_m (d : datetime) : string := Text.fmt02 (month d).
Definition strftime_d (d : datetime) : string := Text.fmt02 (day d).
(** [strftime("%Y%m%d")] *)
Definition strftime_Ymd (d : datetime) : string :=
  strftime_Y d +:+ strftime_m d +:+ strftime_d d.

End Calendar.

(** ** [src/downloader/url_generator.py] *)

Module URLGenerator.
Import Text Calendar.

Definition BASE_URL : string := "https://sdo.gsfc.nasa.gov/assets/img/browse".
Definition RESOLUTION : string := "4096".
Definition INSTRUMENT_CODE : string := "0211".

Definition construct_url (date : datetime) (time_sequence : string) : string :=
  let date_str := strftime_Ymd date in
  let year := strftime_Y date in
  let month := strftime_m date in
  let day := strftime_d date in
  let filename :=
    date_str +:+ "_" +:+ time_sequence +:+ "_" +:+ RESOLUTION +:+ "_"
             +:+ INSTRUMENT_CODE +:+ ".jpg" in
  BASE_URL +:+ "/" +:+ year +:+ "/" +:+ month +:+ "/" +:+ day +:+ "/" +:+ filename.

(** The [time_patterns] list of [generate_daily_urls]: hours 0..23, the five
    minute marks and the three second marks, innermost loop last. *)
Definition time_patterns : list string :=
  flat_map (fun hour =>
    flat_map (fun minute =>
      map (fun second => fmt02 hour +:+ fmt02 minute +:+ fmt02 second)
          [0; 30; 59])
      [0; 12; 24; 36; 48])
    (seqZ 0 24).

Definition generate_daily_urls (date : datetime) : list string :=
  map (fun time_sequence => construct_url date time_sequence) time_patterns.

(** [while current_date <= end_date: urls.extend(...); current_date += 1 day] *)
Fixpoint date_range_loop (fuel : nat) (current_date end_date : datetime)
    (urls : list string) : option (py_result (list string)) :=
  match fuel with
  | O => None
  | S fuel' =>
      if leb current_date end_date then
        let urls' := urls ++ generate_daily_urls current_date in
        match next_day current_date with
        | Some current_date' => date_range_loop fuel' current_date' end_date urls'
        | None => Some (Raise OverflowError)
        end
      else Some (Ok urls)
  end.

(** [now] is the value [datetime.now()] would return, used when [end_date]
    is [None]. *)
Definition generate_date_range_urls (fuel : nat) (now : datetime) (days : Z)
    (end_date : option datetime) : option (py_result (list string)) :=
  let end_date := match end_date with Some e => e | None => now end in
  match add_days end_date (- (days - 1)) with
  | None => Some (Raise OverflowError)
  | Some start_date => date_range_loop fuel start_date end_date []
  end.

Definition generate_default_urls (fuel : nat) (now : datetime)
    (end_date : option datetime) : option (py_result (list string)) :=
  generate_date_range_urls fuel now 1 end_date.

(** [self.url_pattern.match(url)]: the five groups, or [None]. [re.match]
    anchors at the start only, so anything may follow [\.jpg]. *)
Definition url_pattern_match (url : string)
    : option (string * string * string * string * string) :=
  match expect "https://sdo.gsfc.nasa.gov/assets/img/browse/" url with
  | None => None
  | Some r0 =>
  match take_digits 4 r0 with
  | None => None
  | Some (year, r1) =>
  match expect "/" r1 with
  | None => None
  | Some r2 =>
  match take_digits 2 r2 with
  | None => None
  | Some (month, r3) =>
  match expect "/" r3 with
  | None => None
  | Some r4 =>
  match take_digits 2 r4 with
  | None => None
  | Some (day, r5) =>
  match expect "/" r5 with
  | None => None
  | Some r6 =>
  match take_digits 8 r6 with
  | None => None
  | Some (date_part, r7) =>
  match expect "_" r7 with
  | None => None
  | Some r8 =>
  match take_digits 6 r8 with
  | None => None
  | Some (time_part, r9) =>
  match expect "_4096_0211.jpg" r9 with
  | None => None
  | Some _ => Some (year, month, day, date_part, time_part)
  end end end end end end end end end end end.

(** [None] is the pair [(None, None)]. *)
Definition extract_metadata_from_url (url : string) : option (datetime * string) :=
  match url_pattern_match url with
  | None => None
  | Some (year, month, day, date_part, time_part) =>
      match datetime_ymd (int_of_digits year) (int_of_digits month)
                         (int_of_digits day) with
      | Some date => Some (date, time_part)
      | None => None
      end
  end.

End URLGenerator.

(** ** The outside world: network, clock and disk

    The code talks to three things it does not control.  They are modelled by
    an [environment] (what the outside answers) and a [world] (what has
    happened so far). *)

Module World.

Definition bytes := list Byte.byte.

(** [pathlib.Path] as its list of parts. *)
Definition path := list string.

Inductive node :=
| File (content : bytes)
| Dir.

Inductive method := GET | HEAD.

(** The outcome of one call of [session.get] / [session.head], as the
    caller sees it: the response the session returns (status code, body as
    [content] and as [text], the [content-length] header) or one of the
    exceptions the callers distinguish.  The session of [ImageFetcher] has a
    transport adapter with a retry policy of its own ([Retry(total=3,
    status_forcelist=[429, 500, 502, 503, 504], allowed_methods=["GET"])]):
    what it resends happens inside the call, and a GET that keeps getting
    one of those statuses ends in a [RetryError], which is a [RaiseOther]
    here, not in a response. *)
Inductive http_result :=
| Response (status_code : Z) (content : bytes) (text : string)
           (content_length : option string)
| RaiseTimeout
| RaiseConnectionError
| RaiseOther (msg : string).

(** What the disk does with [open(p, 'wb'); f.write(data)]: the bytes that
    end up in the file (a healthy disk stores [data] itself), or an
    [OSError], possibly leaving a partial file behind. *)
Inductive disk_outcome :=
| Stored (content : bytes)
| WriteFails (partial : option bytes) (msg : string).

(** [server n m url] is the outcome of the [n]-th call of [session.get] or
    [session.head] of the run, which takes [latency n] seconds (a "request"
    below is one such call); [disk] is the behaviour of writes, [dir_size] the
    size the system reports for a directory and [os_error p] the text of the
    [OSError] raised when [p] cannot be created or opened because something of
    the wrong kind is in the way. *)
Record environment := {
  server : nat -> method -> string -> http_result;
  latency : nat -> Q;
  disk : path -> bytes -> disk_outcome;
  dir_size : path -> Z;
  os_error : path -> string
}.

Inductive sleep_reason := RateLimit | Backoff.

Inductive event :=
| Request (m : method) (url : string) (at_time : Q)
| Sleep (why : sleep_reason) (seconds : Q).

Record world := {
  clock : Q;
  fs : gmap path node;
  trace : list event
}.

Definition is_request (e : event) : bool :=
  match e with Request _ _ _ => true | Sleep _ _ => false end.

Definition requests (t : list event) : list event := List.filter is_request t.

(** The backoff sleeps of a trace, in order. *)
Fixpoint backoff_sleeps (t : list event) : list Q :=
  match t with
  | [] => []
  | Sleep Backoff d :: t' => d :: backoff_sleeps t'
  | _ :: t' => backoff_sleeps t'
  end.

(** [time.sleep(seconds)] *)
Definition sleep (why : sleep_reason) (seconds : Q) (w : world) : world :=
  {| clock := clock w + seconds; fs := fs w;
     trace := trace w ++ [Sleep why seconds] |}.

(** One call of [session.get] or [session.head]: the call is recorded with
    the time it is issued at, its outcome is that of the n-th call of the
    run, and the clock moves by the call's latency. *)
Definition http_request (env : environment) (m : method) (url : string)
    (w : world) : http_result * world :=
  let n := length (requests (trace w)) in
  (server env n m url,
   {| clock := clock w + latency env n; fs := fs w;
      trace := trace w ++ [Request m url (clock w)] |}).

(** The status code of an answer, when there is one. *)
Definition status_of (r : http_result) : option Z :=
  match r with
  | Response status_code _ _ _ => Some status_code
  | _ => None
  end.

(** The events a call has added to the trace. *)
Definition events_since (w w' : world) : list event :=
  drop (length (trace w)) (trace w').

(** Events without their time stamps. *)
Inductive step :=
| Req (m : method) (url : string)
| Nap (why : sleep_reason) (seconds : Q).

Definition step_of (e : event) : step :=
  match e with
  | Request m url _ => Req m url
  | Sleep why seconds => Nap why seconds
  end.

Definition is_rate_limit_sleep (e : event) : bool :=
  match e with Sleep RateLimit _ => true | _ => false end.

(** What a call did, the waits for the rate limiter left out. *)
Definition activity (w w' : world) : list step :=
  map step_of
    (List.filter (fun e => negb (is_rate_limit_sleep e)) (events_since w w')).



(** [str(n)] for an integer. *)
Definition str_of_Z (n : Z) : string :=
  DecimalString.NilZero.string_of_int (Z.to_int n).

End World.

(** ** [src/storage/storage_organizer.py] *)

Module Storage.
Import Calendar World.

Record StorageOrganizer := {
  base_data_dir : path;
  resolution : string;
  solar_filter : string
}.

(** [p / name] for a single path segment [name] (no separator inside):
    pathlib drops an empty or ["."] segment. *)
Definition joinpath (p : path) (name : string) : path :=
  if bool_decide (name = "" \/ name = ".") then p else p ++ [name].

(** [p.name]: the last part, [""] when there is none. *)
Definition path_name (p : path) : string :=
  match last p with Some n => n | None => "" end.

Definition get_date_path (s : StorageOrganizer) (date : datetime) : path :=
  base_data_dir s ++ [strftime_Y date; strftime_m date; strftime_d date].

Definition get_local_path (s : StorageOrganizer) (filename : string)
    (date : datetime) : path :=
  joinpath (get_date_path s date) filename.

(** [local_path.exists()] *)
Definition file_exists (s : StorageOrganizer) (w : world) (filename : string)
    (date : datetime) : bool :=
  match fs w !! get_local_path s filename date with
  | Some _ => true
  | None => false
  end.

(** [st_size] of what is at the path; for a directory the operating system
    reports a size of its own ([dir_size]). *)
Definition get_file_size (env : environment) (s : StorageOrganizer) (w : world)
    (filename : string) (date : datetime) : option Z :=
  match fs w !! get_local_path s filename date with
  | Some (File content) => Some (Z.of_nat (length content))
  | Some Dir => Some (dir_size env (get_local_path s filename date))
  | None => None
  end.

(** [p.mkdir(parents=True, exist_ok=True)] over the prefixes of [p], shortest
    first: an existing directory is kept, a file in the way is an error. *)
Fixpoint mkdir_parents (env : environment) (prefix : path) (rest : path)
    (m : gmap path node) : py_result (gmap path node) :=
  match rest with
  | [] => Ok m
  | part :: rest' =>
      let p := prefix ++ [part] in
      match m !! p with
      | Some (File _) => Raise (OSError (os_error env p))
      | Some Dir => mkdir_parents env p rest' m
      | None => mkdir_parents env p rest' (<[p := Dir]> m)
      end
  end.

Definition create_date_structure (env : environment) (s : StorageOrganizer)
    (date : datetime) (w : world) : py_result world :=
  match mkdir_parents env [] (get_date_path s date) (fs w) with
  | Ok m => Ok {| clock := clock w; fs := m; trace := trace w |}
  | Raise e => Raise e
  end.

(** [save_image]: the world after the call and whether it raised. *)
Definition save_image (env : environment) (s : StorageOrganizer)
    (image_data : bytes) (filename : string) (date : datetime) (w : world)
    : py_result unit * world :=
  match create_date_structure env s date w with
  | Raise e => (Raise e, w)
  | Ok w1 =>
      let local_path := joinpath (get_date_path s date) filename in
      match fs w1 !! local_path with
      | Some Dir => (Raise (OSError (os_error env local_path)), w1)
      | _ =>
          match disk env local_path image_data with
          | Stored content =>
              (Ok tt, {| clock := clock w1;
                         fs := <[local_path := File content]> (fs w1);
                         trace := trace w1 |})
          | WriteFails None msg => (Raise (OSError msg), w1)
          | WriteFails (Some partial) msg =>
              (Raise (OSError msg),
               {| clock := clock w1;
                  fs := <[local_path := File partial]> (fs w1);
                  trace := trace w1 |})
          end
      end
  end.

Definition validate_file_integrity (env : environment) (s : StorageOrganizer)
    (w : world) (filename : string) (date : datetime) (expected_size : Z)
    : bool :=
  match get_file_size env s w filename date with
  | None => false
  | Some actual_size => actual_size =? expected_size
  end.

End Storage.

(** ** [src/models.py] *)

Module Models.
Import World.

Inductive TaskStatus := PENDING | DOWNLOADING | COMPLETED | FAILED.

Record DownloadTask := {
  url : string;
  target_path : path;
  retry_count : Z;
  status : TaskStatus;
  error_message : option string
}.

(** [DownloadTask(url=.., target_path=..)] with the dataclass defaults. *)
Definition new_task (u : string) (p : path) : DownloadTask :=
  {| url := u; target_path := p; retry_count := 0; status := PENDING;
     error_message := None |}.

Definition set_status (t : DownloadTask) (s : TaskStatus) : DownloadTask :=
  {| url := url t; target_path := target_path t; retry_count := retry_count t;
     status := s; error_message := error_message t |}.

Definition fail_with (t : DownloadTask) (msg : string) : DownloadTask :=
  {| url := url t; target_path := target_path t; retry_count := retry_count t;
     status := FAILED; error_message := Some msg |}.

End Models.

(** ** [src/downloader/image_fetcher.py]: [ImageFetcher] *)

Module Fetcher.
Import World.

Record ImageFetcher := {
  rate_limit_delay : Q;
  max_retries : Z;
  last_request_time : Q
}.

(** [ImageFetcher(rate_limit_delay, max_retries)] *)
Definition new_fetcher (delay : Q) (retries : Z) : ImageFetcher :=
  {| rate_limit_delay := delay; max_retries := retries;
     last_request_time := 0 |}.

Definition Qltb (a b : Q) : bool := negb (Qle_bool b a).

Definition _enforce_rate_limit (f : ImageFetcher) (w : world)
    : ImageFetcher * world :=
  let current_time := clock w in
  let time_since_last := (current_time - last_request_time f)%Q in
  let w1 :=
    if Qltb time_since_last (rate_limit_delay f)
    then sleep RateLimit (rate_limit_delay f - time_since_last)%Q w
    else w in
  ({| rate_limit_delay := rate_limit_delay f; max_retries := max_retries f;
      last_request_time := clock w1 |}, w1).

(** [min(2 ** attempt, 60)]; [attempt] is an index of [range(max_retries)],
    hence never negative. *)
Definition _exponential_backoff (attempt : Z) : Z := Z.min (2 ^ attempt) 60.

Definition fetch_result : Type := bool * option bytes * option string.

(** The three retrying branches of [download_image] end the same way: with
    attempts left, sleep the backoff delay and [continue]; otherwise return
    the failure. [retry] is the rest of the loop. *)
Definition retry_or_fail (f : ImageFetcher) (attempt : Z) (error_msg : string)
    (retry : world -> fetch_result * world) (w : world)
    : fetch_result * world :=
  if attempt <? max_retries f - 1
  then retry (sleep Backoff (inject_Z (_exponential_backoff attempt)) w)
  else ((false, None, Some error_msg), w).

(** The body of [for attempt in range(self.max_retries)], and the statement
    after the loop when the range is exhausted. *)
Fixpoint download_attempts (env : environment) (f : ImageFetcher)
    (url : string) (attempts : list Z) (w : world) : fetch_result * world :=
  match attempts with
  | [] => ((false, None, Some ("Max retries exceeded for: " +:+ url)), w)
  | attempt :: rest =>
      let '(r, w1) := http_request env GET url w in
      let retry := download_attempts env f url rest in
      match r with
      | Response status_code content _ _ =>
          if status_code =? 200 then ((true, Some content, None), w1)
          else if status_code =? 404
          then ((false, None, Some ("Image not found (404): " +:+ url)), w1)
          else retry_or_fail f attempt
                 ("HTTP " +:+ str_of_Z status_code +:+ ": " +:+ url) retry w1
      | RaiseTimeout =>
          retry_or_fail f attempt ("Timeout downloading: " +:+ url) retry w1
      | RaiseConnectionError =>
          retry_or_fail f attempt
            ("Connection error downloading: " +:+ url) retry w1
      | RaiseOther msg =>
          ((false, None,
            Some ("Unexpected error downloading " +:+ url +:+ ": " +:+ msg)), w1)
      end
  end.

Definition download_image (env : environment) (f : ImageFetcher)
    (url : string) (w : world) : fetch_result * ImageFetcher * world :=
  let '(f1, w1) := _enforce_rate_limit f w in
  let '(r, w2) :=
    download_attempts env f1 url (seqZ 0 (max_retries f1)) w1 in
  (r, f1, w2).

Definition check_image_exists (env : environment) (f : ImageFetcher)
    (url : string) (w : world) : bool * ImageFetcher * world :=
  let '(f1, w1) := _enforce_rate_limit f w in
  let '(r, w2) := http_request env HEAD url w1 in
  match r with
  | Response status_code _ _ _ => (status_code =? 200, f1, w2)
  | _ => (false, f1, w2)
  end.

Section GetImageSize.
(** Python's built-in [int] on a header value; [None] is its
    [ValueError]. *)
Variable py_int : string -> option Z.

Definition get_image_size (env : environment) (f : ImageFetcher)
    (url : string) (w : world) : option Z * ImageFetcher * world :=
  let '(f1, w1) := _enforce_rate_limit f w in
  let '(r, w2) := http_request env HEAD url w1 in
  match r with
  | Response status_code _ _ (Some content_length) =>
      if (status_code =? 200) && negb (String.eqb content_length "")
      then (py_int content_length, f1, w2)
      else (None, f1, w2)
  | _ => (None, f1, w2)
  end.
End GetImageSize.

End Fetcher.

(** ** [datetime.strptime(s, '%Y%m%d')]

    The standard library turns the format into the regular expression
    [(\d\d\d\d)(1[0-2]|0[1-9]|[1-9])(3[01]|[12]\d|0[1-9]|[1-9]| [1-9])],
    matches it at the start of [s] (first alternative first, backtracking
    into the month when no day fits), refuses unconverted trailing data and
    then builds the date, which checks the calendar. *)

Module Strptime.
Import Text Calendar.

Definition char_class : Type := ascii -> bool.

Definition one (c : ascii) : char_class := fun x => Ascii.eqb c x.

Definition between (lo hi : ascii) : char_class :=
  fun x => ((N_of_ascii lo <=? N_of_ascii x) && (N_of_ascii x <=? N_of_ascii hi))%N.

Fixpoint match_classes (cs : list char_class) (s : string)
    : option (string * string) :=
  match cs with
  | [] => Some (EmptyString, s)
  | c :: cs' =>
      match s with
      | String x s' =>
          if c x then
            match match_classes cs' s' with
            | Some (m, r) => Some (String x m, r)
            | None => None
            end
          else None
      | EmptyString => None
      end
  end.

(** An alternation followed by the rest of the expression [k]: the first
    alternative after which [k] succeeds. *)
Fixpoint try_alternatives {A : Type} (alts : list (list char_class))
    (s : string) (k : string -> string -> option A) : option A :=
  match alts with
  | [] => None
  | a :: alts' =>
      match match_classes a s with
      | Some (m, r) =>
          match k m r with
          | Some x => Some x
          | None => try_alternatives alts' s k
          end
      | None => try_alternatives alts' s k
      end
  end.

Definition month_alternatives : list (list char_class) :=
  [ [one "1"; between "0" "2"]; [one "0"; between "1" "9"]; [between "1" "9"] ]%char.

Definition day_alternatives : list (list char_class) :=
  [ [one "3"; between "0" "1"]; [between "1" "2"; is_digit];
    [one "0"; between "1" "9"]; [between "1" "9"];
    [one " "; between "1" "9"] ]%char.

(** [int] of a matched group; the only non-digit a group can hold is the
    leading blank of the last day alternative, which [int] strips. *)
Definition int_of_group (s : string) : Z :=
  match s with
  | String " "%char r => int_of_digits r
  | _ => int_of_digits s
  end.

Definition strptime_Ymd (s : string) : option datetime :=
  match take_digits 4 s with
  | None => None
  | Some (Y, r) =>
      match try_alternatives month_alternatives r (fun m r1 =>
              try_alternatives day_alternatives r1 (fun d r2 =>
                Some (m, d, r2))) with
      | None => None
      | Some (m, d, r2) =>
          if String.eqb r2 "" then
            datetime_ymd (int_of_digits Y) (int_of_group m) (int_of_group d)
          else None
      end
  end.

(** [s.split('_')[0]]: the text before the first underscore. *)
Fixpoint split_first (s : string) : string :=
  match s with
  | EmptyString => EmptyString
  | String c s' => if Ascii.eqb c "_" then EmptyString else String c (split_first s')
  end.

End Strptime.

(** ** [src/downloader/image_fetcher.py]: [DownloadManager] *)

Module Manager.
Import Calendar World Storage Models Fetcher.

Record DownloadManager := {
  fetcher : ImageFetcher;
  storage : StorageOrganizer;
  download_count : Z;
  failed_tasks : list DownloadTask
}.

(** [DownloadManager(fetcher, storage_organizer)] *)
Definition new_manager (f : ImageFetcher) (s : StorageOrganizer) : DownloadManager :=
  {| fetcher := f; storage := s; download_count := 0; failed_tasks := [] |}.

Definition exn_str (e : py_exn) : string :=
  match e with
  | ValueError msg => msg
  | OverflowError => "date value out of range"
  | OSError msg => msg
  end.

(** [error_msg or "Download failed"] *)
Definition or_download_failed (error_msg : option string) : string :=
  match error_msg with
  | Some msg => if String.eqb msg "" then "Download failed" else msg
  | None => "Download failed"
  end.

(** [success and image_data]: the body when the conjunction is truthy. *)
Definition fetched_data (r : fetch_result) : option bytes :=
  match r with
  | (true, Some (b :: data), _) => Some (b :: data)
  | _ => None
  end.

(** The result, the task and the manager as the call leaves them, and the
    world.  (The first assignment to [date], from the name of the parent
    directory, is overwritten before any use and is left out.) *)
Definition download_and_save (env : environment) (m : DownloadManager)
    (task : DownloadTask) (w : world)
    : bool * DownloadTask * DownloadManager * world :=
  let task := set_status task DOWNLOADING in
  let filename := path_name (target_path task) in
  match Strptime.strptime_Ymd (Strptime.split_first filename) with
  | None =>
      (false,
       fail_with task ("Could not parse date from filename: " +:+ filename),
       m, w)
  | Some date =>
      if file_exists (storage m) w filename date
      then (true, set_status task COMPLETED, m, w)
      else
        let '(r, f1, w1) := download_image env (fetcher m) (url task) w in
        let m1 := {| fetcher := f1; storage := storage m;
                     download_count := download_count m;
                     failed_tasks := failed_tasks m |} in
        match fetched_data r with
        | Some image_data =>
            match save_image env (storage m) image_data filename date w1 with
            | (Raise e, w2) =>
                (false, fail_with task ("Error saving file: " +:+ exn_str e),
                 m1, w2)
            | (Ok _, w2) =>
                let expected_size := Z.of_nat (length image_data) in
                if validate_file_integrity env (storage m) w2 filename date
                     expected_size
                then (true, set_status task COMPLETED,
                      {| fetcher := f1; storage := storage m;
                         download_count := download_count m + 1;
                         failed_tasks := failed_tasks m |}, w2)
                else (false, fail_with task "File integrity check failed",
                      m1, w2)
            end
        | None =>
            let task := fail_with task (or_download_failed (snd r)) in
            (false, task,
             {| fetcher := f1; storage := storage m;
                download_count := download_count m;
                failed_tasks := failed_tasks m ++ [task] |}, w1)
        end
  end.

Definition get_download_count (m : DownloadManager) : Z := download_count m.

Definition get_failed_tasks (m : DownloadManager) : list DownloadTask :=
  failed_tasks m.

End Manager.

(** ** [src/downloader/directory_scraper.py] *)

Module Scraper.
Import Text Calendar World Storage.

Record DirectoryScraper := {
  rate_limit_delay : Q;
  resolution : string;
  solar_filter : string
}.

(** [self.file_pattern], i.e.
    [(\d{8}_\d{6}_{resolution}_{solar_filter}\.jpg)], matched at the head of
    [s]: the text of group 1.  The code interpolates the resolution and the
    filter into the regular expression as they are; here they are matched
    literally, which is what the expression does for the documented digit
    codes ([digit_code]) and not for a text with a metacharacter in it
    (["0211|0193"]).  What depends on the difference is stated for digit
    codes. *)
Definition file_pattern_here (sc : DirectoryScraper) (s : string)
    : option string :=
  match take_digits 8 s with
  | None => None
  | Some (date_part, r1) =>
  match expect "_" r1 with
  | None => None
  | Some r2 =>
  match take_digits 6 r2 with
  | None => None
  | Some (time_part, r3) =>
  let tail := "_" +:+ resolution sc +:+ "_" +:+ solar_filter sc +:+ ".jpg" in
  match expect tail r3 with
  | None => None
  | Some _ => Some (date_part +:+ "_" +:+ time_part +:+ tail)
  end end end end.

(** [self.file_pattern.search(s)]: the leftmost match. *)
Fixpoint file_pattern_search (sc : DirectoryScraper) (s : string)
    : option string :=
  match file_pattern_here sc s with
  | Some m => Some m
  | None =>
      match s with
      | EmptyString => None
      | String _ s' => file_pattern_search sc s'
      end
  end.

(** [self.file_pattern.findall(s)]: the matches from left to right, the
    scan resuming after each one; [skip] counts the characters of the last
    match still to be passed over. *)
Fixpoint file_pattern_findall_from (sc : DirectoryScraper) (skip : nat)
    (s : string) : list string :=
  match s with
  | EmptyString => []
  | String _ s' =>
      match skip with
      | S skip' => file_pattern_findall_from sc skip' s'
      | O =>
          match file_pattern_here sc s with
          | Some m => m :: file_pattern_findall_from sc (String.length m - 1) s'
          | None => file_pattern_findall_from sc O s'
          end
      end
  end.

Definition file_pattern_findall (sc : DirectoryScraper) (s : string)
    : list string :=
  file_pattern_findall_from sc O s.

Definition get_directory_url (date : datetime) : string :=
  "https://sdo.gsfc.nasa.gov/assets/img/browse/" +:+ strftime_Y date +:+ "/"
    +:+ strftime_m date +:+ "/" +:+ strftime_d date +:+ "/".

(** [for link in soup.find_all('a', href=True)]: every anchor whose [href]
    matches contributes its match, appended unconditionally. *)
Fixpoint collect_links (sc : DirectoryScraper) (hrefs : list string)
    (image_files : list string) : list string :=
  match hrefs with
  | [] => image_files
  | href :: rest =>
      match file_pattern_search sc href with
      | Some filename => collect_links sc rest (image_files ++ [filename])
      | None => collect_links sc rest image_files
      end
  end.

(** [for match in matches: if match not in image_files: append] *)
Fixpoint collect_text_matches (matches : list string)
    (image_files : list string) : list string :=
  match matches with
  | [] => image_files
  | m :: rest =>
      if bool_decide (m ∈ image_files)
      then collect_text_matches rest image_files
      else collect_text_matches rest (image_files ++ [m])
  end.

(** [sorted] on strings: ascending in [String.le], the code point by code
    point order of Python's string comparison. *)
Definition sorted (l : list string) : list string := merge_sort String.le l.

Section Scrape.
(** BeautifulSoup: the [href] attributes of the anchors of a page, in
    document order. *)
Variable anchor_hrefs : string -> list string.

Definition scrape_directory (env : environment) (sc : DirectoryScraper)
    (date : datetime) (w : world) : list string * world :=
  let directory_url := get_directory_url date in
  let '(r, w1) := http_request env GET directory_url w in
  match r with
  | Response status_code _ text _ =>
      if status_code =? 404 then ([], w1)
      else if negb (status_code =? 200) then ([], w1)
      else
        let image_files := collect_links sc (anchor_hrefs text) [] in
        let matches := file_pattern_findall sc text in
        let image_files := collect_text_matches matches image_files in
        (sorted image_files, w1)
  | RaiseTimeout | RaiseConnectionError | RaiseOther _ => ([], w1)
  end.
End Scrape.

Fixpoint filter_new_images_loop (storage_organizer : StorageOrganizer)
    (w : world) (available_images new_images : list (datetime * string))
    : list (datetime * string) :=
  match available_images with
  | [] => new_images
  | (date, filename) :: rest =>
      if negb (file_exists storage_organizer w filename date)
      then filter_new_images_loop storage_organizer w rest
             (new_images ++ [(date, filename)])
      else filter_new_images_loop storage_organizer w rest new_images
  end.

Definition filter_new_images (available_images : list (datetime * string))
    (storage_organizer : StorageOrganizer) (w : world)
    : list (datetime * string) :=
  filter_new_images_loop storage_organizer w available_images [].

End Scraper.

(** ** [src/scheduler/monitoring_loop.py] *)

Module Monitoring.
Import Text Calendar World Storage Models Fetcher Manager URLGenerator.

Record MonitoringLoop := {
  download_manager : DownloadManager;
  storage : StorageOrganizer;
  check_interval : Z;
  monitoring_range_days : Z;
  is_running : bool;
  last_check_time : option datetime;
  total_checks : Z;
  new_images_found : Z
}.

(** [MonitoringLoop(url_generator, download_manager, storage_organizer,
    check_interval_minutes, monitoring_range_days)] *)
Definition new_loop (dm : DownloadManager) (st : StorageOrganizer)
    (check_interval_minutes range_days : Z) : MonitoringLoop :=
  {| download_manager := dm; storage := st;
     check_interval := check_interval_minutes;
     monitoring_range_days := range_days; is_running := false;
     last_check_time := None; total_checks := 0; new_images_found := 0 |}.

(** [self.monitoring_range_days = days] *)
Definition update_loop_range (l : MonitoringLoop) (days : Z) : MonitoringLoop :=
  {| download_manager := download_manager l; storage := storage l;
     check_interval := check_interval l;
     monitoring_range_days := days; is_running := is_running l;
     last_check_time := last_check_time l;
     total_checks := total_checks l;
     new_images_found := new_images_found l |}.

Definition set_monitoring_range (l : MonitoringLoop) (days : Z)
    : py_result MonitoringLoop :=
  if days <? 1 then Raise (ValueError "Monitoring range must be at least 1 day")
  else Ok (update_loop_range l days).

Definition get_monitoring_range (l : MonitoringLoop) : Z :=
  monitoring_range_days l.

(** The [while current_date <= end_date] loop of [_check_for_new_images]. *)
Fixpoint recent_urls_loop (fuel : nat) (current_date end_date : datetime)
    (recent_urls : list string) : option (py_result (list string)) :=
  match fuel with
  | O => None
  | S fuel' =>
      if leb current_date end_date then
        let recent_urls' := recent_urls ++ generate_daily_urls current_date in
        match next_day current_date with
        | Some current_date' =>
            recent_urls_loop fuel' current_date' end_date recent_urls'
        | None => Some (Raise OverflowError)
        end
      else Some (Ok recent_urls)
  end.

(** The candidate URLs of one cycle: [end_date = datetime.now()],
    [start_date = end_date - timedelta(days=self.monitoring_range_days)] and
    the loop above. *)
Definition recent_urls (fuel : nat) (l : MonitoringLoop) (now : datetime)
    : option (py_result (list string)) :=
  let end_date := now in
  match add_days end_date (- monitoring_range_days l) with
  | None => Some (Raise OverflowError)
  | Some start_date => recent_urls_loop fuel start_date end_date []
  end.

(** [url.split('/')[-1]]: [seg] is the segment read so far. *)
Fixpoint last_segment_from (seg : string) (s : string) : string :=
  match s with
  | EmptyString => seg
  | String c s' =>
      if Ascii.eqb c "/" then last_segment_from EmptyString s'
      else last_segment_from (seg +:+ String c EmptyString) s'
  end.

Definition last_segment (s : string) : string :=
  last_segment_from EmptyString s.

Fixpoint _filter_new_images (st : StorageOrganizer) (w : world)
    (urls : list string) : list string :=
  match urls with
  | [] => []
  | url :: rest =>
      match extract_metadata_from_url url with
      | None => _filter_new_images st w rest
      | Some (date, time_seq) =>
          if String.eqb time_seq "" then _filter_new_images st w rest
          else
            let filename := last_segment url in
            if negb (file_exists st w filename date)
            then url :: _filter_new_images st w rest
            else _filter_new_images st w rest
      end
  end.

Fixpoint _download_new_images (env : environment) (st : StorageOrganizer)
    (dm : DownloadManager) (urls : list string) (w : world)
    : DownloadManager * world :=
  match urls with
  | [] => (dm, w)
  | url :: rest =>
      match extract_metadata_from_url url with
      | None => _download_new_images env st dm rest w
      | Some (date, time_seq) =>
          if String.eqb time_seq "" then _download_new_images env st dm rest w
          else
            let filename := last_segment url in
            let local_path := get_local_path st filename date in
            let task := new_task url local_path in
            let '(_, _, dm1, w1) := download_and_save env dm task w in
            _download_new_images env st dm1 rest w1
      end
  end.

Definition update_loop (l : MonitoringLoop) (dm : DownloadManager)
    (checks found : Z) (last : option datetime) : MonitoringLoop :=
  {| download_manager := dm; storage := storage l;
     check_interval := check_interval l;
     monitoring_range_days := monitoring_range_days l;
     is_running := is_running l; last_check_time := last;
     total_checks := checks; new_images_found := found |}.

(** One monitoring cycle with no callbacks installed.  [check_start_time]
    and [now] are the two readings of [datetime.now()].  An exception inside
    the [try] ends the cycle early. *)
Definition _check_for_new_images (fuel : nat) (env : environment)
    (l : MonitoringLoop) (check_start_time now : datetime) (w : world)
    : option (MonitoringLoop * world) :=
  let checks := total_checks l + 1 in
  match recent_urls fuel l now with
  | None => None
  | Some (Raise _) =>
      Some (update_loop l (download_manager l) checks (new_images_found l)
              (last_check_time l), w)
  | Some (Ok urls) =>
      let new_urls := _filter_new_images (storage l) w urls in
      match new_urls with
      | [] =>
          Some (update_loop l (download_manager l) checks (new_images_found l)
                  (Some check_start_time), w)
      | _ :: _ =>
          let found := new_images_found l + Z.of_nat (length new_urls) in
          let '(dm, w1) :=
            _download_new_images env (storage l) (download_manager l)
              new_urls w in
          Some (update_loop l dm checks found (Some check_start_time), w1)
      end
  end.

Record status_report := {
  st_is_running : bool;
  st_check_interval_minutes : Z;
  st_monitoring_range_days : Z;
  st_total_checks : Z;
  st_last_check_time : option datetime;
  st_new_images_found : Z;
  st_total_downloads : Z;
  st_failed_downloads : Z
}.

Definition get_status (l : MonitoringLoop) : status_report :=
  {| st_is_running := is_running l;
     st_check_interval_minutes := check_interval l;
     st_monitoring_range_days := monitoring_range_days l;
     st_total_checks := total_checks l;
     st_last_check_time := last_check_time l;
     st_new_images_found := new_images_found l;
     st_total_downloads := get_download_count (download_manager l);
     st_failed_downloads :=
       Z.of_nat (length (get_failed_tasks (download_manager l))) |}.

End Monitoring.

(** ** Concrete configurations used in examples *)

Module Samples.
Import Calendar World Storage Models Fetcher Manager Monitoring.

(** [StorageOrganizer("data")] *)
Definition data_storage : StorageOrganizer :=
  {| base_data_dir := ["data"]; resolution := "1024"; solar_filter := "0211" |}.

(** [ImageFetcher(rate_limit_delay=1.0)], five retries by default. *)
Definition default_fetcher : ImageFetcher := new_fetcher 1 5.

Definition default_manager : DownloadManager :=
  new_manager default_fetcher data_storage.

(** [MonitoringLoop(.., check_interval_minutes=5, monitoring_range_days=1)] *)
Definition default_loop : MonitoringLoop :=
  new_loop default_manager data_storage 5 1.

Definition healthy_disk : path -> bytes -> disk_outcome :=
  fun _ data => Stored data.

(** A server that gives the same answer to every request, reached without
    delay, and a disk that stores what it is given. *)
Definition constant_env (r : http_result) : environment :=
  {| server := fun _ _ _ => r; latency := fun _ => 0%Q;
     disk := healthy_disk; dir_size := fun _ => 4096;
     os_error := fun _ => "File exists" |}.

(** Nothing on disk, nothing requested yet, clock at 0. *)
Definition start_world : world := {| clock := 0; fs := ∅; trace := [] |}.

Definition scraper_1024_0211 : Scraper.DirectoryScraper :=
  {| Scraper.rate_limit_delay := 1; Scraper.resolution := "1024";
     Scraper.solar_filter := "0211" |}.

(** A listing with two anchors to different files and a third file that is
    only named in the text. *)
Definition listing_page : string :=
  "<a href='20240301_002400_1024_0211.jpg'>b</a> <a href='20240301_001200_1024_0211.jpg'>a</a> 20240301_003600_1024_0211.jpg".

Definition listing_page_hrefs : list string :=
  ["20240301_002400_1024_0211.jpg"; "20240301_001200_1024_0211.jpg"].



Definition image_url : string :=
  "https://sdo.gsfc.nasa.gov/assets/img/browse/2024/03/01/20240301_001200_1024_0211.jpg".

(** The task [create_download_tasks] builds for that image under ["data"]. *)
Definition image_task : DownloadTask :=
  new_task image_url
    ["data"; "2024"; "03"; "01"; "20240301_001200_1024_0211.jpg"].

Definition jpeg_bytes : bytes := [Byte.xff; Byte.xd8; Byte.xff; Byte.xe0].

(** The server has the image. *)
Definition image_env : environment :=
  constant_env (Response 200 jpeg_bytes "" (Some "4")).

(** The server answers 200 with an empty body. *)
Definition empty_body_env : environment :=
  constant_env (Response 200 [] "" (Some "0")).

(** The server has the image, the disk keeps only its first byte. *)
Definition short_write_env : environment :=
  {| server := fun _ _ _ => Response 200 jpeg_bytes "" (Some "4");
     latency := fun _ => 0%Q;
     disk := fun _ data => Stored (take 1 data);
     dir_size := fun _ => 4096;
     os_error := fun _ => "File exists" |}.

(** The server has the image, the disk is full. *)
Definition disk_full_env : environment :=
  {| server := fun _ _ _ => Response 200 jpeg_bytes "" (Some "4");
     latency := fun _ => 0%Q;
     disk := fun _ _ => WriteFails None "No space left on device";
     dir_size := fun _ => 4096;
     os_error := fun _ => "File exists" |}.

(** A task whose filename carries no date. *)
Definition undated_task : DownloadTask :=
  new_task "https://example.org/latest.jpg" ["data"; "latest.jpg"].

End Samples.

(** ** Further functions of the same files *)

(** *** [url_generator.py]: validation and the 30-day range *)

Module URLChecks.
Import Text Calendar URLGenerator.

Definition generate_last_month_urls (fuel : nat) (now : datetime)
    (end_date : option datetime) : option (py_result (list string)) :=
  generate_date_range_urls fuel now 30 end_date.

(** [str.isascii()]: every character is below code point 128. *)
Fixpoint isascii (s : string) : bool :=
  match s with
  | EmptyString => true
  | String c s' => (N_of_ascii c <? 128)%N && isascii s'
  end.

Definition validate_url (url : string) : bool :=
  if String.eqb url "" then false
  else
    match url_pattern_match url with
    | None => false
    | Some (year, month, day, date_part, time_part) =>
        match datetime_ymd (int_of_digits year) (int_of_digits month)
                           (int_of_digits day) with
        | None => false
        | Some _ =>
            let expected_date := year +:+ month +:+ day in
            if negb (String.eqb date_part expected_date) then false
            else if negb (String.length time_part =? 6)%nat then false
            else
              let hour := int_of_digits (String.substring 0 2 time_part) in
              let minute := int_of_digits (String.substring 2 2 time_part) in
              let second := int_of_digits (String.substring 4 2 time_part) in
              (0 <=? hour) && (hour <=? 23) && (0 <=? minute)
              && (minute <=? 59) && (0 <=? second) && (second <=? 59)
        end
    end.

End URLChecks.

(** *** [directory_scraper.py]: ranges of days and download tasks *)

Module ScraperRange.
Import Text Calendar World Storage Models Scraper.

Definition update_filters (sc : DirectoryScraper) (res filt : string)
    : DirectoryScraper :=
  {| rate_limit_delay := rate_limit_delay sc; resolution := res;
     solar_filter := filt |}.

Definition get_image_url (date : datetime) (filename : string) : string :=
  get_directory_url date +:+ filename.

(** The eight digits [YYYYMMDD] of a date, as the file names of the server
    carry them. *)
Definition date_digits (d : datetime) : string :=
  fmt04 (year d) +:+ fmt02 (month d) +:+ fmt02 (day d).

(** [for filename in filenames: all_images.append((current_date, filename))] *)
Definition tag_with_date (date : datetime) (filenames : list string)
    : list (datetime * string) :=
  map (fun filename => (date, filename)) filenames.

Section Range.
Variable anchor_hrefs : string -> list string.

(** The [while current_date <= end_date] loop of
    [get_available_images_for_date_range]: scrape the day, step to the next
    day, and sleep [rate_limit_delay] if that day is still in the range. *)
Fixpoint available_images_loop (fuel : nat) (env : environment)
    (sc : DirectoryScraper) (current_date end_date : datetime)
    (all_images : list (datetime * string)) (w : world)
    : option (py_result (list (datetime * string)) * world) :=
  match fuel with
  | O => None
  | S fuel' =>
      if leb current_date end_date then
        let '(filenames, w1) :=
          scrape_directory anchor_hrefs env sc current_date w in
        let all_images' := all_images ++ tag_with_date current_date filenames in
        match next_day current_date with
        | None => Some (Raise OverflowError, w1)
        | Some current_date' =>
            let w2 := if leb current_date' end_date
                      then sleep RateLimit (rate_limit_delay sc) w1
                      else w1 in
            available_images_loop fuel' env sc current_date' end_date
              all_images' w2
        end
      else Some (Ok all_images, w)
  end.

Definition get_available_images_for_date_range (fuel : nat)
    (env : environment) (sc : DirectoryScraper)
    (start_date end_date : datetime) (w : world)
    : option (py_result (list (datetime * string)) * world) :=
  available_images_loop fuel env sc start_date end_date [] w.
End Range.

(** One GET per day, a rate-limit sleep between two days and none after the
    last. *)
Fixpoint scrape_schedule (delay : Q) (dates : list datetime) : list step :=
  match dates with
  | [] => []
  | d :: rest =>
      Req GET (get_directory_url d)
        :: match rest with
           | [] => []
           | _ :: _ => Nap RateLimit delay :: scrape_schedule delay rest
           end
  end.

(** The shape of a file name the scraper looks for: eight digits, six
    digits, the resolution and the filter. *)
Definition canonical_name (sc : DirectoryScraper) (name : string) : Prop :=
  exists date_part time_part,
    all_digits 8 date_part = true /\ all_digits 6 time_part = true
    /\ name = date_part +:+ "_" +:+ time_part +:+ "_" +:+ resolution sc
               +:+ "_" +:+ solar_filter sc +:+ ".jpg".

Fixpoint create_download_tasks_loop (st : StorageOrganizer)
    (new_images : list (datetime * string)) (tasks : list DownloadTask)
    : list DownloadTask :=
  match new_images with
  | [] => tasks
  | (date, filename) :: rest =>
      let url := get_image_url date filename in
      let local_path := get_local_path st filename date in
      create_download_tasks_loop st rest (tasks ++ [new_task url local_path])
  end.

Definition create_download_tasks (new_images : list (datetime * string))
    (st : StorageOrganizer) : list DownloadTask :=
  create_download_tasks_loop st new_images [].

End ScraperRange.

(** *** [storage_organizer.py]: listing and cleaning a day's directory *)

Module StorageListing.
Import Text Calendar World Storage.

Definition update_file_pattern (s : StorageOrganizer) (res filt : string)
    : StorageOrganizer :=
  {| base_data_dir := base_data_dir s; resolution := res;
     solar_filter := filt |}.

(** [s] ends with [suffix]. *)
Fixpoint ends_with (suffix s : string) : bool :=
  if String.eqb suffix s then true
  else match s with
       | EmptyString => false
       | String _ s' => ends_with suffix s'
       end.

(** The glob pattern [*_{resolution}_{solar_filter}.jpg] on a file name; the
    resolution and the filter are the documented all-digit codes, so the
    pattern asks for a literal ending. *)
Definition matches_pattern (s : StorageOrganizer) (name : string) : bool :=
  ends_with ("_" +:+ resolution s +:+ "_" +:+ solar_filter s +:+ ".jpg") name.

(** [k] is [p / name] for a single name. *)
Definition child_name (p k : path) : option string :=
  match drop (length p) k with
  | [name] => if bool_decide (take (length p) k = p) then Some name else None
  | _ => None
  end.

(** The entries of directory [p], in the order the system lists them.  That
    order is not specified; the model takes the enumeration order of the
    map, and nothing below depends on it. *)
Definition dir_entries (m : gmap path node) (p : path)
    : list (string * node) :=
  omap (fun kn : path * node =>
          match child_name p kn.1 with
          | Some name => Some (name, kn.2)
          | None => None
          end) (map_to_list m).

(** [date_path.glob(pattern)]: nothing unless [date_path] is a directory. *)
Definition glob_date_path (s : StorageOrganizer) (w : world) (date : datetime)
    : list (string * node) :=
  match fs w !! get_date_path s date with
  | Some Dir =>
      List.filter (fun e => matches_pattern s e.1)
        (dir_entries (fs w) (get_date_path s date))
  | _ => []
  end.

Definition list_local_images (s : StorageOrganizer) (w : world)
    (date : datetime) : list string :=
  match fs w !! get_date_path s date with
  | None => []
  | Some _ => Scraper.sorted (map fst (glob_date_path s w date))
  end.


(** A file name as the callers pass it: one path segment that does not name
    the parent directory. *)
Definition single_segment (name : string) : bool :=
  negb (String.eqb name "..") && negb (contains "/" name).



End StorageListing.

(** *** [image_fetcher.py] and [monitoring_loop.py]: counters and the forced
    check *)

Module Counters.
Import Calendar World Models Fetcher Manager Monitoring.

Definition reset_counters (m : DownloadManager) : DownloadManager :=
  {| fetcher := fetcher m; Manager.storage := Manager.storage m;
     download_count := 0; failed_tasks := [] |}.

(** [force_check]: nothing happens unless the loop is running. *)
Definition force_check (fuel : nat) (env : environment) (l : MonitoringLoop)
    (check_start_time now : datetime) (w : world)
    : option (MonitoringLoop * world) :=
  if negb (is_running l) then Some (l, w)
  else _check_for_new_images fuel env l check_start_time now w.

End Counters.

(** *** Vocabulary for the retry loop *)

Module Retry.
Import World Fetcher.

(** The [status_forcelist] of the retry policy mounted on the session: a GET
    answered with one of these is resent inside [session.get] and never
    comes back as a response. *)
Definition status_forcelist : list Z := [429; 500; 502; 503; 504].

(** The outcomes of [session.get] after which [download_image] tries again:
    a timeout, a connection error, or a response with a status other than
    200 and 404 (and not one of the statuses the session keeps to
    itself). *)
Definition retryable (r : http_result) : bool :=
  match r with
  | Response status_code _ _ _ =>
      negb (status_code =? 200) && negb (status_code =? 404)
      && negb (bool_decide (status_code ∈ status_forcelist))
  | RaiseTimeout | RaiseConnectionError => true
  | RaiseOther _ => false
  end.

(** [n] failed attempts, each followed by its backoff sleep, and one more
    request; [attempt] is the number of the first one. *)
Fixpoint retry_schedule (url : string) (attempt : Z) (n : nat) : list step :=
  match n with
  | O => [Req GET url]
  | S n' =>
      Req GET url :: Nap Backoff (inject_Z (_exponential_backoff attempt))
        :: retry_schedule url (attempt + 1) n'
  end.

(** The two shapes of a fetch result. *)
Definition fetch_shape (r : fetch_result) : Prop :=
  (exists data, r = (true, Some data, None))
  \/ (exists msg, r = (false, None, Some msg)).

End Retry.

(** *** More concrete configurations *)

(** *** Vocabulary for the candidates of a monitoring cycle *)

Module Candidates.
Import Text Calendar World Storage URLGenerator.

(** The [filename] that [construct_url] builds for a date and a time. *)
Definition image_filename (date : datetime) (time_sequence : string)
    : string :=
  strftime_Ymd date +:+ "_" +:+ time_sequence +:+ "_" +:+ RESOLUTION +:+ "_"
    +:+ INSTRUMENT_CODE +:+ ".jpg".

(** The candidate of [date] at [time_sequence] has no file in the day's
    directory. *)
Definition missing (st : StorageOrganizer) (w : world) (date : datetime)
    (time_sequence : string) : bool :=
  negb (file_exists st w (image_filename date time_sequence) date).

Definition missing_urls (st : StorageOrganizer) (w : world)
    (dates : list datetime) : list string :=
  flat_map (fun d => map (construct_url d)
                       (List.filter (missing st w d) time_patterns)) dates.

Fixpoint no_slash (s : string) : bool :=
  match s with
  | EmptyString => true
  | String c s' => negb (Ascii.eqb c "/") && no_slash s'
  end.

End Candidates.

Module MoreSamples.
Import Calendar World Storage Models Fetcher Manager Samples.

(** The first two calls time out, then the image arrives. *)
Definition flaky_env : environment :=
  {| server := fun n _ _ =>
                 if (n <? 2)%nat then RaiseTimeout
                 else Response 200 jpeg_bytes "" (Some "4");
     latency := fun _ => 0%Q;
     disk := healthy_disk;
     dir_size := fun _ => 4096;
     os_error := fun _ => "File exists" |}.

Definition march_first : datetime := mk_datetime 2024 3 1 0 0 0 0.

Definition half_past_ten : datetime := mk_datetime 2024 3 1 10 30 0 0.

(** A task for the image of March 1st whose target lies in the directory of
    March 2nd. *)
Definition misfiled_task : DownloadTask :=
  new_task image_url
    ["data"; "2024"; "03"; "02"; "20240301_001200_1024_0211.jpg"].

(** [data/2024/03/01] holding two empty files and one image for the
    1024/0211 pattern, and one empty file of another filter. *)
Definition cluttered_world : world :=
  {| clock := 0;
     fs := list_to_map
             [ (["data"], Dir); (["data"; "2024"], Dir);
               (["data"; "2024"; "03"], Dir);
               (["data"; "2024"; "03"; "01"], Dir);
               (["data"; "2024"; "03"; "01"; "20240301_001200_1024_0211.jpg"],
                File []);
               (["data"; "2024"; "03"; "01"; "20240301_002400_1024_0211.jpg"],
                File jpeg_bytes);
               (["data"; "2024"; "03"; "01"; "20240301_003600_1024_0211.jpg"],
                File []);
               (["data"; "2024"; "03"; "01"; "20240301_001200_1024_0193.jpg"],
                File []) ];
     trace := [] |}.

End MoreSamples.

(** * Properties *)

(** ** Digits and literal matching *)

Section TextFacts.
Import Text.

Lemma append_cons (c : ascii) (s r : string) :
  String c s +:+ r = String c (s +:+ r).
Proof. reflexivity. Qed.

Lemma append_nil (r : string) : EmptyString +:+ r = r.
Proof. reflexivity. Qed.

Lemma append_assoc (a b c : string) : (a +:+ b) +:+ c = a +:+ (b +:+ c).
Proof.
  induction a as [|x a IH]; [reflexivity|].
  rewrite !append_cons. now rewrite IH.
Qed.

Lemma digit_char_spec (n : Z) :
  0 <= n <= 9 ->
  is_digit (digit_char n) = true /\ digit_val (digit_char n) = n.
Proof.
  intros H. rewrite <- (Z2Nat.id n) by lia.
  assert (Z.to_nat n < 10)%nat as Hk by lia.
  revert Hk. generalize (Z.to_nat n). intros k Hk.
  do 10 (destruct k as [|k]; [split; reflexivity|]). lia.
Qed.

Lemma is_digit_digit_char (n : Z) :
  0 <= n <= 9 -> is_digit (digit_char n) = true.
Proof. intros H. apply (digit_char_spec n H). Qed.

Lemma digit_val_digit_char (n : Z) :
  0 <= n <= 9 -> digit_val (digit_char n) = n.
Proof. intros H. apply (digit_char_spec n H). Qed.

Lemma mod10_digit (n : Z) : 0 <= n mod 10 <= 9.
Proof. pose proof (Z.mod_pos_bound n 10). lia. Qed.

Lemma all_digits_fmt02 (n : Z) : all_digits 2 (fmt02 n) = true.
Proof.
  unfold fmt02. cbn [all_digits].
  rewrite !is_digit_digit_char by apply mod10_digit. reflexivity.
Qed.

Lemma all_digits_fmt04 (n : Z) : all_digits 4 (fmt04 n) = true.
Proof.
  unfold fmt04, fmt02. cbn [all_digits].
  rewrite !is_digit_digit_char by apply mod10_digit. reflexivity.
Qed.

Lemma int_of_digits_fmt02 (n : Z) :
  0 <= n <= 99 -> int_of_digits (fmt02 n) = n.
Proof.
  intros H. unfold int_of_digits, fmt02. cbn [int_acc].
  rewrite !digit_val_digit_char by apply mod10_digit.
  Z.to_euclidean_division_equations. lia.
Qed.

Lemma int_of_digits_fmt04 (n : Z) :
  0 <= n <= 9999 -> int_of_digits (fmt04 n) = n.
Proof.
  intros H. unfold int_of_digits, fmt04, fmt02. cbn [int_acc].
  rewrite !digit_val_digit_char by apply mod10_digit.
  Z.to_euclidean_division_equations. lia.
Qed.

Lemma fmt_year_four (n : Z) : 1000 <= n -> fmt_year n = fmt04 n.
Proof.
  intros H. unfold fmt_year.
  destruct (Z.ltb_spec n 10); [lia|]. destruct (Z.ltb_spec n 100); [lia|].
  destruct (Z.ltb_spec n 1000); [lia|reflexivity].
Qed.

(** Below 1000 the year has fewer than four digits. *)
Lemma fmt_year_short (n : Z) :
  n < 1000 -> (String.length (fmt_year n) <= 3)%nat.
Proof.
  intros H. unfold fmt_year.
  destruct (Z.ltb_spec n 10); [cbn; lia|].
  destruct (Z.ltb_spec n 100); [cbn; lia|].
  destruct (Z.ltb_spec n 1000); [cbn; lia|lia].
Qed.

Lemma fmt_year_digits (n : Z) :
  exists k, (1 <= k <= 4)%nat /\ all_digits k (fmt_year n) = true.
Proof.
  unfold fmt_year.
  destruct (n <? 10); [exists 1%nat|destruct (n <? 100);
    [exists 2%nat|destruct (n <? 1000); [exists 3%nat|exists 4%nat]]];
    (split; [lia|]); unfold fmt04, fmt02; cbn [all_digits];
    rewrite !is_digit_digit_char by apply mod10_digit; reflexivity.
Qed.

Lemma int_of_digits_fmt_year (n : Z) :
  0 <= n <= 9999 -> int_of_digits (fmt_year n) = n.
Proof.
  intros H. unfold fmt_year.
  destruct (Z.ltb_spec n 10).
  - unfold int_of_digits. cbn [int_acc].
    rewrite digit_val_digit_char by apply mod10_digit.
    Z.to_euclidean_division_equations. lia.
  - destruct (Z.ltb_spec n 100); [apply int_of_digits_fmt02; lia|].
    destruct (Z.ltb_spec n 1000); [|now apply int_of_digits_fmt04].
    unfold int_of_digits, fmt02. cbn [int_acc].
    rewrite !digit_val_digit_char by apply mod10_digit.
    Z.to_euclidean_division_equations. lia.
Qed.

Lemma fmt_year_inj (a b : Z) :
  0 <= a <= 9999 -> 0 <= b <= 9999 -> fmt_year a = fmt_year b -> a = b.
Proof.
  intros Ha Hb E. rewrite <- (int_of_digits_fmt_year a Ha).
  rewrite <- (int_of_digits_fmt_year b Hb). now rewrite E.
Qed.

Lemma all_digits_app (a b : nat) (s1 s2 : string) :
  all_digits a s1 = true -> all_digits b s2 = true ->
  all_digits (a + b) (s1 +:+ s2) = true.
Proof.
  revert s1. induction a as [|a IH]; intros [|c s1] H1 H2; try discriminate.
  - exact H2.
  - cbn [all_digits] in H1. apply andb_true_iff in H1 as [Hc H1].
    rewrite append_cons. cbn [Nat.add all_digits]. rewrite Hc. now apply IH.
Qed.

Lemma take_digits_app (n : nat) (s r : string) :
  all_digits n s = true -> take_digits n (s +:+ r) = Some (s, r).
Proof.
  revert s. induction n as [|n IH]; intros [|c s] H; try discriminate.
  - reflexivity.
  - cbn [all_digits] in H. apply andb_true_iff in H as [Hc H].
    rewrite append_cons. cbn [take_digits]. rewrite Hc, (IH s H). reflexivity.
Qed.

Lemma expect_app (lit r : string) : expect lit (lit +:+ r) = Some r.
Proof.
  induction lit as [|c lit IH]; [reflexivity|].
  rewrite append_cons. cbn [expect]. now rewrite Ascii.eqb_refl.
Qed.

End TextFacts.

(** ** Calendar facts *)

Section CalendarFacts.
Import Calendar.

Lemma days_in_month_bounds (y m : Z) : 28 <= days_in_month y m <= 31.
Proof.
  unfold days_in_month.
  destruct (m =? 2); [destruct (is_leap y); lia|].
  destruct ((m =? 4) || (m =? 6) || (m =? 9) || (m =? 11)); lia.
Qed.

Lemma valid_date_bounds (y m d : Z) :
  valid_date y m d = true ->
  1 <= y <= 9999 /\ 1 <= m <= 12 /\ 1 <= d <= days_in_month y m.
Proof.
  unfold valid_date, MINYEAR, MAXYEAR. rewrite !andb_true_iff, !Z.leb_le. lia.
Qed.

Lemma valid_date_intro (y m d : Z) :
  1 <= y <= 9999 -> 1 <= m <= 12 -> 1 <= d <= days_in_month y m ->
  valid_date y m d = true.
Proof.
  intros. unfold valid_date, MINYEAR, MAXYEAR.
  rewrite !andb_true_iff, !Z.leb_le. lia.
Qed.

Lemma valid_split (d : datetime) :
  valid d = true ->
  valid_date (year d) (month d) (day d) = true
  /\ valid_time (hour d) (minute d) (second d) (microsecond d) = true.
Proof. unfold valid. now rewrite andb_true_iff. Qed.

Lemma compare_same_time (a b : datetime) :
  same_time a b ->
  compare a b =
  lex (year a ?= year b) (lex (month a ?= month b) (day a ?= day b)).
Proof.
  intros (Hh & Hm & Hs & Hu). unfold compare.
  rewrite Hh, Hm, Hs, Hu, !Z.compare_refl.
  destruct (year a ?= year b), (month a ?= month b), (day a ?= day b);
    reflexivity.
Qed.

Lemma leb_same_time (a b : datetime) :
  valid a = true -> valid b = true -> same_time a b ->
  leb a b = (ymd_key a <=? ymd_key b).
Proof.
  intros Ha Hb Hab. unfold leb. rewrite (compare_same_time a b Hab).
  destruct (valid_split a Ha) as [Ha' _]. destruct (valid_split b Hb) as [Hb' _].
  apply valid_date_bounds in Ha' as (? & ? & ?).
  apply valid_date_bounds in Hb' as (? & ? & ?).
  pose proof (days_in_month_bounds (year a) (month a)).
  pose proof (days_in_month_bounds (year b) (month b)).
  unfold ymd_key.
  destruct (Z.compare_spec (year a) (year b));
    destruct (Z.compare_spec (month a) (month b));
    destruct (Z.compare_spec (day a) (day b)); cbn [lex]; symmetry;
    first [apply Z.leb_le; lia | apply Z.leb_gt; lia].
Qed.

Lemma next_day_spec (d d' : datetime) :
  valid d = true -> next_day d = Some d' ->
  valid d' = true /\ same_time d d' /\ ymd_key d < ymd_key d'.
Proof.
  intros Hd Hn. destruct (valid_split d Hd) as [Hdate Htime].
  apply valid_date_bounds in Hdate as (Hy & Hm & Hdd).
  pose proof (days_in_month_bounds (year d) (month d)).
  pose proof (days_in_month_bounds (year d) (month d + 1)).
  pose proof (days_in_month_bounds (year d + 1) 1).
  unfold next_day, MAXYEAR in Hn.
  destruct (Z.ltb_spec (day d) (days_in_month (year d) (month d)));
    [|destruct (Z.ltb_spec (month d) 12);
      [|destruct (Z.ltb_spec (year d) 9999); [|discriminate]]];
    injection Hn as <-; (split; [|split]);
    try (unfold same_time; cbn; tauto);
    try (unfold ymd_key; cbn; lia);
    unfold valid; cbn; rewrite Htime, andb_true_r;
    apply valid_date_intro; lia.
Qed.

Lemma prev_day_spec (d p : datetime) :
  valid d = true -> prev_day d = Some p ->
  valid p = true /\ next_day p = Some d.
Proof.
  intros Hd Hp. destruct (valid_split d Hd) as [Hdate Htime].
  apply valid_date_bounds in Hdate as (Hy & Hm & Hdd).
  pose proof (days_in_month_bounds (year d) (month d)).
  pose proof (days_in_month_bounds (year d) (month d - 1)).
  destruct d as [y m dd h mi s us]. cbn in *.
  unfold prev_day, MINYEAR in Hp. cbn in Hp.
  destruct (Z.ltb_spec 1 dd);
    [|destruct (Z.ltb_spec 1 m);
      [|destruct (Z.ltb_spec 1 y); [|discriminate]]];
    injection Hp as <-; unfold valid, next_day, with_ymd, MAXYEAR; cbn.
  - split.
    + rewrite Htime, andb_true_r. apply valid_date_intro; lia.
    + destruct (Z.ltb_spec (dd - 1) (days_in_month y m)); [|lia].
      do 2 f_equal. lia.
  - split.
    + rewrite Htime, andb_true_r. apply valid_date_intro; lia.
    + rewrite Z.ltb_irrefl.
      destruct (Z.ltb_spec (m - 1) 12); [|lia].
      do 2 f_equal; lia.
  - split.
    + rewrite Htime, andb_true_r. apply valid_date_intro; [lia|lia|].
      unfold days_in_month. cbn. lia.
    + destruct (Z.ltb_spec (y - 1) 9999); [|lia].
      do 2 f_equal; lia.
Qed.

End CalendarFacts.

(** ** URL generator: construct / extract *)

Section URLFacts.
Import Text Calendar URLGenerator.

Lemma construct_url_shape (d : datetime) (ts : string) :
  construct_url d ts =
  "https://sdo.gsfc.nasa.gov/assets/img/browse/" +:+ fmt_year (year d) +:+ "/"
    +:+ fmt02 (month d) +:+ "/" +:+ fmt02 (day d) +:+ "/"
    +:+ (fmt_year (year d) +:+ fmt02 (month d) +:+ fmt02 (day d))
    +:+ "_" +:+ ts +:+ "_4096_0211.jpg".
Proof.
  unfold construct_url, strftime_Ymd, strftime_Y, strftime_m, strftime_d,
    BASE_URL, RESOLUTION, INSTRUMENT_CODE.
  rewrite !append_assoc. reflexivity.
Qed.

Lemma url_pattern_match_construct (d : datetime) (ts : string) :
  1000 <= year d ->
  all_digits 6 ts = true ->
  url_pattern_match (construct_url d ts) =
  Some (fmt04 (year d), fmt02 (month d), fmt02 (day d),
        fmt04 (year d) +:+ fmt02 (month d) +:+ fmt02 (day d), ts).
Proof.
  intros Hy Hts. rewrite construct_url_shape, (fmt_year_four _ Hy).
  unfold url_pattern_match.
  rewrite expect_app.
  rewrite take_digits_app by apply all_digits_fmt04.
  rewrite expect_app.
  rewrite take_digits_app by apply all_digits_fmt02.
  rewrite expect_app.
  rewrite take_digits_app by apply all_digits_fmt02.
  rewrite expect_app.
  rewrite (take_digits_app 8).
  2:{ apply (all_digits_app 4 4); [apply all_digits_fmt04|].
      apply (all_digits_app 2 2); apply all_digits_fmt02. }
  rewrite expect_app.
  rewrite take_digits_app by exact Hts.
  reflexivity.
Qed.

Lemma extract_metadata_construct_url (d : datetime) (ts : string) :
  valid d = true -> 1000 <= year d -> all_digits 6 ts = true ->
  extract_metadata_from_url (construct_url d ts) = Some (midnight d, ts).
Proof.
  intros Hd Hyear Hts. unfold extract_metadata_from_url.
  rewrite (url_pattern_match_construct d ts Hyear Hts).
  destruct (valid_split d Hd) as [Hdate _].
  pose proof (valid_date_bounds _ _ _ Hdate) as (Hy & Hm & Hdd).
  pose proof (days_in_month_bounds (year d) (month d)).
  rewrite int_of_digits_fmt04, !int_of_digits_fmt02 by lia.
  unfold datetime_ymd. rewrite Hdate. reflexivity.
Qed.

Lemma is_digit_slash : is_digit "/" = false.
Proof. reflexivity. Qed.

(** Before the year 1000 the URL that [construct_url] builds has a year of
    fewer than four digits, which [url_pattern] does not match. *)
Lemma url_pattern_match_short_year (d : datetime) (ts : string) :
  year d < 1000 -> url_pattern_match (construct_url d ts) = None.
Proof.
  intros Hy. rewrite construct_url_shape. unfold url_pattern_match.
  rewrite expect_app. unfold fmt_year.
  destruct (Z.ltb_spec (year d) 10);
    [|destruct (Z.ltb_spec (year d) 100);
      [|destruct (Z.ltb_spec (year d) 1000); [|lia]]];
    unfold fmt02; repeat first [rewrite append_cons | rewrite append_nil];
    cbn [take_digits];
    rewrite ?is_digit_digit_char by apply mod10_digit;
    now rewrite is_digit_slash.
Qed.

(** C5, as the code has it: from the year 1000 on, extracting the metadata
    of a constructed URL gives back the time sequence and the calendar date
    of the input, at 00:00:00 -- the URL carries no time of day of the
    [datetime].  (Before the year 1000 the constructed URL has a shorter
    year and does not parse: [extract_construct_short_year] below.) *)
Theorem extract_construct_midnight (d : datetime) (ts : string) :
  valid d = true ->
  1000 <= year d ->
  all_digits 6 ts = true ->
  extract_metadata_from_url (construct_url d ts) = Some (midnight d, ts).
Proof.
  intros Hd Hyear Hts. unfold extract_metadata_from_url.
  rewrite (url_pattern_match_construct d ts Hyear Hts).
  destruct (valid_split d Hd) as [Hdate _].
  pose proof (valid_date_bounds _ _ _ Hdate) as (Hy & Hm & Hdd).
  pose proof (days_in_month_bounds (year d) (month d)).
  rewrite int_of_digits_fmt04, !int_of_digits_fmt02 by lia.
  unfold datetime_ymd. rewrite Hdate. reflexivity.
Qed.

Lemma extract_construct_midnight_witness :
  valid (mk_datetime 2024 3 1 0 0 0 0) = true
  /\ 1000 <= year (mk_datetime 2024 3 1 0 0 0 0)
  /\ all_digits 6 "001200" = true
  /\ extract_metadata_from_url
    (construct_url (mk_datetime 2024 3 1 0 0 0 0) "001200")
  = Some (mk_datetime 2024 3 1 0 0 0 0, "001200").
Proof.
  split; [reflexivity|]. split; [cbn; lia|]. split; [reflexivity|].
  apply (extract_construct_midnight (mk_datetime 2024 3 1 0 0 0 0) "001200");
    [reflexivity|cbn; lia|reflexivity].
Defined.

(** Before the year 1000 nothing comes back: [(None, None)]. *)
Lemma extract_construct_short_year (d : datetime) (ts : string) :
  year d < 1000 -> extract_metadata_from_url (construct_url d ts) = None.
Proof.
  intros Hy. unfold extract_metadata_from_url.
  now rewrite (url_pattern_match_short_year d ts Hy).
Qed.

(** C5 as stated fails: a [datetime] with a time of day (what
    [datetime.now()] gives) does not come back unchanged. *)
Lemma extract_construct_loses_time_of_day :
  valid (mk_datetime 2024 3 1 13 45 0 0) = true
  /\ all_digits 6 "001200" = true
  /\ extract_metadata_from_url
       (construct_url (mk_datetime 2024 3 1 13 45 0 0) "001200")
     = Some (mk_datetime 2024 3 1 0 0 0 0, "001200")
  /\ extract_metadata_from_url
       (construct_url (mk_datetime 2024 3 1 13 45 0 0) "001200")
     <> Some (mk_datetime 2024 3 1 13 45 0 0, "001200").
Proof.
  repeat split; try reflexivity.
  vm_compute. discriminate.
Qed.

End URLFacts.

(** ** Day-by-day loops of the URL generator and of the monitoring cycle *)

Section DateRangeFacts.
Import Text Calendar URLGenerator.

Lemma same_time_refl (d : datetime) : same_time d d.
Proof. unfold same_time. tauto. Qed.

Lemma same_time_trans (a b c : datetime) :
  same_time a b -> same_time b c -> same_time a c.
Proof. unfold same_time. intuition congruence. Qed.

Lemma iter_days_snoc (step : datetime -> option datetime) (n : nat)
    (d : datetime) :
  iter_days step (S n) d =
  match iter_days step n d with Some x => step x | None => None end.
Proof.
  revert d. induction n as [|n IH]; intros d.
  - cbn. destruct (step d); reflexivity.
  - specialize (IH).
    cbn [iter_days] in *. destruct (step d) as [d'|]; [|reflexivity].
    exact (IH d').
Qed.

Lemma iter_next_spec (n : nat) :
  forall c e, valid c = true -> iter_days next_day n c = Some e ->
  valid e = true /\ same_time c e /\ ymd_key c + Z.of_nat n <= ymd_key e.
Proof.
  induction n as [|n IH]; intros c e Hc Hit.
  - injection Hit as <-. split; [exact Hc|]. split; [apply same_time_refl|lia].
  - cbn [iter_days] in Hit. destruct (next_day c) as [c'|] eqn:Hn; [|discriminate].
    destruct (next_day_spec c c' Hc Hn) as (Hc' & Hst & Hk).
    destruct (IH c' e Hc' Hit) as (He & Hst' & Hk').
    split; [exact He|]. split; [exact (same_time_trans _ _ _ Hst Hst')|lia].
Qed.

Lemma days_from_length (n : nat) :
  forall c e, iter_days next_day n c = Some e ->
  length (days_from (S n) c) = S n.
Proof.
  induction n as [|n IH]; intros c e Hit.
  - cbn. destruct (next_day c); reflexivity.
  - cbn [iter_days] in Hit. destruct (next_day c) as [c'|] eqn:Hn; [|discriminate].
    change (days_from (S (S n)) c)
      with (c :: match next_day c with
                 | Some d' => days_from (S n) d'
                 | None => []
                 end).
    rewrite Hn. cbn [length]. now rewrite (IH c' e Hit).
Qed.

Lemma back_then_forth (k : nat) :
  forall e s, valid e = true -> iter_days prev_day k e = Some s ->
  valid s = true /\ iter_days next_day k s = Some e
  /\ forall i, (i <= k)%nat ->
       days_from (S k) s !! i = iter_days prev_day (k - i) e.
Proof.
  induction k as [|k IH]; intros e s He Hit.
  - injection Hit as <-. split; [exact He|]. split; [reflexivity|].
    intros i Hi. assert (i = 0%nat) as -> by lia. reflexivity.
  - rewrite iter_days_snoc in Hit.
    destruct (iter_days prev_day k e) as [y|] eqn:Hy; [|discriminate].
    destruct (IH e y He Hy) as (Hvy & Hfwd & Hidx).
    destruct (prev_day_spec y s Hvy Hit) as (Hvs & Hnext).
    split; [exact Hvs|]. split.
    + cbn [iter_days]. rewrite Hnext. exact Hfwd.
    + intros i Hi.
      change (days_from (S (S k)) s)
        with (s :: match next_day s with
                   | Some d' => days_from (S k) d'
                   | None => []
                   end).
      rewrite Hnext. destruct i as [|i].
      * cbn [lookup list_lookup]. rewrite Nat.sub_0_r, iter_days_snoc, Hy.
        now rewrite Hit.
      * change ((s :: days_from (S k) y) !! S i) with (days_from (S k) y !! i).
        rewrite Hidx by lia. reflexivity.
Qed.

Lemma add_days_back (d : datetime) (x : Z) :
  0 <= x -> add_days d (- x) = iter_days prev_day (Z.to_nat x) d.
Proof.
  intros Hx. unfold add_days. destruct (Z.leb_spec 0 (- x)).
  - assert (x = 0) as -> by lia. reflexivity.
  - now rewrite Z.opp_involutive.
Qed.

Lemma date_range_loop_run (n : nat) :
  forall c e urls fuel,
  valid c = true -> iter_days next_day n c = Some e ->
  is_Some (next_day e) -> (n + 2 <= fuel)%nat ->
  date_range_loop fuel c e urls =
  Some (Ok (urls ++ flat_map generate_daily_urls (days_from (S n) c))).
Proof.
  induction n as [|n IH]; intros c e urls fuel Hc Hit [e' He'] Hfuel.
  - injection Hit as <-.
    destruct fuel as [|[|fuel]]; try lia.
    destruct (next_day_spec c e' Hc He') as (Hv' & Hst & Hk).
    cbn [date_range_loop].
    rewrite (leb_same_time c c Hc Hc (same_time_refl c)), Z.leb_refl, He'.
    rewrite (leb_same_time e' c Hv' Hc).
    2:{ unfold same_time in *. intuition congruence. }
    destruct (Z.leb_spec (ymd_key e') (ymd_key c)); [lia|].
    cbn [days_from]. rewrite He'. cbn [flat_map]. now rewrite app_nil_r.
  - cbn [iter_days] in Hit.
    destruct (next_day c) as [c'|] eqn:Hn; [|discriminate].
    destruct (next_day_spec c c' Hc Hn) as (Hc' & Hst & Hk).
    destruct (iter_next_spec n c' e Hc' Hit) as (Hve & Hst' & Hk').
    destruct fuel as [|fuel]; [lia|].
    cbn [date_range_loop].
    rewrite (leb_same_time c e Hc Hve (same_time_trans _ _ _ Hst Hst')).
    destruct (Z.leb_spec (ymd_key c) (ymd_key e)); [|lia].
    rewrite Hn.
    rewrite (IH c' e _ fuel Hc' Hit (ex_intro _ e' He')) by lia.
    change (days_from (S (S n)) c)
      with (c :: match next_day c with
                 | Some d' => days_from (S n) d'
                 | None => []
                 end).
    rewrite Hn. cbn [flat_map]. now rewrite app_assoc.
Qed.

End DateRangeFacts.

Section DateRangeClaims.
Import Text Calendar URLGenerator Monitoring.

Lemma recent_urls_loop_eq (fuel : nat) :
  forall c e urls, recent_urls_loop fuel c e urls = date_range_loop fuel c e urls.
Proof.
  induction fuel as [|fuel IH]; intros c e urls; [reflexivity|].
  cbn [recent_urls_loop date_range_loop].
  destruct (leb c e); [|reflexivity].
  destruct (next_day c); [apply IH|reflexivity].
Qed.

(** The days visited by a loop that starts [k] days before [e] and stops
    after [e]: exactly the [k + 1] dates [e - k], ..., [e], in this order. *)
Lemma window_dates (k : nat) (e s : datetime) (fuel : nat) :
  valid e = true -> iter_days prev_day k e = Some s ->
  is_Some (next_day e) -> (k + 2 <= fuel)%nat ->
  date_range_loop fuel s e [] =
    Some (Ok (flat_map generate_daily_urls (days_from (S k) s)))
  /\ length (days_from (S k) s) = S k
  /\ forall i, (i <= k)%nat ->
       days_from (S k) s !! i = iter_days prev_day (k - i) e.
Proof.
  intros He Hback Hnext Hfuel.
  destruct (back_then_forth k e s He Hback) as (Hs & Hfwd & Hidx).
  split; [|split].
  - now rewrite (date_range_loop_run k s e [] fuel Hs Hfwd Hnext Hfuel).
  - exact (days_from_length k s e Hfwd).
  - exact Hidx.
Qed.

(** C9, as the code has it: for [days >= 1],
    [generate_date_range_urls(days, end_date)] returns the daily URL sets of
    exactly [days] calendar dates, the i-th of which is
    [end_date - (days - 1 - i)] days, so from [end_date - (days - 1)] up to
    [end_date] in ascending order -- provided the window lies inside the
    range of [datetime]: the first day is representable and so is the day
    after [end_date], which the loop computes before it stops. *)
Theorem generate_date_range_urls_inclusive (fuel : nat) (now : datetime)
    (days : Z) (end_date start_date : datetime) :
  valid end_date = true ->
  1 <= days ->
  add_days end_date (- (days - 1)) = Some start_date ->
  is_Some (next_day end_date) ->
  (Z.to_nat days < fuel)%nat ->
  exists dates : list datetime,
    generate_date_range_urls fuel now days (Some end_date)
      = Some (Ok (flat_map generate_daily_urls dates))
    /\ Z.of_nat (length dates) = days
    /\ (forall i, 0 <= i < days ->
          dates !! Z.to_nat i = add_days end_date (- (days - 1 - i)))
    /\ (days = 1 -> dates = [end_date]).
Proof.
  intros He Hdays Hstart Hnext Hfuel.
  rewrite add_days_back in Hstart by lia.
  destruct (window_dates (Z.to_nat (days - 1)) end_date start_date fuel
              He Hstart Hnext ltac:(lia)) as (Hrun & Hlen & Hidx).
  exists (days_from (S (Z.to_nat (days - 1))) start_date).
  split; [|split; [|split]].
  - unfold generate_date_range_urls. rewrite add_days_back by lia.
    rewrite Hstart. exact Hrun.
  - rewrite Hlen. lia.
  - intros i Hi. rewrite Hidx by lia. rewrite add_days_back by lia.
    f_equal. lia.
  - intros ->. cbn in Hstart. injection Hstart as <-.
    cbn. destruct (next_day end_date); reflexivity.
Qed.

Lemma generate_date_range_urls_inclusive_witness :
  valid (mk_datetime 2024 3 3 0 0 0 0) = true
  /\ 1 <= 3
  /\ add_days (mk_datetime 2024 3 3 0 0 0 0) (- (3 - 1))
     = Some (mk_datetime 2024 3 1 0 0 0 0)
  /\ is_Some (next_day (mk_datetime 2024 3 3 0 0 0 0))
  /\ (Z.to_nat 3 < 5)%nat
  /\ exists dates : list datetime,
       generate_date_range_urls 5 (mk_datetime 2024 6 1 0 0 0 0) 3
         (Some (mk_datetime 2024 3 3 0 0 0 0))
         = Some (Ok (flat_map generate_daily_urls dates))
       /\ Z.of_nat (length dates) = 3
       /\ (forall i, 0 <= i < 3 ->
             dates !! Z.to_nat i =
             add_days (mk_datetime 2024 3 3 0 0 0 0) (- (3 - 1 - i)))
       /\ (3 = 1 -> dates = [mk_datetime 2024 3 3 0 0 0 0]).
Proof.
  split; [reflexivity|]. split; [lia|]. split; [reflexivity|].
  split; [eexists; reflexivity|]. split; [cbn; lia|].
  apply (generate_date_range_urls_inclusive 5 (mk_datetime 2024 6 1 0 0 0 0) 3
           (mk_datetime 2024 3 3 0 0 0 0) (mk_datetime 2024 3 1 0 0 0 0)).
  - reflexivity.
  - lia.
  - reflexivity.
  - eexists; reflexivity.
  - cbn; lia.
Defined.

(** C9 as stated fails at the end of the calendar: for
    [end_date = datetime(9999, 12, 31)] the increment after the last day
    raises [OverflowError] and no URL list is returned. *)
Lemma generate_date_range_urls_last_day_overflows :
  valid (mk_datetime 9999 12 31 0 0 0 0) = true
  /\ add_days (mk_datetime 9999 12 31 0 0 0 0) (- (1 - 1))
     = Some (mk_datetime 9999 12 31 0 0 0 0)
  /\ generate_date_range_urls 5 (mk_datetime 2024 6 1 0 0 0 0) 1
       (Some (mk_datetime 9999 12 31 0 0 0 0))
     = Some (Raise OverflowError)
  /\ generate_date_range_urls 5 (mk_datetime 2024 6 1 0 0 0 0) 1
       (Some (mk_datetime 9999 12 31 0 0 0 0))
     <> Some (Ok (generate_daily_urls (mk_datetime 9999 12 31 0 0 0 0))).
Proof.
  assert (generate_date_range_urls 5 (mk_datetime 2024 6 1 0 0 0 0) 1
            (Some (mk_datetime 9999 12 31 0 0 0 0))
          = Some (Raise OverflowError)) as Heq by (vm_compute; reflexivity).
  split; [reflexivity|]. split; [reflexivity|]. split; [exact Heq|].
  rewrite Heq. discriminate.
Qed.

(** The two instances the specification singles out. *)
Lemma generate_date_range_urls_three_days :
  generate_date_range_urls 5 (mk_datetime 2024 6 1 0 0 0 0) 3
    (Some (mk_datetime 2024 3 1 9 30 0 0))
  = Some (Ok (generate_daily_urls (mk_datetime 2024 2 28 9 30 0 0)
              ++ generate_daily_urls (mk_datetime 2024 2 29 9 30 0 0)
              ++ generate_daily_urls (mk_datetime 2024 3 1 9 30 0 0))).
Proof. vm_compute. reflexivity. Qed.

Lemma generate_default_urls_one_day :
  generate_default_urls 5 (mk_datetime 2024 3 1 9 30 0 0) None
  = Some (Ok (generate_daily_urls (mk_datetime 2024 3 1 9 30 0 0))).
Proof. vm_compute. reflexivity. Qed.

End DateRangeClaims.

Section MonitoringWindow.
Import Text Calendar URLGenerator Monitoring Samples.

(** C2, as the code has it: once [set_monitoring_range(days)] has succeeded,
    [get_monitoring_range()] is [days] and the next cycle generates the URLs
    of the window [now - days] up to [now] inclusive: looking [days] days
    back from today gives [days + 1] calendar dates. *)
Theorem check_window_one_day_more (l l' : MonitoringLoop) (days : Z)
    (fuel : nat) (now start_date : datetime) :
  set_monitoring_range l days = Ok l' ->
  valid now = true ->
  add_days now (- days) = Some start_date ->
  is_Some (next_day now) ->
  (Z.to_nat days + 1 < fuel)%nat ->
  get_monitoring_range l' = days
  /\ exists dates : list datetime,
       recent_urls fuel l' now = Some (Ok (flat_map generate_daily_urls dates))
       /\ Z.of_nat (length dates) = days + 1
       /\ (forall i, 0 <= i <= days ->
             dates !! Z.to_nat i = add_days now (- (days - i))).
Proof.
  intros Hset Hnow Hstart Hnext Hfuel.
  unfold set_monitoring_range in Hset.
  destruct (Z.ltb_spec days 1) as [|Hdays]; [discriminate|].
  injection Hset as <-. split; [reflexivity|].
  rewrite add_days_back in Hstart by lia.
  destruct (window_dates (Z.to_nat days) now start_date fuel
              Hnow Hstart Hnext ltac:(lia)) as (Hrun & Hlen & Hidx).
  exists (days_from (S (Z.to_nat days)) start_date).
  split; [|split].
  - unfold recent_urls, update_loop_range. cbn [monitoring_range_days].
    rewrite add_days_back by lia. rewrite Hstart.
    rewrite recent_urls_loop_eq. exact Hrun.
  - rewrite Hlen. lia.
  - intros i Hi. rewrite Hidx by lia. rewrite add_days_back by lia.
    f_equal. lia.
Qed.

Lemma check_window_one_day_more_witness :
  set_monitoring_range default_loop 7
    = Ok (update_loop_range default_loop 7)
  /\ valid (mk_datetime 2024 3 8 13 0 0 0) = true
  /\ add_days (mk_datetime 2024 3 8 13 0 0 0) (- 7)
     = Some (mk_datetime 2024 3 1 13 0 0 0)
  /\ is_Some (next_day (mk_datetime 2024 3 8 13 0 0 0))
  /\ (Z.to_nat 7 + 1 < 10)%nat
  /\ get_monitoring_range (update_loop_range default_loop 7) = 7
  /\ exists dates : list datetime,
       recent_urls 10 (update_loop_range default_loop 7)
         (mk_datetime 2024 3 8 13 0 0 0)
       = Some (Ok (flat_map generate_daily_urls dates))
       /\ Z.of_nat (length dates) = 7 + 1
       /\ (forall i, 0 <= i <= 7 ->
             dates !! Z.to_nat i =
             add_days (mk_datetime 2024 3 8 13 0 0 0) (- (7 - i))).
Proof.
  split; [reflexivity|]. split; [reflexivity|]. split; [reflexivity|].
  split; [eexists; reflexivity|]. split; [cbn; lia|].
  apply (check_window_one_day_more default_loop
           (update_loop_range default_loop 7) 7 10
           (mk_datetime 2024 3 8 13 0 0 0) (mk_datetime 2024 3 1 13 0 0 0)).
  - reflexivity.
  - reflexivity.
  - reflexivity.
  - eexists; reflexivity.
  - cbn; lia.
Defined.

(** C2 as stated fails: a loop created with a range of 1 and then set to 7
    sweeps the eight dates 2024-03-01 .. 2024-03-08 when the cycle runs on
    2024-03-08, and its candidates are the daily lists of no seven dates. *)
Lemma range_seven_generates_eight_days :
  get_monitoring_range (update_loop_range default_loop 7) = 7
  /\ recent_urls 10 (update_loop_range default_loop 7)
       (mk_datetime 2024 3 8 13 0 0 0)
     = Some (Ok (flat_map generate_daily_urls
                   (map (fun d => mk_datetime 2024 3 d 13 0 0 0)
                        [1; 2; 3; 4; 5; 6; 7; 8])))
  /\ forall dates,
       recent_urls 10 (update_loop_range default_loop 7)
         (mk_datetime 2024 3 8 13 0 0 0)
       = Some (Ok (flat_map generate_daily_urls dates)) ->
       length dates = 8%nat /\ length dates <> 7%nat.
Proof.
  assert (recent_urls 10 (update_loop_range default_loop 7)
            (mk_datetime 2024 3 8 13 0 0 0)
          = Some (Ok (flat_map generate_daily_urls
                        (map (fun d => mk_datetime 2024 3 d 13 0 0 0)
                             [1; 2; 3; 4; 5; 6; 7; 8])))) as Hrun
    by (vm_compute; reflexivity).
  split; [reflexivity|]. split; [exact Hrun|].
  intros dates Hdates. rewrite Hrun in Hdates. injection Hdates as Heq.
  assert (forall ds, length (flat_map generate_daily_urls ds)
                     = (360 * length ds)%nat) as Hlen.
  { induction ds as [|d ds IH]; [reflexivity|].
    cbn [flat_map length]. rewrite length_app, IH.
    unfold generate_daily_urls. rewrite length_map.
    change (length time_patterns) with 360%nat. lia. }
  apply (f_equal (@length string)) in Heq. rewrite !Hlen in Heq.
  cbn [map length] in Heq. lia.
Qed.

End MonitoringWindow.

(** ** Directory scraper *)

Section ScraperFacts.
Import Calendar World Storage Scraper.

(** The keep-test of [filter_new_images], as a predicate on tuples. *)
Lemma filter_new_images_loop_filter (st : StorageOrganizer) (w : world)
    (available acc : list (datetime * string)) :
  filter_new_images_loop st w available acc =
  acc ++ List.filter (fun p => negb (file_exists st w (snd p) (fst p))) available.
Proof.
  revert acc. induction available as [|[date filename] rest IH]; intros acc.
  - cbn. now rewrite app_nil_r.
  - cbn [filter_new_images_loop List.filter fst snd].
    destruct (negb (file_exists st w filename date)).
    + rewrite IH, <- app_assoc. reflexivity.
    + apply IH.
Qed.

Lemma filter_sublist {A : Type} (f : A -> bool) (l : list A) :
  sublist (List.filter f l) l.
Proof.
  induction l as [|x l IH]; cbn; [constructor|].
  destruct (f x); now constructor.
Qed.

Lemma filter_count_occ {A : Type} (dec : forall a b : A, {a = b} + {a <> b})
    (f : A -> bool) (l : list A) (x : A) :
  count_occ dec (List.filter f l) x = if f x then count_occ dec l x else 0%nat.
Proof.
  induction l as [|y l IH]; cbn; [now destruct (f x)|].
  destruct (f y) eqn:Hy; cbn; destruct (dec y x) as [->|Hne]; rewrite IH.
  - now rewrite Hy.
  - reflexivity.
  - now rewrite Hy.
  - reflexivity.
Qed.

(** C4, as the code has it: [filter_new_images] returns exactly the
    discovered tuples whose file is not on disk: it is the sublist of the
    input selected by [not file_exists], so the relative order is the
    input's, a tuple is in the result iff it was discovered and is absent
    from disk, and every kept tuple occurs as often as in the input (none
    added, none lost, none merged): the result is free of duplicates when
    the input is. *)
Theorem filter_new_images_set_difference (st : StorageOrganizer) (w : world)
    (available : list (datetime * string)) :
  let absent := fun p : datetime * string =>
                  negb (file_exists st w (snd p) (fst p)) in
  let result := filter_new_images available st w in
  result = List.filter absent available
  /\ sublist result available
  /\ (forall date filename,
        In (date, filename) result <->
        In (date, filename) available /\ file_exists st w filename date = false)
  /\ (forall dec p,
        count_occ dec result p =
        if absent p then count_occ dec available p else 0%nat)
  /\ (List.NoDup available -> List.NoDup result).
Proof.
  intros absent result.
  assert (result = List.filter absent available) as Heq.
  { unfold result, filter_new_images.
    now rewrite filter_new_images_loop_filter. }
  split; [exact Heq|]. rewrite Heq. split; [apply filter_sublist|].
  split; [|split].
  - intros date filename. rewrite filter_In. unfold absent. cbn [fst snd].
    now rewrite negb_true_iff.
  - intros dec p. apply filter_count_occ.
  - apply List.NoDup_filter.
Qed.

(** C4 as stated fails: a tuple discovered twice (a listing page with the
    same anchor twice gives one) and absent from disk is returned twice. *)
Lemma filter_new_images_keeps_repeats :
  let image := (mk_datetime 2024 3 1 0 0 0 0,
                "20240301_001200_1024_0211.jpg") in
  file_exists Samples.data_storage Samples.start_world image.2 image.1 = false
  /\ filter_new_images [image; image] Samples.data_storage
       Samples.start_world = [image; image]
  /\ ~ List.NoDup (filter_new_images [image; image] Samples.data_storage
                     Samples.start_world).
Proof.
  cbn zeta. split; [reflexivity|].
  assert (filter_new_images
            [(mk_datetime 2024 3 1 0 0 0 0, "20240301_001200_1024_0211.jpg");
             (mk_datetime 2024 3 1 0 0 0 0, "20240301_001200_1024_0211.jpg")]
            Samples.data_storage Samples.start_world
          = [(mk_datetime 2024 3 1 0 0 0 0, "20240301_001200_1024_0211.jpg");
             (mk_datetime 2024 3 1 0 0 0 0, "20240301_001200_1024_0211.jpg")])
    as Heq by reflexivity.
  split; [exact Heq|]. rewrite Heq. intros Hnd.
  apply List.NoDup_cons_iff in Hnd as [Hnotin _]. apply Hnotin. now left.
Qed.

Lemma collect_links_omap (sc : DirectoryScraper) (hrefs acc : list string) :
  collect_links sc hrefs acc = acc ++ omap (file_pattern_search sc) hrefs.
Proof.
  revert acc. induction hrefs as [|href rest IH]; intros acc.
  - cbn. now rewrite app_nil_r.
  - cbn [collect_links omap list_omap].
    destruct (file_pattern_search sc href) as [filename|].
    + rewrite IH, <- app_assoc. reflexivity.
    + apply IH.
Qed.

Lemma collect_text_matches_spec (matches : list string) :
  forall acc : list string,
  exists fresh : list string,
    collect_text_matches matches acc = acc ++ fresh
    /\ NoDup fresh
    /\ forall f, f ∈ fresh <-> f ∈ matches /\ f ∉ acc.
Proof.
  induction matches as [|m rest IH]; intros acc.
  - exists []. split; [now rewrite app_nil_r|]. split; [constructor|].
    intros f. rewrite elem_of_nil. set_solver.
  - cbn [collect_text_matches]. case_bool_decide as Hm.
    + destruct (IH acc) as (fresh & Heq & Hnd & Hin).
      exists fresh. split; [exact Heq|]. split; [exact Hnd|].
      intros f. rewrite Hin, elem_of_cons. naive_solver.
    + destruct (IH (acc ++ [m])) as (fresh & Heq & Hnd & Hin).
      exists (m :: fresh). split; [now rewrite Heq, <- app_assoc|]. split.
      * constructor; [|exact Hnd]. rewrite Hin. set_solver.
      * intros f. rewrite !elem_of_cons, Hin.
        destruct (decide (f = m)) as [->|Hne]; set_solver.
Qed.


End ScraperFacts.

Section ScraperExamples.
Import Calendar World Storage Scraper Samples.


(** The listing above, evaluated: three files, sorted. *)
Lemma scrape_directory_listing_page :
  fst (scrape_directory (fun _ => listing_page_hrefs)
         (constant_env (Response 200 [] listing_page None))
         scraper_1024_0211 (mk_datetime 2024 3 1 0 0 0 0) start_world)
  = ["20240301_001200_1024_0211.jpg"; "20240301_002400_1024_0211.jpg";
     "20240301_003600_1024_0211.jpg"].
Proof. vm_compute. reflexivity. Qed.


End ScraperExamples.

(** ** Image fetcher *)

Section FetcherFacts.
Import Text World Fetcher.

Lemma events_since_app (w w' : world) (evs : list event) :
  trace w' = trace w ++ evs -> events_since w w' = evs.
Proof. intros H. unfold events_since. rewrite H. apply drop_app_length. Qed.

(** The rate limiter adds at most its own sleep to the trace, leaves the
    configuration alone, and stamps the time at which it lets the call
    proceed. *)
Lemma enforce_rate_limit_spec (f : ImageFetcher) (w : world) :
  let f1 := fst (_enforce_rate_limit f w) in
  let w1 := snd (_enforce_rate_limit f w) in
  max_retries f1 = max_retries f
  /\ rate_limit_delay f1 = rate_limit_delay f
  /\ last_request_time f1 = clock w1
  /\ fs w1 = fs w
  /\ (trace w1 = trace w
      \/ exists d, trace w1 = trace w ++ [Sleep RateLimit d])
  /\ (last_request_time f + rate_limit_delay f <= clock w1)%Q.
Proof.
  unfold _enforce_rate_limit. cbn [fst snd max_retries rate_limit_delay
    last_request_time].
  split; [reflexivity|]. split; [reflexivity|]. split; [reflexivity|].
  unfold Qltb.
  destruct (Qle_bool (rate_limit_delay f) (clock w - last_request_time f))
    eqn:Hle; cbn [negb].
  - split; [reflexivity|]. split; [now left|].
    apply Qle_bool_iff in Hle. lra.
  - split; [reflexivity|]. split; [right; eexists; reflexivity|].
    cbn [sleep clock]. lra.
Qed.

(** The attempts of [download_image] never wait for the rate limiter. *)
Lemma download_attempts_events (env : environment) (f : ImageFetcher)
    (url : string) (attempts : list Z) :
  forall w, exists evs,
    trace (snd (download_attempts env f url attempts w)) = trace w ++ evs
    /\ fs (snd (download_attempts env f url attempts w)) = fs w
    /\ Forall (fun e => is_rate_limit_sleep e = false) evs
    /\ hd_error evs =
       match attempts with
       | [] => None
       | _ :: _ => Some (Request GET url (clock w))
       end.
Proof.
  induction attempts as [|attempt rest IH]; intros w.
  - exists []. cbn. rewrite app_nil_r. auto.
  - cbn [download_attempts http_request].
    set (w1 := {| clock := (clock w + latency env (length (requests (trace w))))%Q;
                  fs := fs w;
                  trace := trace w ++ [Request GET url (clock w)] |}).
    assert (forall msg, exists evs,
      trace (snd (retry_or_fail f attempt msg
                    (download_attempts env f url rest) w1)) = trace w ++ evs
      /\ fs (snd (retry_or_fail f attempt msg
                    (download_attempts env f url rest) w1)) = fs w
      /\ Forall (fun e => is_rate_limit_sleep e = false) evs
      /\ hd_error evs = Some (Request GET url (clock w))) as Hretry.
    { intros msg. unfold retry_or_fail.
      destruct (attempt <? max_retries f - 1).
      - destruct (IH (sleep Backoff (inject_Z (_exponential_backoff attempt)) w1))
          as (evs & Htr & Hfs & Hall & _).
        exists (Request GET url (clock w)
                :: Sleep Backoff (inject_Z (_exponential_backoff attempt)) :: evs).
        rewrite Htr, Hfs. cbn [sleep trace fs w1].
        rewrite <- !app_assoc. split; [reflexivity|]. split; [reflexivity|].
        split; [|reflexivity]. repeat constructor. exact Hall.
      - exists [Request GET url (clock w)]. cbn [snd w1 trace fs].
        split; [reflexivity|]. split; [reflexivity|].
        split; [|reflexivity]. repeat constructor. }
    assert (exists evs, trace w1 = trace w ++ evs /\ fs w1 = fs w
      /\ Forall (fun e => is_rate_limit_sleep e = false) evs
      /\ hd_error evs = Some (Request GET url (clock w))) as Hstop.
    { exists [Request GET url (clock w)]. split; [reflexivity|].
      split; [reflexivity|]. split; [|reflexivity]. repeat constructor. }
    destruct (server env (length (requests (trace w))) GET url)
      as [status content text cl| | |msg]; try apply Hretry.
    + destruct (status =? 200); [exact Hstop|].
      destruct (status =? 404); [exact Hstop|apply Hretry].
    + exact Hstop.
Qed.

Lemma activity_after_rate_limit (w w1 w' : world) (evs : list event) :
  (trace w1 = trace w \/ exists d, trace w1 = trace w ++ [Sleep RateLimit d]) ->
  trace w' = trace w1 ++ evs ->
  Forall (fun e => is_rate_limit_sleep e = false) evs ->
  activity w w' = map step_of evs
  /\ backoff_sleeps (events_since w w') = backoff_sleeps evs.
Proof.
  intros Hpre Htr Hall.
  assert (List.filter (fun e => negb (is_rate_limit_sleep e)) evs = evs) as Hf.
  { clear Htr. induction Hall as [|e evs He _ IH]; [reflexivity|].
    cbn. rewrite He. cbn. now rewrite IH. }
  unfold activity. destruct Hpre as [Hsame|[d Hsleep]].
  - rewrite (events_since_app w w' evs) by now rewrite Htr, Hsame.
    now rewrite Hf.
  - rewrite (events_since_app w w' (Sleep RateLimit d :: evs))
      by now rewrite Htr, Hsleep, <- app_assoc.
    cbn. now rewrite Hf.
Qed.

Lemma download_image_unfold (env : environment) (f : ImageFetcher)
    (url : string) (w : world) :
  download_image env f url w =
  let f1 := fst (_enforce_rate_limit f w) in
  let w1 := snd (_enforce_rate_limit f w) in
  (fst (download_attempts env f1 url (seqZ 0 (max_retries f)) w1), f1,
   snd (download_attempts env f1 url (seqZ 0 (max_retries f)) w1)).
Proof.
  unfold download_image, _enforce_rate_limit. cbn [fst snd max_retries].
  now destruct (download_attempts _ _ _ _ _).
Qed.

End FetcherFacts.

Section FetcherClaims.
Import Text World Fetcher Samples.

(** C3, as the code has it: a fetcher that makes at least one attempt
    ([max_retries >= 1]) and is answered 404 issues exactly one request,
    sleeps no backoff, and returns [(False, None, m)] with ["404"] in [m]. *)
Theorem not_found_is_terminal (env : environment) (f : ImageFetcher)
    (url : string) (w : world) :
  1 <= max_retries f ->
  (forall n, status_of (server env n GET url) = Some 404) ->
  let out := download_image env f url w in
  out.1.1 = (false, None, Some ("Image not found (404): " +:+ url))
  /\ contains "404" ("Image not found (404): " +:+ url) = true
  /\ activity w out.2 = [Req GET url]
  /\ backoff_sleeps (events_since w out.2) = [].
Proof.
  intros Hmax H404 out. unfold out. rewrite download_image_unfold.
  destruct (enforce_rate_limit_spec f w) as (_ & _ & _ & _ & Hpre & _).
  set (f1 := fst (_enforce_rate_limit f w)) in *.
  set (w1 := snd (_enforce_rate_limit f w)) in *.
  cbn zeta. cbn [fst snd].
  rewrite (seqZ_cons 0 (max_retries f)) by lia.
  cbn [download_attempts http_request].
  specialize (H404 (length (requests (trace w1)))).
  destruct (server env (length (requests (trace w1))) GET url)
    as [status content text cl| | |msg]; try discriminate.
  injection H404 as ->. cbn [Z.eqb Pos.eqb fst snd].
  split; [reflexivity|]. split; [reflexivity|].
  apply (activity_after_rate_limit w w1 _ [Request GET url (clock w1)] Hpre);
    [reflexivity|repeat constructor].
Qed.

Lemma not_found_is_terminal_witness :
  1 <= max_retries default_fetcher
  /\ (forall n, status_of (server (constant_env (Response 404 [] "" None)) n
                             GET "https://example.org/x.jpg") = Some 404)
  /\ let out := download_image (constant_env (Response 404 [] "" None))
                  default_fetcher "https://example.org/x.jpg" start_world in
     out.1.1 = (false, None,
                Some ("Image not found (404): " +:+ "https://example.org/x.jpg"))
     /\ contains "404"
          ("Image not found (404): " +:+ "https://example.org/x.jpg") = true
     /\ activity start_world out.2 = [Req GET "https://example.org/x.jpg"]
     /\ backoff_sleeps (events_since start_world out.2) = [].
Proof.
  split; [cbn; lia|]. split; [intros n; reflexivity|].
  apply (not_found_is_terminal (constant_env (Response 404 [] "" None))
           default_fetcher "https://example.org/x.jpg" start_world).
  - cbn; lia.
  - intros n; reflexivity.
Defined.

(** C3 as stated fails for a fetcher built with [max_retries=0]: the loop
    body never runs, no request is issued, and the message is the one after
    the loop. *)
Lemma zero_retries_never_asks :
  (forall n, status_of (server (constant_env (Response 404 [] "" None)) n
                          GET "https://example.org/x.jpg") = Some 404)
  /\ (download_image (constant_env (Response 404 [] "" None))
        (new_fetcher 1 0) "https://example.org/x.jpg" start_world).1.1
     = (false, None, Some "Max retries exceeded for: https://example.org/x.jpg")
  /\ activity start_world
       (download_image (constant_env (Response 404 [] "" None))
          (new_fetcher 1 0) "https://example.org/x.jpg" start_world).2 = []
  /\ contains "404" "Max retries exceeded for: https://example.org/x.jpg"
     = false.
Proof.
  split; [intros n; reflexivity|]. repeat split; vm_compute; reflexivity.
Qed.

End FetcherClaims.

Section BackoffClaims.
Import Text World Fetcher Samples.

(** An attempt that times out with attempts left: the request, the backoff
    sleep, then the remaining attempts. *)
Lemma timed_out_retry (env : environment) (f : ImageFetcher) (url : string)
    (attempt : Z) (rest : list Z) (w : world) :
  server env (length (requests (trace w))) GET url = RaiseTimeout ->
  (attempt <? max_retries f - 1) = true ->
  download_attempts env f url (attempt :: rest) w =
  download_attempts env f url rest
    (sleep Backoff (inject_Z (_exponential_backoff attempt))
       (snd (http_request env GET url w))).
Proof.
  intros H Hlt. cbn [download_attempts http_request snd]. rewrite H.
  unfold retry_or_fail. now rewrite Hlt.
Qed.

(** The last attempt times out: the failure is returned. *)
Lemma timed_out_last (env : environment) (f : ImageFetcher) (url : string)
    (attempt : Z) (rest : list Z) (w : world) :
  server env (length (requests (trace w))) GET url = RaiseTimeout ->
  (attempt <? max_retries f - 1) = false ->
  download_attempts env f url (attempt :: rest) w =
  ((false, None, Some ("Timeout downloading: " +:+ url)),
   snd (http_request env GET url w)).
Proof.
  intros H Hlt. cbn [download_attempts http_request snd]. rewrite H.
  unfold retry_or_fail. now rewrite Hlt.
Qed.

Lemma timed_out_attempts_run (env : environment) (f : ImageFetcher)
    (url : string) :
  max_retries f = 5 ->
  (forall n, server env n GET url = RaiseTimeout) ->
  forall w, exists t0 t1 t2 t3 t4,
    fst (download_attempts env f url [0; 1; 2; 3; 4] w) =
    (false, None, Some ("Timeout downloading: " +:+ url))
    /\ trace (snd (download_attempts env f url [0; 1; 2; 3; 4] w)) =
       trace w ++ [Request GET url t0; Sleep Backoff 1;
                   Request GET url t1; Sleep Backoff 2;
                   Request GET url t2; Sleep Backoff 4;
                   Request GET url t3; Sleep Backoff 8;
                   Request GET url t4].
Proof.
  intros Hmax Hto w.
  do 5 eexists.
  do 4 (rewrite timed_out_retry by (first [apply Hto | now rewrite Hmax])).
  rewrite timed_out_last by (first [apply Hto | now rewrite Hmax]).
  cbn [snd fst http_request sleep trace clock fs].
  rewrite <- !app_assoc. cbn [app].
  split; reflexivity.
Qed.

(** C6: the backoff delay of attempt number [attempt] (counted from 0) is
    [min(2^attempt, 60)], and a
    fetcher with [max_retries=5] whose every attempt times out makes five
    requests with backoff sleeps of 1, 2, 4 and 8 seconds between them (15 in
    all) and then returns the failure. *)
Theorem backoff_schedule (env : environment) (f : ImageFetcher)
    (url : string) (w : world) :
  max_retries f = 5 ->
  (forall n, server env n GET url = RaiseTimeout) ->
  let out := download_image env f url w in
  (forall attempt, 0 <= attempt ->
     _exponential_backoff attempt = Z.min (2 ^ attempt) 60)
  /\ out.1.1 = (false, None, Some ("Timeout downloading: " +:+ url))
  /\ activity w out.2 =
       [Req GET url; Nap Backoff 1; Req GET url; Nap Backoff 2;
        Req GET url; Nap Backoff 4; Req GET url; Nap Backoff 8; Req GET url]
  /\ backoff_sleeps (events_since w out.2) = [1; 2; 4; 8]%Q
  /\ (fold_right Qplus 0 (backoff_sleeps (events_since w out.2)) == 15)%Q.
Proof.
  intros Hmax Hto out. split; [reflexivity|].
  unfold out. rewrite download_image_unfold.
  destruct (enforce_rate_limit_spec f w) as (Hm1 & _ & _ & _ & Hpre & _).
  set (f1 := fst (_enforce_rate_limit f w)) in *.
  set (w1 := snd (_enforce_rate_limit f w)) in *.
  cbn zeta. cbn [fst snd]. rewrite Hmax.
  change (seqZ 0 5) with [0; 1; 2; 3; 4].
  rewrite Hmax in Hm1.
  destruct (timed_out_attempts_run env f1 url Hm1 Hto w1)
    as (t0 & t1 & t2 & t3 & t4 & Hres & Htr).
  rewrite Hres.
  destruct (activity_after_rate_limit w w1 _ _ Hpre Htr) as [Hact Hback].
  { repeat constructor. }
  rewrite Hact, Hback. repeat split; reflexivity.
Qed.

Lemma backoff_schedule_witness :
  max_retries default_fetcher = 5
  /\ (forall n, server (constant_env RaiseTimeout) n GET
                  "https://example.org/x.jpg" = RaiseTimeout)
  /\ let out := download_image (constant_env RaiseTimeout) default_fetcher
                  "https://example.org/x.jpg" start_world in
     (forall attempt, 0 <= attempt ->
        _exponential_backoff attempt = Z.min (2 ^ attempt) 60)
     /\ out.1.1 = (false, None,
                   Some ("Timeout downloading: " +:+ "https://example.org/x.jpg"))
     /\ activity start_world out.2 =
          [Req GET "https://example.org/x.jpg"; Nap Backoff 1;
           Req GET "https://example.org/x.jpg"; Nap Backoff 2;
           Req GET "https://example.org/x.jpg"; Nap Backoff 4;
           Req GET "https://example.org/x.jpg"; Nap Backoff 8;
           Req GET "https://example.org/x.jpg"]
     /\ backoff_sleeps (events_since start_world out.2) = [1; 2; 4; 8]%Q
     /\ (fold_right Qplus 0 (backoff_sleeps (events_since start_world out.2))
         == 15)%Q.
Proof.
  split; [reflexivity|]. split; [intros n; reflexivity|].
  apply (backoff_schedule (constant_env RaiseTimeout) default_fetcher
           "https://example.org/x.jpg" start_world).
  - reflexivity.
  - intros n; reflexivity.
Defined.

(** The cap: from the sixth retry on the delay stays at 60 seconds. *)
Lemma backoff_capped (attempt : Z) :
  6 <= attempt -> _exponential_backoff attempt = 60.
Proof.
  intros H. unfold _exponential_backoff.
  assert (2 ^ 6 <= 2 ^ attempt) by (apply Z.pow_le_mono_r; lia).
  change (2 ^ 6) with 64 in *. lia.
Qed.

End BackoffClaims.

Section RateLimitClaims.
Import Text World Fetcher Samples.

Variable py_int : string -> option Z.

(** What the code does about rate limiting: each of [download_image],
    [check_image_exists] and [get_image_size] runs the rate limiter once, on
    entry.  The limiter sleeps the part of [rate_limit_delay] that has not
    yet passed since the recorded [last_request_time] -- exactly that, and
    nothing when the delay has passed -- and records the new time; the first
    request of the call is issued at that time.  Inside [download_image] the
    limiter does not run again: whatever follows the first request (the
    retries) is separated from it by backoff sleeps only, and
    [last_request_time] is not updated. *)
Theorem rate_limit_once_per_call (env : environment) (f : ImageFetcher)
    (url : string) (w : world) :
  let f1 := (_enforce_rate_limit f w).1 in
  let w1 := (_enforce_rate_limit f w).2 in
  let time_since_last := (clock w - last_request_time f)%Q in
  (if Qltb time_since_last (rate_limit_delay f)
   then w1 = sleep RateLimit (rate_limit_delay f - time_since_last) w
   else w1 = w)
  /\ (last_request_time f + rate_limit_delay f <= clock w1)%Q
  /\ last_request_time f1 = clock w1
  /\ (let out := download_image env f url w in
      out.1.2 = f1
      /\ exists evs,
           trace out.2 = trace w1 ++ evs
           /\ hd_error evs =
              (if 1 <=? max_retries f
               then Some (Request GET url (clock w1)) else None)
           /\ Forall (fun e => is_rate_limit_sleep e = false) evs)
  /\ (let out := check_image_exists env f url w in
      out.1.2 = f1 /\ trace out.2 = trace w1 ++ [Request HEAD url (clock w1)])
  /\ (let out := get_image_size py_int env f url w in
      out.1.2 = f1 /\ trace out.2 = trace w1 ++ [Request HEAD url (clock w1)]).
Proof.
  intros f1 w1 time_since_last.
  destruct (enforce_rate_limit_spec f w) as (_ & _ & Hlast & _ & _ & Hwait).
  fold f1 w1 in Hlast, Hwait.
  split.
  { unfold w1, time_since_last, _enforce_rate_limit. cbn [snd].
    destruct (Qltb _ _); reflexivity. }
  split; [exact Hwait|]. split; [exact Hlast|]. split; [|split].
  - cbn zeta. rewrite download_image_unfold. fold f1 w1. cbn [fst snd].
    split; [reflexivity|].
    destruct (download_attempts_events env f1 url (seqZ 0 (max_retries f)) w1)
      as (evs & Htr & _ & Hall & Hhd).
    exists evs. split; [exact Htr|]. split; [|exact Hall].
    rewrite Hhd. destruct (Z.leb_spec 1 (max_retries f)).
    + rewrite (seqZ_cons 0 (max_retries f)) by lia. reflexivity.
    + unfold seqZ. replace (Z.to_nat (max_retries f)) with 0%nat by lia.
      reflexivity.
  - cbn zeta. unfold check_image_exists.
    rewrite (surjective_pairing (_enforce_rate_limit f w)). fold f1 w1.
    cbn [http_request].
    destruct (server env (length (requests (trace w1))) HEAD url);
      split; reflexivity.
  - cbn zeta. unfold get_image_size.
    rewrite (surjective_pairing (_enforce_rate_limit f w)). fold f1 w1.
    cbn [http_request].
    destruct (server env (length (requests (trace w1))) HEAD url)
      as [status content text [cl|]| | |msg]; try (split; reflexivity).
    destruct ((status =? 200) && negb (String.eqb cl "")); split; reflexivity.
Qed.

End RateLimitClaims.

Section RateLimitExamples.
Import Text World Fetcher Samples.


End RateLimitExamples.

(** ** Download manager *)

Section ManagerFacts.
Import Text Calendar World Storage Models Fetcher Manager.

(** The short circuit of [download_and_save]: a file already on disk ends
    the call at once, with the world and the manager untouched. *)
Lemma download_and_save_short_circuit (env : environment)
    (m : DownloadManager) (task : DownloadTask) (w : world) (date : datetime) :
  Strptime.strptime_Ymd (Strptime.split_first (path_name (target_path task)))
    = Some date ->
  file_exists (storage m) w (path_name (target_path task)) date = true ->
  download_and_save env m task w
  = (true, set_status (set_status task DOWNLOADING) COMPLETED, m, w).
Proof.
  intros Hdate Hex. unfold download_and_save.
  cbn [target_path set_status]. now rewrite Hdate, Hex.
Qed.

Lemma validate_file_integrity_exists (env : environment)
    (s : StorageOrganizer) (w : world) (filename : string) (date : datetime)
    (size : Z) :
  validate_file_integrity env s w filename date size = true ->
  file_exists s w filename date = true.
Proof.
  unfold validate_file_integrity, get_file_size, file_exists.
  now destruct (fs w !! get_local_path s filename date).
Qed.

(** A successful call leaves the file of its (filename, date) on disk and
    does not change the storage configuration. *)
Lemma download_and_save_success (env : environment) (m : DownloadManager)
    (task : DownloadTask) (w : world) :
  let out := download_and_save env m task w in
  out.1.1.1 = true ->
  storage out.1.2 = storage m
  /\ status out.1.1.2 = COMPLETED
  /\ exists date,
       Strptime.strptime_Ymd
         (Strptime.split_first (path_name (target_path task))) = Some date
       /\ file_exists (storage m) out.2 (path_name (target_path task)) date
          = true.
Proof.
  cbn zeta. unfold download_and_save. cbn [target_path url set_status].
  destruct (Strptime.strptime_Ymd _) as [date|]; [|cbn; intros Hf; discriminate Hf].
  destruct (file_exists (storage m) w _ date) eqn:Hex.
  - cbn. intros _. split; [reflexivity|]. split; [reflexivity|].
    exists date. auto.
  - destruct (download_image env (fetcher m) (url task) w) as [[r f1] w1].
    destruct (fetched_data r) as [data|]; [|cbn; intros Hf; discriminate Hf].
    destruct (save_image env (storage m) data _ date w1) as [[[]|e] w2];
      [|cbn; intros Hf; discriminate Hf].
    destruct (validate_file_integrity env (storage m) w2 _ date _) eqn:Hval;
      [|cbn; intros Hf; discriminate Hf].
    cbn. intros _. split; [reflexivity|]. split; [reflexivity|].
    exists date. split; [reflexivity|].
    exact (validate_file_integrity_exists _ _ _ _ _ _ Hval).
Qed.

(** C1: once [download_and_save] has returned success for a task, a second
    call for a task with the same filename (hence the same date) returns
    success with the task COMPLETED and changes nothing: the world after it
    is the world before it -- no request is added to the trace, the files on
    disk are the same -- and so is the manager.  The file of the task is on
    disk, which is what the second call short-circuits on. *)
Theorem download_and_save_idempotent (env env2 : environment)
    (m : DownloadManager) (task task2 : DownloadTask) (w : world) :
  let first := download_and_save env m task w in
  first.1.1.1 = true ->
  path_name (target_path task2) = path_name (target_path task) ->
  let second := download_and_save env2 first.1.2 task2 first.2 in
  second.1.1.1 = true
  /\ status second.1.1.2 = COMPLETED
  /\ second.2 = first.2
  /\ requests (trace second.2) = requests (trace first.2)
  /\ fs second.2 = fs first.2
  /\ second.1.2 = first.1.2
  /\ exists date,
       Strptime.strptime_Ymd
         (Strptime.split_first (path_name (target_path task))) = Some date
       /\ file_exists (storage m) first.2 (path_name (target_path task)) date
          = true.
Proof.
  intros first Hok Hname second.
  destruct (download_and_save_success env m task w Hok)
    as (Hst & _ & date & Hdate & Hex).
  fold first in Hst, Hex.
  assert (second = (true, set_status (set_status task2 DOWNLOADING) COMPLETED,
                    first.1.2, first.2)) as Hsecond.
  { unfold second. apply (download_and_save_short_circuit _ _ _ _ date).
    - now rewrite Hname.
    - now rewrite Hname, Hst. }
  rewrite Hsecond. cbn [fst snd status set_status].
  repeat (split; [reflexivity|]).
  exists date. auto.
Qed.

End ManagerFacts.

Section ManagerExamples.
Import Text Calendar World Storage Models Fetcher Manager Samples.

Lemma download_and_save_idempotent_witness :
  let first := download_and_save image_env default_manager image_task
                 start_world in
  first.1.1.1 = true
  /\ path_name (target_path image_task) = path_name (target_path image_task)
  /\ let second := download_and_save (constant_env RaiseConnectionError)
                     first.1.2 image_task first.2 in
     second.1.1.1 = true
     /\ status second.1.1.2 = COMPLETED
     /\ second.2 = first.2
     /\ requests (trace second.2) = requests (trace first.2)
     /\ fs second.2 = fs first.2
     /\ second.1.2 = first.1.2
     /\ exists date,
          Strptime.strptime_Ymd
            (Strptime.split_first (path_name (target_path image_task)))
          = Some date
          /\ file_exists (storage default_manager) first.2
               (path_name (target_path image_task)) date = true.
Proof.
  cbn zeta. split; [vm_compute; reflexivity|]. split; [reflexivity|].
  apply (download_and_save_idempotent image_env
           (constant_env RaiseConnectionError) default_manager image_task
           image_task start_world).
  - vm_compute; reflexivity.
  - reflexivity.
Defined.

(** The scenario of the specification: empty storage, one download; the file
    lands under [data/2024/03/01], one GET was issued, the counter is 1. *)
Lemma first_download_stores_the_image :
  let first := download_and_save image_env default_manager image_task
                 start_world in
  first.1.1.1 = true
  /\ fs first.2 !! ["data"; "2024"; "03"; "01"; "20240301_001200_1024_0211.jpg"]
     = Some (File jpeg_bytes)
  /\ activity start_world first.2 = [Req GET image_url]
  /\ get_download_count first.1.2 = 1.
Proof. cbn zeta. repeat split; vm_compute; reflexivity. Qed.

End ManagerExamples.

Section FailedTaskAccounting.
Import Text Calendar World Storage Models Fetcher Manager Samples.

(** C10, as the code has it.  [download_and_save] appends the task to
    [failed_tasks] exactly when the fetch is reached and delivers no data:
    [download_image] reports a failure, or reports success with an empty
    body.  Every failed call leaves the task FAILED with an error message;
    a date that does not parse, an exception while saving and a failed
    integrity check leave [failed_tasks] as it was.  [failed_downloads] of
    [get_status] is the length of that list. *)
Theorem failed_tasks_count_data_less_fetches (env : environment)
    (m : DownloadManager) (task : DownloadTask) (w : world) :
  let out := download_and_save env m task w in
  let task' := out.1.1.2 in
  let m' := out.1.2 in
  let filename := path_name (target_path task) in
  let parsed := Strptime.strptime_Ymd (Strptime.split_first filename) in
  let fetched := (download_image env (fetcher m) (url task) w).1.1 in
  let no_data :=
    exists date, parsed = Some date
      /\ file_exists (storage m) w filename date = false
      /\ fetched_data fetched = None in
  (no_data -> failed_tasks m' = failed_tasks m ++ [task'])
  /\ (~ no_data -> failed_tasks m' = failed_tasks m)
  /\ (out.1.1.1 = false ->
      status task' = FAILED /\ is_Some (error_message task'))
  /\ (parsed = None ->
      out.1.1.1 = false /\ failed_tasks m' = failed_tasks m
      /\ error_message task'
         = Some ("Could not parse date from filename: " +:+ filename))
  /\ (forall date data,
        parsed = Some date ->
        file_exists (storage m) w filename date = false ->
        fetched_data fetched = Some data ->
        failed_tasks m' = failed_tasks m
        /\ (out.1.1.1 = false ->
            error_message task' = Some "File integrity check failed"
            \/ exists e, error_message task'
                         = Some ("Error saving file: " +:+ exn_str e)))
  /\ (forall l, Monitoring.download_manager l = m' ->
        Monitoring.st_failed_downloads (Monitoring.get_status l)
        = Z.of_nat (length (get_failed_tasks m'))).
Proof.
  cbn zeta. unfold download_and_save. cbn [target_path url set_status].
  destruct (Strptime.strptime_Ymd _) as [date|] eqn:Hparsed.
  2:{ cbn [fst snd failed_tasks fail_with status error_message].
      split; [intros (d & Hd & _); discriminate Hd|].
      split; [reflexivity|]. split; [eauto|]. split; [auto|].
      split; [intros d data Hd; discriminate Hd|].
      intros l <-. reflexivity. }
  destruct (file_exists (storage m) w _ date) eqn:Hex.
  { cbn [fst snd failed_tasks].
    split; [intros (d & Hd & Hex' & _); congruence|].
    split; [reflexivity|]. split; [intros Hf; discriminate Hf|].
    split; [intros Hn; discriminate Hn|].
    split; [intros d data Hd Hex'; congruence|].
    intros l <-. reflexivity. }
  destruct (download_image env (fetcher m) (url task) w) as [[r f1] w1].
  cbn [fst snd].
  destruct (fetched_data r) as [data|] eqn:Hdata.
  - destruct (save_image env (storage m) data _ date w1) as [[[]|e] w2].
    + destruct (validate_file_integrity env (storage m) w2 _ date _);
        cbn [fst snd failed_tasks fail_with set_status status error_message].
      * split; [intros (d & _ & _ & Hn); discriminate Hn|].
        split; [reflexivity|]. split; [intros Hf; discriminate Hf|].
        split; [intros Hn; discriminate Hn|].
        split; [intros d data' _ _ _; split; [reflexivity|];
                intros Hf; discriminate Hf|].
        intros l <-. reflexivity.
      * split; [intros (d & _ & _ & Hn); discriminate Hn|].
        split; [reflexivity|]. split; [eauto|].
        split; [intros Hn; discriminate Hn|].
        split; [intros d data' _ _ _; split; [reflexivity|]; now left|].
        intros l <-. reflexivity.
    + cbn [fst snd failed_tasks fail_with set_status status error_message].
      split; [intros (d & _ & _ & Hn); discriminate Hn|].
      split; [reflexivity|]. split; [eauto|].
      split; [intros Hn; discriminate Hn|].
      split; [intros d data' _ _ _; split; [reflexivity|]; right; eauto|].
      intros l <-. reflexivity.
  - cbn [fst snd failed_tasks fail_with set_status status error_message].
    split; [reflexivity|].
    split; [intros Hno; exfalso; apply Hno; eauto|].
    split; [eauto|]. split; [intros Hn; discriminate Hn|].
    split; [intros d data' _ _ Hn; discriminate Hn|].
    intros l <-. reflexivity.
Qed.

(** C10 as stated fails: a 200 answer with an empty body is a successful
    fetch for [download_image], and the task is appended to [failed_tasks]
    all the same. *)
Lemma empty_body_counts_as_failed :
  (download_image empty_body_env (fetcher default_manager)
     (url image_task) start_world).1.1
  = (true, Some [], None)
  /\ (download_and_save empty_body_env default_manager image_task
        start_world).1.1.1 = false
  /\ error_message
       (download_and_save empty_body_env default_manager image_task
          start_world).1.1.2 = Some "Download failed"
  /\ failed_tasks
       (download_and_save empty_body_env default_manager image_task
          start_world).1.2
     = [(download_and_save empty_body_env default_manager image_task
           start_world).1.1.2].
Proof. repeat split; vm_compute; reflexivity. Qed.

(** The failures that are not counted, each on a run that reaches it. *)
Lemma integrity_failure_not_counted :
  let out := download_and_save short_write_env default_manager image_task
               start_world in
  out.1.1.1 = false
  /\ status out.1.1.2 = FAILED
  /\ error_message out.1.1.2 = Some "File integrity check failed"
  /\ get_failed_tasks out.1.2 = []
  /\ fs out.2 !! ["data"; "2024"; "03"; "01"; "20240301_001200_1024_0211.jpg"]
     = Some (File [Byte.xff]).
Proof. cbn zeta. repeat split; vm_compute; reflexivity. Qed.

Lemma save_error_not_counted :
  let out := download_and_save disk_full_env default_manager image_task
               start_world in
  out.1.1.1 = false
  /\ status out.1.1.2 = FAILED
  /\ error_message out.1.1.2 = Some "Error saving file: No space left on device"
  /\ get_failed_tasks out.1.2 = [].
Proof. cbn zeta. repeat split; vm_compute; reflexivity. Qed.

Lemma unparsed_date_not_counted :
  let out := download_and_save image_env default_manager undated_task
               start_world in
  out.1.1.1 = false
  /\ status out.1.1.2 = FAILED
  /\ error_message out.1.1.2
     = Some "Could not parse date from filename: latest.jpg"
  /\ get_failed_tasks out.1.2 = []
  /\ trace out.2 = [].
Proof. cbn zeta. repeat split; vm_compute; reflexivity. Qed.

Lemma fetch_failure_counted :
  let out := download_and_save (constant_env (Response 404 [] "" None))
               default_manager image_task start_world in
  out.1.1.1 = false
  /\ error_message out.1.1.2 = Some ("Image not found (404): " +:+ image_url)
  /\ get_failed_tasks out.1.2 = [out.1.1.2].
Proof. cbn zeta. repeat split; vm_compute; reflexivity. Qed.

End FailedTaskAccounting.

(** ** URL generator: validation, counts and degenerate ranges *)

Section URLInversion.
Import Text Calendar URLGenerator URLChecks.

Lemma expect_inv (lit : string) :
  forall s r, expect lit s = Some r -> s = lit +:+ r.
Proof.
  induction lit as [|c lit IH]; intros s r H.
  - cbn in H. now injection H as ->.
  - destruct s as [|c' s]; [discriminate|]. cbn [expect] in H.
    destruct (Ascii.eqb_spec c c') as [->|]; [|discriminate].
    rewrite append_cons. f_equal. now apply IH.
Qed.

Lemma take_digits_inv (n : nat) :
  forall s ds r, take_digits n s = Some (ds, r) ->
  s = ds +:+ r /\ all_digits n ds = true.
Proof.
  induction n as [|n IH]; intros s ds r H.
  - cbn in H. injection H as <- <-. split; reflexivity.
  - destruct s as [|c s]; [discriminate|]. cbn [take_digits] in H.
    destruct (is_digit c) eqn:Hc; [|discriminate].
    destruct (take_digits n s) as [[ds' r']|] eqn:Ht; [|discriminate].
    injection H as <- <-. destruct (IH s ds' r' Ht) as [-> Hd].
    split; [reflexivity|]. cbn [all_digits]. now rewrite Hc, Hd.
Qed.

Lemma all_digits_length (n : nat) :
  forall s, all_digits n s = true -> String.length s = n.
Proof.
  induction n as [|n IH]; intros [|c s] H; try discriminate; [reflexivity|].
  cbn [all_digits] in H. apply andb_true_iff in H as [_ H].
  cbn [String.length]. now rewrite (IH s H).
Qed.

Lemma digit_of_char (c : ascii) :
  is_digit c = true ->
  digit_char (digit_val c) = c /\ 0 <= digit_val c <= 9.
Proof.
  destruct c as [[] [] [] [] [] [] [] []]; intros H; try discriminate H;
    split; try reflexivity; vm_compute; split; discriminate.
Qed.

Lemma fmt02_int_of_digits (ds : string) :
  all_digits 2 ds = true ->
  fmt02 (int_of_digits ds) = ds /\ 0 <= int_of_digits ds <= 99.
Proof.
  intros H. pose proof (all_digits_length _ _ H) as L.
  destruct ds as [|a [|b [|? ?]]]; try discriminate L. clear L. revert H.
  cbn [all_digits]. rewrite ?andb_true_r, !andb_true_iff. intros (Ha & Hb).
  destruct (digit_of_char a Ha) as [Ea Ba].
  destruct (digit_of_char b Hb) as [Eb Bb].
  unfold int_of_digits, fmt02. cbn [int_acc].
  set (x := digit_val a) in *. set (y := digit_val b) in *.
  assert ((10 * (10 * 0 + x) + y) / 10 mod 10 = x) as ->
    by (Z.to_euclidean_division_equations; lia).
  assert ((10 * (10 * 0 + x) + y) mod 10 = y) as ->
    by (Z.to_euclidean_division_equations; lia).
  rewrite Ea, Eb. split; [reflexivity|lia].
Qed.

Lemma fmt04_int_of_digits (ds : string) :
  all_digits 4 ds = true ->
  fmt04 (int_of_digits ds) = ds /\ 0 <= int_of_digits ds <= 9999.
Proof.
  intros H. pose proof (all_digits_length _ _ H) as L.
  destruct ds as [|a [|b [|c [|d [|? ?]]]]]; try discriminate L. clear L.
  revert H. cbn [all_digits]. rewrite ?andb_true_r, !andb_true_iff.
  intros (Ha & Hb & Hc & Hd).
  destruct (digit_of_char a Ha) as [Ea Ba].
  destruct (digit_of_char b Hb) as [Eb Bb].
  destruct (digit_of_char c Hc) as [Ec Bc].
  destruct (digit_of_char d Hd) as [Ed Bd].
  unfold int_of_digits, fmt04, fmt02. cbn [int_acc].
  set (x := digit_val a) in *. set (y := digit_val b) in *.
  set (z := digit_val c) in *. set (t := digit_val d) in *.
  set (n := 10 * (10 * (10 * (10 * 0 + x) + y) + z) + t).
  assert (n / 1000 mod 10 = x) as ->
    by (subst n; Z.to_euclidean_division_equations; lia).
  assert (n / 100 mod 10 = y) as ->
    by (subst n; Z.to_euclidean_division_equations; lia).
  assert (n / 10 mod 10 = z) as ->
    by (subst n; Z.to_euclidean_division_equations; lia).
  assert (n mod 10 = t) as ->
    by (subst n; Z.to_euclidean_division_equations; lia).
  rewrite Ea, Eb, Ec, Ed. split; [reflexivity|subst n; lia].
Qed.

(** What a successful match of [url_pattern] says about the URL. *)
Lemma url_pattern_match_inv (url y m d dp tp : string) :
  url_pattern_match url = Some (y, m, d, dp, tp) ->
  all_digits 4 y = true /\ all_digits 2 m = true /\ all_digits 2 d = true
  /\ all_digits 8 dp = true /\ all_digits 6 tp = true
  /\ exists rest,
       url = "https://sdo.gsfc.nasa.gov/assets/img/browse/" +:+ y +:+ "/"
               +:+ m +:+ "/" +:+ d +:+ "/" +:+ dp +:+ "_" +:+ tp
               +:+ "_4096_0211.jpg" +:+ rest.
Proof.
  unfold url_pattern_match. intros H.
  destruct (expect _ url) as [r0|] eqn:E0; [|discriminate].
  destruct (take_digits 4 r0) as [[y' r1]|] eqn:E1; [|discriminate].
  destruct (expect "/" r1) as [r2|] eqn:E2; [|discriminate].
  destruct (take_digits 2 r2) as [[m' r3]|] eqn:E3; [|discriminate].
  destruct (expect "/" r3) as [r4|] eqn:E4; [|discriminate].
  destruct (take_digits 2 r4) as [[d' r5]|] eqn:E5; [|discriminate].
  destruct (expect "/" r5) as [r6|] eqn:E6; [|discriminate].
  destruct (take_digits 8 r6) as [[dp' r7]|] eqn:E7; [|discriminate].
  destruct (expect "_" r7) as [r8|] eqn:E8; [|discriminate].
  destruct (take_digits 6 r8) as [[tp' r9]|] eqn:E9; [|discriminate].
  destruct (expect "_4096_0211.jpg" r9) as [r10|] eqn:E10; [|discriminate].
  simplify_eq.
  apply expect_inv in E0, E2, E4, E6, E8, E10.
  apply take_digits_inv in E1 as [E1 H1], E3 as [E3 H3], E5 as [E5 H5],
    E7 as [E7 H7], E9 as [E9 H9].
  repeat (split; [assumption|]). exists r10. congruence.
Qed.

End URLInversion.

Section URLValidation.
Import Text Calendar URLGenerator URLChecks.

Lemma construct_url_nonempty (d : datetime) (ts : string) :
  String.eqb (construct_url d ts) "" = false.
Proof. rewrite construct_url_shape. reflexivity. Qed.

Lemma validate_construct (d : datetime) (ts : string) :
  valid d = true ->
  1000 <= year d ->
  all_digits 6 ts = true ->
  (let hour := int_of_digits (String.substring 0 2 ts) in
   let minute := int_of_digits (String.substring 2 2 ts) in
   let second := int_of_digits (String.substring 4 2 ts) in
   (0 <=? hour) && (hour <=? 23) && (0 <=? minute) && (minute <=? 59)
   && (0 <=? second) && (second <=? 59)) = true ->
  validate_url (construct_url d ts) = true.
Proof.
  intros Hd Hyear Hts Hrange. unfold validate_url.
  rewrite construct_url_nonempty, (url_pattern_match_construct d ts Hyear Hts).
  destruct (valid_split d Hd) as [Hdate _].
  pose proof (valid_date_bounds _ _ _ Hdate) as (Hy & Hm & Hdd).
  pose proof (days_in_month_bounds (year d) (month d)).
  rewrite int_of_digits_fmt04, !int_of_digits_fmt02 by lia.
  unfold datetime_ymd. rewrite Hdate, String.eqb_refl.
  rewrite (all_digits_length 6 ts Hts). exact Hrange.
Qed.

(** X1. Every URL that [generate_daily_urls] guesses for a date from the
    year 1000 on passes [validate_url]. *)
Theorem generated_urls_validate (d : datetime) :
  valid d = true ->
  1000 <= year d ->
  Forall (fun url => validate_url url = true) (generate_daily_urls d).
Proof.
  intros Hd Hyear. unfold generate_daily_urls. apply List.Forall_forall.
  intros url Hin. apply in_map_iff in Hin as (ts & <- & Hts).
  assert (forallb (fun ts =>
            all_digits 6 ts
            && (let hour := int_of_digits (String.substring 0 2 ts) in
                let minute := int_of_digits (String.substring 2 2 ts) in
                let second := int_of_digits (String.substring 4 2 ts) in
                (0 <=? hour) && (hour <=? 23) && (0 <=? minute)
                && (minute <=? 59) && (0 <=? second) && (second <=? 59)))
            time_patterns = true) as Hall by (vm_compute; reflexivity).
  rewrite forallb_forall in Hall. specialize (Hall ts Hts).
  apply andb_true_iff in Hall as [H6 Hrange].
  now apply validate_construct.
Qed.

Lemma generated_urls_validate_witness :
  valid (mk_datetime 2024 2 29 7 15 0 0) = true
  /\ 1000 <= year (mk_datetime 2024 2 29 7 15 0 0)
  /\ Forall (fun url => validate_url url = true)
       (generate_daily_urls (mk_datetime 2024 2 29 7 15 0 0)).
Proof.
  split; [reflexivity|]. split; [cbn; lia|].
  apply (generated_urls_validate (mk_datetime 2024 2 29 7 15 0 0));
    [reflexivity|cbn; lia].
Defined.

(** Before the year 1000 the year of a generated URL has fewer than four
    digits and [validate_url] rejects every one of them. *)
Lemma generated_urls_short_year (d : datetime) :
  year d < 1000 ->
  Forall (fun url => validate_url url = false) (generate_daily_urls d).
Proof.
  intros Hy. unfold generate_daily_urls. apply List.Forall_forall.
  intros url Hin. apply in_map_iff in Hin as (ts & <- & _).
  unfold validate_url.
  now rewrite construct_url_nonempty, (url_pattern_match_short_year d ts Hy).
Qed.

(** X2. An ASCII URL that [validate_url] accepts has the shape of the
    pattern, possibly followed by more text ([re.match] does not anchor the
    end): a four-digit year, a month and a day that form a real calendar
    date, the same eight digits again, and a six-digit time sequence that is
    a time of day.  [extract_metadata_from_url] returns exactly that date
    and sequence, and from the year 1000 on the URL is the one
    [construct_url] builds for them. *)
Theorem validate_url_sound (url : string) :
  isascii url = true ->
  validate_url url = true ->
  exists date ts rest,
    valid date = true /\ midnight date = date
    /\ url = BASE_URL +:+ "/" +:+ fmt04 (year date) +:+ "/"
              +:+ fmt02 (month date) +:+ "/" +:+ fmt02 (day date) +:+ "/"
              +:+ fmt04 (year date) +:+ fmt02 (month date)
              +:+ fmt02 (day date) +:+ "_" +:+ ts +:+ "_" +:+ RESOLUTION
              +:+ "_" +:+ INSTRUMENT_CODE +:+ ".jpg" +:+ rest
    /\ (1000 <= year date -> url = construct_url date ts +:+ rest)
    /\ extract_metadata_from_url url = Some (date, ts)
    /\ all_digits 6 ts = true
    /\ 0 <= int_of_digits (String.substring 0 2 ts) <= 23
    /\ 0 <= int_of_digits (String.substring 2 2 ts) <= 59
    /\ 0 <= int_of_digits (String.substring 4 2 ts) <= 59.
Proof.
  intros _. unfold validate_url, extract_metadata_from_url. intros H.
  destruct (String.eqb url ""); [discriminate|].
  destruct (url_pattern_match url) as [[[[[y m] d] dp] tp]|] eqn:Hm;
    [|discriminate].
  destruct (url_pattern_match_inv _ _ _ _ _ _ Hm)
    as (Hy & Hmo & Hd & Hdp & Htp & rest & Hurl).
  unfold datetime_ymd in *.
  destruct (valid_date _ _ _) eqn:Hvalid; [|discriminate].
  destruct (String.eqb_spec dp (y +:+ m +:+ d)) as [->|]; [|discriminate].
  cbn [negb] in H.
  destruct (String.length tp =? 6)%nat; [|discriminate]. cbn [negb] in H.
  rewrite !andb_true_iff, !Z.leb_le in H.
  destruct (fmt04_int_of_digits y Hy) as [Ey _].
  destruct (fmt02_int_of_digits m Hmo) as [Em _].
  destruct (fmt02_int_of_digits d Hd) as [Ed _].
  exists (mk_datetime (int_of_digits y) (int_of_digits m) (int_of_digits d)
            0 0 0 0), tp, rest.
  split; [unfold valid; cbn; now rewrite Hvalid|].
  split; [reflexivity|].
  assert (url = BASE_URL +:+ "/" +:+ y +:+ "/" +:+ m +:+ "/" +:+ d +:+ "/"
                +:+ y +:+ m +:+ d +:+ "_" +:+ tp +:+ "_" +:+ RESOLUTION
                +:+ "_" +:+ INSTRUMENT_CODE +:+ ".jpg" +:+ rest) as Hshape.
  { rewrite Hurl. unfold BASE_URL, RESOLUTION, INSTRUMENT_CODE.
    rewrite !append_assoc. reflexivity. }
  split; [cbn [year month day]; now rewrite Ey, Em, Ed|]. split.
  - cbn [year month day]. intros Hyear. rewrite construct_url_shape.
    cbn [year month day]. rewrite (fmt_year_four _ Hyear).
    rewrite Ey, Em, Ed, Hurl, !append_assoc. reflexivity.
  - split; [reflexivity|]. split; [exact Htp|]. lia.
Qed.

Lemma validate_url_sound_witness :
  isascii
    "https://sdo.gsfc.nasa.gov/assets/img/browse/2024/03/01/20240301_001200_4096_0211.jpg"
  = true
  /\ validate_url
    "https://sdo.gsfc.nasa.gov/assets/img/browse/2024/03/01/20240301_001200_4096_0211.jpg"
  = true
  /\ exists date ts rest,
       valid date = true /\ midnight date = date
       /\ "https://sdo.gsfc.nasa.gov/assets/img/browse/2024/03/01/20240301_001200_4096_0211.jpg"
          = BASE_URL +:+ "/" +:+ fmt04 (year date) +:+ "/"
              +:+ fmt02 (month date) +:+ "/" +:+ fmt02 (day date) +:+ "/"
              +:+ fmt04 (year date) +:+ fmt02 (month date)
              +:+ fmt02 (day date) +:+ "_" +:+ ts +:+ "_" +:+ RESOLUTION
              +:+ "_" +:+ INSTRUMENT_CODE +:+ ".jpg" +:+ rest
       /\ (1000 <= year date ->
           "https://sdo.gsfc.nasa.gov/assets/img/browse/2024/03/01/20240301_001200_4096_0211.jpg"
           = construct_url date ts +:+ rest)
       /\ extract_metadata_from_url
            "https://sdo.gsfc.nasa.gov/assets/img/browse/2024/03/01/20240301_001200_4096_0211.jpg"
          = Some (date, ts)
       /\ all_digits 6 ts = true
       /\ 0 <= int_of_digits (String.substring 0 2 ts) <= 23
       /\ 0 <= int_of_digits (String.substring 2 2 ts) <= 59
       /\ 0 <= int_of_digits (String.substring 4 2 ts) <= 59.
Proof.
  split; [reflexivity|]. split; [reflexivity|].
  apply (validate_url_sound
    "https://sdo.gsfc.nasa.gov/assets/img/browse/2024/03/01/20240301_001200_4096_0211.jpg");
    reflexivity.
Defined.

(** The accepted URL of the year 999 is not the one [construct_url] builds
    for that date, which has no leading zero and is rejected. *)
Lemma validate_url_padded_year :
  validate_url
    "https://sdo.gsfc.nasa.gov/assets/img/browse/0999/01/01/09990101_001200_4096_0211.jpg"
  = true
  /\ construct_url (mk_datetime 999 1 1 0 0 0 0) "001200"
     = "https://sdo.gsfc.nasa.gov/assets/img/browse/999/01/01/9990101_001200_4096_0211.jpg"
  /\ validate_url (construct_url (mk_datetime 999 1 1 0 0 0 0) "001200")
     = false.
Proof. repeat split; vm_compute; reflexivity. Qed.

End URLValidation.

Section URLCounts.
Import Text Calendar URLGenerator URLChecks.

Lemma string_length_app (a b : string) :
  String.length (a +:+ b) = (String.length a + String.length b)%nat.
Proof.
  induction a as [|c a IH]; [reflexivity|].
  rewrite append_cons. cbn [String.length]. now rewrite IH.
Qed.

Lemma append_cancel_r (t : string) :
  forall a b, a +:+ t = b +:+ t -> a = b.
Proof.
  induction a as [|c a IH]; intros [|c' b] H.
  - reflexivity.
  - apply (f_equal String.length) in H.
    rewrite append_nil, append_cons in H. cbn [String.length] in H.
    rewrite string_length_app in H. lia.
  - apply (f_equal String.length) in H.
    rewrite append_nil, append_cons in H. cbn [String.length] in H.
    rewrite string_length_app in H. lia.
  - rewrite !append_cons in H. injection H as -> H. f_equal. now apply IH.
Qed.

Lemma construct_url_inj (d : datetime) (ts1 ts2 : string) :
  construct_url d ts1 = construct_url d ts2 -> ts1 = ts2.
Proof.
  rewrite !construct_url_shape. intros H.
  repeat (apply String.app_inj in H).
  now apply append_cancel_r in H.
Qed.

Lemma generate_daily_urls_length (d : datetime) :
  length (generate_daily_urls d) = 360%nat.
Proof. unfold generate_daily_urls. rewrite length_map. reflexivity. Qed.

(** X3. A day's candidate list has 360 URLs (24 hours, 5 minute marks, 3 second
    marks), no two of them equal, whatever the date. *)
Theorem generate_daily_urls_distinct (d : datetime) :
  length (generate_daily_urls d) = 360%nat
  /\ List.NoDup (generate_daily_urls d).
Proof.
  split; [apply generate_daily_urls_length|].
  unfold generate_daily_urls. apply NoDup_map_NoDup_ForallPairs.
  - intros ts1 ts2 _ _. apply construct_url_inj.
  - apply NoDup_ListNoDup. apply (bool_decide_unpack _). vm_compute.
    reflexivity.
Qed.

Lemma flat_map_daily_length (dates : list datetime) :
  length (flat_map generate_daily_urls dates) = (360 * length dates)%nat.
Proof.
  induction dates as [|d dates IH]; [reflexivity|].
  cbn [flat_map length]. rewrite length_app, generate_daily_urls_length, IH.
  lia.
Qed.

(** X4. Inside the range of [datetime], [generate_date_range_urls(days, end)]
    returns 360 URLs per day: [360 * days] in all. *)
Theorem generate_date_range_urls_count (fuel : nat) (now : datetime)
    (days : Z) (end_date start_date : datetime) :
  valid end_date = true ->
  1 <= days ->
  add_days end_date (- (days - 1)) = Some start_date ->
  is_Some (next_day end_date) ->
  (Z.to_nat days < fuel)%nat ->
  exists urls,
    generate_date_range_urls fuel now days (Some end_date) = Some (Ok urls)
    /\ Z.of_nat (length urls) = 360 * days.
Proof.
  intros He Hdays Hstart Hnext Hfuel.
  unfold generate_date_range_urls. rewrite Hstart.
  rewrite add_days_back in Hstart by lia.
  destruct (window_dates (Z.to_nat (days - 1)) end_date start_date fuel
              He Hstart Hnext ltac:(lia)) as (Hrun & Hlen & _).
  eexists. split; [exact Hrun|].
  rewrite flat_map_daily_length, Hlen. lia.
Qed.

Lemma generate_date_range_urls_count_witness :
  valid (mk_datetime 2024 3 3 0 0 0 0) = true
  /\ 1 <= 3
  /\ add_days (mk_datetime 2024 3 3 0 0 0 0) (- (3 - 1))
     = Some (mk_datetime 2024 3 1 0 0 0 0)
  /\ is_Some (next_day (mk_datetime 2024 3 3 0 0 0 0))
  /\ (Z.to_nat 3 < 5)%nat
  /\ exists urls,
       generate_date_range_urls 5 (mk_datetime 2024 6 1 0 0 0 0) 3
         (Some (mk_datetime 2024 3 3 0 0 0 0)) = Some (Ok urls)
       /\ Z.of_nat (length urls) = 360 * 3.
Proof.
  split; [reflexivity|]. split; [lia|]. split; [reflexivity|].
  split; [eexists; reflexivity|]. split; [cbn; lia|].
  apply (generate_date_range_urls_count 5 (mk_datetime 2024 6 1 0 0 0 0) 3
           (mk_datetime 2024 3 3 0 0 0 0) (mk_datetime 2024 3 1 0 0 0 0)).
  - reflexivity.
  - lia.
  - reflexivity.
  - eexists; reflexivity.
  - cbn; lia.
Defined.

(** X5. [generate_last_month_urls] sweeps the 30 dates that end at [end_date]
    in ascending order -- the i-th is [end_date - (29 - i) days], from
    [end_date - 29 days] to [end_date] itself: 10800 URLs. *)
Theorem generate_last_month_urls_thirty_days (fuel : nat) (now : datetime)
    (end_date start_date : datetime) :
  valid end_date = true ->
  add_days end_date (- 29) = Some start_date ->
  is_Some (next_day end_date) ->
  (30 < fuel)%nat ->
  exists dates,
    generate_last_month_urls fuel now (Some end_date)
      = Some (Ok (flat_map generate_daily_urls dates))
    /\ length dates = 30%nat
    /\ (forall i, 0 <= i <= 29 ->
          dates !! Z.to_nat i = add_days end_date (- (29 - i)))
    /\ dates !! 0%nat = Some start_date
    /\ dates !! 29%nat = Some end_date
    /\ Z.of_nat (length (flat_map generate_daily_urls dates)) = 10800.
Proof.
  intros He Hstart Hnext Hfuel.
  unfold generate_last_month_urls, generate_date_range_urls.
  change (- (30 - 1)) with (- 29). rewrite Hstart.
  change (add_days end_date (Z.opp 29) = Some start_date) in Hstart.
  rewrite (add_days_back end_date 29) in Hstart by lia.
  destruct (window_dates (Z.to_nat 29) end_date start_date fuel
              He Hstart Hnext ltac:(lia)) as (Hrun & Hlen & Hidx).
  eexists. split; [exact Hrun|]. split; [exact Hlen|].
  split; [|split; [|split]].
  - intros i Hi. rewrite Hidx by lia. rewrite add_days_back by lia.
    f_equal. lia.
  - rewrite Hidx by lia. exact Hstart.
  - change 29%nat with (Z.to_nat 29) at 1. rewrite Hidx by lia.
    now rewrite Nat.sub_diag.
  - rewrite flat_map_daily_length, Hlen. lia.
Qed.

Lemma generate_last_month_urls_thirty_days_witness :
  valid (mk_datetime 2024 3 1 8 0 0 0) = true
  /\ add_days (mk_datetime 2024 3 1 8 0 0 0) (- 29)
     = Some (mk_datetime 2024 2 1 8 0 0 0)
  /\ is_Some (next_day (mk_datetime 2024 3 1 8 0 0 0))
  /\ (30 < 32)%nat
  /\ exists dates,
       generate_last_month_urls 32 (mk_datetime 2024 6 1 0 0 0 0)
         (Some (mk_datetime 2024 3 1 8 0 0 0))
         = Some (Ok (flat_map generate_daily_urls dates))
       /\ length dates = 30%nat
       /\ (forall i, 0 <= i <= 29 ->
             dates !! Z.to_nat i
             = add_days (mk_datetime 2024 3 1 8 0 0 0) (- (29 - i)))
       /\ dates !! 0%nat = Some (mk_datetime 2024 2 1 8 0 0 0)
       /\ dates !! 29%nat = Some (mk_datetime 2024 3 1 8 0 0 0)
       /\ Z.of_nat (length (flat_map generate_daily_urls dates)) = 10800.
Proof.
  split; [reflexivity|]. split; [reflexivity|].
  split; [eexists; reflexivity|]. split; [lia|].
  apply (generate_last_month_urls_thirty_days 32
           (mk_datetime 2024 6 1 0 0 0 0) (mk_datetime 2024 3 1 8 0 0 0)
           (mk_datetime 2024 2 1 8 0 0 0)).
  - reflexivity.
  - reflexivity.
  - eexists; reflexivity.
  - lia.
Defined.

(** X6. A range of zero or fewer days: the start, [end_date + (1 - days)]
    days, falls after the end, so the loop body never runs and the result is
    the empty list -- unless that start is past 9999-12-31, in which case
    computing it raises [OverflowError]. *)
Theorem generate_date_range_urls_no_days (fuel : nat) (now : datetime)
    (days : Z) (end_date : datetime) :
  valid end_date = true ->
  days <= 0 ->
  (0 < fuel)%nat ->
  generate_date_range_urls fuel now days (Some end_date)
  = match add_days end_date (- (days - 1)) with
    | Some _ => Some (Ok [])
    | None => Some (Raise OverflowError)
    end.
Proof.
  intros He Hdays Hfuel.
  unfold generate_date_range_urls.
  destruct (add_days end_date (- (days - 1))) as [start_date|] eqn:Hstart;
    [|reflexivity].
  unfold add_days in Hstart.
  destruct (Z.leb_spec 0 (- (days - 1))); [|lia].
  destruct (iter_next_spec _ _ _ He Hstart) as (Hs & Hst & Hk).
  destruct fuel as [|fuel]; [lia|]. cbn [date_range_loop].
  rewrite (leb_same_time start_date end_date Hs He).
  2:{ unfold same_time in *. intuition congruence. }
  destruct (Z.leb_spec (ymd_key start_date) (ymd_key end_date)); [lia|].
  reflexivity.
Qed.

Lemma generate_date_range_urls_no_days_witness :
  valid (mk_datetime 2024 3 1 0 0 0 0) = true
  /\ 0 <= 0
  /\ (0 < 1)%nat
  /\ generate_date_range_urls 1 (mk_datetime 2024 6 1 0 0 0 0) 0
       (Some (mk_datetime 2024 3 1 0 0 0 0))
     = match add_days (mk_datetime 2024 3 1 0 0 0 0) (- (0 - 1)) with
       | Some _ => Some (Ok [])
       | None => Some (Raise OverflowError)
       end.
Proof.
  split; [reflexivity|]. split; [lia|]. split; [lia|].
  apply (generate_date_range_urls_no_days 1 (mk_datetime 2024 6 1 0 0 0 0) 0
           (mk_datetime 2024 3 1 0 0 0 0)); [reflexivity|lia|lia].
Defined.

(** Both outcomes, evaluated: the empty list on an ordinary day, the error
    on the last day of the calendar. *)
Lemma generate_date_range_urls_no_days_outcomes :
  generate_date_range_urls 1 (mk_datetime 2024 6 1 0 0 0 0) 0
    (Some (mk_datetime 2024 3 1 0 0 0 0)) = Some (Ok [])
  /\ generate_date_range_urls 1 (mk_datetime 2024 6 1 0 0 0 0) 0
       (Some (mk_datetime 9999 12 31 0 0 0 0)) = Some (Raise OverflowError).
Proof. split; reflexivity. Qed.

End URLCounts.

(** ** Image fetcher: bounds of the retry loop *)

Section RetryBounds.
Import Text World Fetcher Retry.

Lemma backoff_in_range (attempt : Z) :
  0 <= attempt ->
  (1 <= inject_Z (_exponential_backoff attempt) <= 60)%Q.
Proof.
  intros H. unfold _exponential_backoff.
  pose proof (Z.pow_pos_nonneg 2 attempt ltac:(lia) H).
  unfold Qle, inject_Z. cbn. lia.
Qed.

Lemma download_attempts_bounds (env : environment) (f : ImageFetcher)
    (url : string) (n : nat) :
  forall a w, 0 <= a -> a + Z.of_nat n = max_retries f ->
  let r := download_attempts env f url (seqZ a (Z.of_nat n)) w in
  exists evs,
    trace r.2 = trace w ++ evs
    /\ Forall (fun e => is_rate_limit_sleep e = false) evs
    /\ (length (requests evs) <= n)%nat
    /\ (n <> 0%nat -> (1 <= length (requests evs))%nat)
    /\ length (backoff_sleeps evs) = (length (requests evs) - 1)%nat
    /\ Forall (fun d => (1 <= d <= 60)%Q) (backoff_sleeps evs)
    /\ fetch_shape r.1.
Proof.
  induction n as [|n IH]; intros a w Ha Hmax r; subst r.
  - exists []. change (seqZ a (Z.of_nat 0)) with (@nil Z).
    cbn [download_attempts fst snd]. rewrite app_nil_r.
    split; [reflexivity|]. split; [constructor|]. split; [cbn; lia|].
    split; [intros Hn; now contradict Hn|]. split; [reflexivity|].
    split; [constructor|]. right. eauto.
  - rewrite seqZ_cons by lia.
    replace (Z.pred (Z.of_nat (S n))) with (Z.of_nat n) by lia.
    cbn [download_attempts http_request].
    set (w1 := {| clock := (clock w + latency env (length (requests (trace w))))%Q;
                  fs := fs w;
                  trace := trace w ++ [Request GET url (clock w)] |}).
    assert (forall res, fetch_shape res ->
      exists evs, trace (res, w1).2 = trace w ++ evs
        /\ Forall (fun e => is_rate_limit_sleep e = false) evs
        /\ (length (requests evs) <= S n)%nat
        /\ (S n <> 0%nat -> (1 <= length (requests evs))%nat)
        /\ length (backoff_sleeps evs) = (length (requests evs) - 1)%nat
        /\ Forall (fun d => (1 <= d <= 60)%Q) (backoff_sleeps evs)
        /\ fetch_shape (res, w1).1) as Hstop.
    { intros res Hres. exists [Request GET url (clock w)].
      cbn [fst snd trace w1 requests List.filter is_request backoff_sleeps
           length].
      split; [reflexivity|]. split; [repeat constructor|]. split; [lia|].
      split; [lia|]. split; [reflexivity|]. split; [constructor|].
      exact Hres. }
    assert (forall msg, exists evs,
      trace (retry_or_fail f a msg
               (download_attempts env f url (seqZ (Z.succ a) (Z.of_nat n)))
               w1).2 = trace w ++ evs
      /\ Forall (fun e => is_rate_limit_sleep e = false) evs
      /\ (length (requests evs) <= S n)%nat
      /\ (S n <> 0%nat -> (1 <= length (requests evs))%nat)
      /\ length (backoff_sleeps evs) = (length (requests evs) - 1)%nat
      /\ Forall (fun d => (1 <= d <= 60)%Q) (backoff_sleeps evs)
      /\ fetch_shape (retry_or_fail f a msg
               (download_attempts env f url (seqZ (Z.succ a) (Z.of_nat n)))
               w1).1) as Hretry.
    { intros msg. unfold retry_or_fail.
      destruct (Z.ltb_spec a (max_retries f - 1)) as [Hlt|Hge].
      - destruct (IH (Z.succ a)
                    (sleep Backoff (inject_Z (_exponential_backoff a)) w1)
                    ltac:(lia) ltac:(lia))
          as (evs & Htr & Hrl & Hle & Hone & Hback & Hrange & Hshape).
        exists (Request GET url (clock w)
                :: Sleep Backoff (inject_Z (_exponential_backoff a)) :: evs).
        rewrite Htr. cbn [sleep trace w1]. rewrite <- !app_assoc.
        split; [reflexivity|]. split; [repeat constructor; exact Hrl|].
        cbn [requests List.filter is_request backoff_sleeps length].
        fold (requests evs).
        specialize (Hone ltac:(lia)).
        split; [lia|]. split; [lia|]. split; [lia|].
        split; [|exact Hshape].
        constructor; [now apply backoff_in_range|exact Hrange].
      - apply Hstop. right. eauto. }
    destruct (server env (length (requests (trace w))) GET url)
      as [status content text cl| | |msg]; try apply Hretry.
    + destruct (status =? 200); [apply Hstop; left; eauto|].
      destruct (status =? 404); [apply Hstop; right; eauto|apply Hretry].
    + apply Hstop. right. eauto.
Qed.

(** The attempts of [download_image], step by step: some number of failed
    attempts, each followed by its backoff sleep, and a last request. *)
Lemma download_attempts_schedule (env : environment) (f : ImageFetcher)
    (url : string) (n : nat) :
  forall a w, 0 <= a -> a + Z.of_nat (S n) = max_retries f ->
  exists evs k,
    trace (download_attempts env f url (seqZ a (Z.of_nat (S n))) w).2
      = trace w ++ evs
    /\ Forall (fun e => is_rate_limit_sleep e = false) evs
    /\ (k <= n)%nat
    /\ map step_of evs = retry_schedule url a k.
Proof.
  induction n as [|n IH]; intros a w Ha Hmax;
    rewrite seqZ_cons by lia;
    cbn [download_attempts http_request];
    set (w1 := {| clock := (clock w + latency env (length (requests (trace w))))%Q;
                  fs := fs w;
                  trace := trace w ++ [Request GET url (clock w)] |}).
  - assert (forall res : fetch_result, exists evs k,
              trace (res, w1).2 = trace w ++ evs
              /\ Forall (fun e => is_rate_limit_sleep e = false) evs
              /\ (k <= 0)%nat
              /\ map step_of evs = retry_schedule url a k) as Hstop.
    { intros res. exists [Request GET url (clock w)], 0%nat.
      split; [reflexivity|]. split; [repeat constructor|].
      split; [lia|reflexivity]. }
    assert (forall msg k', retry_or_fail f a msg k' w1
                           = ((false, None, Some msg), w1)) as Hlast.
    { intros msg k'. unfold retry_or_fail.
      destruct (Z.ltb_spec a (max_retries f - 1)); [lia|reflexivity]. }
    destruct (server env (length (requests (trace w))) GET url)
      as [status content text cl| | |msg]; rewrite ?Hlast; try apply Hstop.
    destruct (status =? 200); [apply Hstop|].
    destruct (status =? 404); apply Hstop.
  - replace (Z.pred (Z.of_nat (S (S n)))) with (Z.of_nat (S n)) by lia.
    assert (forall res : fetch_result, exists evs k,
              trace (res, w1).2 = trace w ++ evs
              /\ Forall (fun e => is_rate_limit_sleep e = false) evs
              /\ (k <= S n)%nat
              /\ map step_of evs = retry_schedule url a k) as Hstop.
    { intros res. exists [Request GET url (clock w)], 0%nat.
      split; [reflexivity|]. split; [repeat constructor|].
      split; [lia|reflexivity]. }
    assert (forall msg, exists evs k,
      trace (retry_or_fail f a msg
               (download_attempts env f url (seqZ (Z.succ a) (Z.of_nat (S n))))
               w1).2 = trace w ++ evs
      /\ Forall (fun e => is_rate_limit_sleep e = false) evs
      /\ (k <= S n)%nat
      /\ map step_of evs = retry_schedule url a k) as Hretry.
    { intros msg. unfold retry_or_fail.
      destruct (Z.ltb_spec a (max_retries f - 1)) as [Hlt|Hge]; [|lia].
      destruct (IH (Z.succ a)
                  (sleep Backoff (inject_Z (_exponential_backoff a)) w1)
                  ltac:(lia) ltac:(lia)) as (evs & k & Htr & Hrl & Hk & Hsteps).
      exists (Request GET url (clock w)
              :: Sleep Backoff (inject_Z (_exponential_backoff a)) :: evs),
             (S k).
      rewrite Htr. cbn [sleep trace w1]. rewrite <- !app_assoc.
      split; [reflexivity|]. split; [repeat constructor; exact Hrl|].
      split; [lia|].
      cbn [map step_of retry_schedule]. rewrite Hsteps.
      replace (a + 1) with (Z.succ a) by lia. reflexivity. }
    destruct (server env (length (requests (trace w))) GET url)
      as [status content text cl| | |msg]; try apply Hretry;
      [|apply Hstop].
    destruct (status =? 200); [apply Hstop|].
    destruct (status =? 404); [apply Hstop|apply Hretry].
Qed.

(** X7. Whatever the calls of [session.get] return or raise, one
    [download_image] call makes at most [max_retries] of them, and what it
    does is fixed up to the number [k] of failed attempts: a request, the
    backoff sleep of attempt 0, a request, the backoff sleep of attempt 1,
    ..., and a last request with no sleep after it ([k + 1] requests, [k]
    sleeps of [min(2^i, 60)] seconds, each between 1 and 60); nothing at all
    when [max_retries <= 0].  The fetcher's configuration is left alone and
    the result is either [(True, data, None)] or [(False, None, message)]. *)
Theorem download_image_bounded (env : environment) (f : ImageFetcher)
    (url : string) (w : world) :
  let out := download_image env f url w in
  let evs := events_since w out.2 in
  (Z.of_nat (length (requests evs)) <= Z.max 0 (max_retries f))
  /\ ((max_retries f <= 0 /\ activity w out.2 = [])
      \/ (exists k, Z.of_nat k < max_retries f
                    /\ activity w out.2 = retry_schedule url 0 k))
  /\ length (backoff_sleeps evs) = (length (requests evs) - 1)%nat
  /\ Forall (fun d => (1 <= d <= 60)%Q) (backoff_sleeps evs)
  /\ max_retries out.1.2 = max_retries f
  /\ rate_limit_delay out.1.2 = rate_limit_delay f
  /\ ((exists data, out.1.1 = (true, Some data, None))
      \/ (exists msg, out.1.1 = (false, None, Some msg))).
Proof.
  cbn zeta. rewrite download_image_unfold.
  destruct (enforce_rate_limit_spec f w) as (Hm & Hr & _ & _ & Hpre & _).
  set (f1 := fst (_enforce_rate_limit f w)) in *.
  set (w1 := snd (_enforce_rate_limit f w)) in *.
  cbn zeta. cbn [fst snd].
  assert (seqZ 0 (max_retries f)
          = seqZ 0 (Z.of_nat (Z.to_nat (max_retries f)))) as ->.
  { unfold seqZ. now rewrite Nat2Z.id. }
  destruct (Z.le_gt_cases (max_retries f) 0) as [Hneg|Hpos].
  - replace (Z.to_nat (max_retries f)) with 0%nat by lia.
    change (seqZ 0 (Z.of_nat 0)) with (@nil Z).
    cbn [download_attempts fst snd].
    destruct (activity_after_rate_limit w w1 w1 [] Hpre
                ltac:(now rewrite app_nil_r) ltac:(constructor)) as [Hact _].
    assert (requests (events_since w w1) = []
            /\ backoff_sleeps (events_since w w1) = []) as [-> ->].
    { destruct Hpre as [Hsame|[d Hsleep]].
      - rewrite (events_since_app w w1 []) by now rewrite Hsame, app_nil_r.
        split; reflexivity.
      - rewrite (events_since_app w w1 _ Hsleep). split; reflexivity. }
    cbn. split; [lia|]. split; [left; split; [exact Hneg|exact Hact]|].
    split; [reflexivity|]. split; [constructor|].
    split; [exact Hm|]. split; [exact Hr|]. right. eauto.
  - destruct (download_attempts_bounds env f1 url (Z.to_nat (max_retries f))
                0 w1 ltac:(lia) ltac:(lia))
      as (evs & Htr & Hrl & Hle & _ & Hback & Hrange & Hshape).
    assert (requests (events_since w
              (download_attempts env f1 url
                 (seqZ 0 (Z.of_nat (Z.to_nat (max_retries f)))) w1).2)
            = requests evs
            /\ backoff_sleeps (events_since w
              (download_attempts env f1 url
                 (seqZ 0 (Z.of_nat (Z.to_nat (max_retries f)))) w1).2)
            = backoff_sleeps evs) as [-> ->].
    { destruct Hpre as [Hsame|[d Hsleep]].
      - rewrite (events_since_app w _ evs) by now rewrite Htr, Hsame.
        split; reflexivity.
      - rewrite (events_since_app w _ (Sleep RateLimit d :: evs))
          by now rewrite Htr, Hsleep, <- app_assoc.
        split; reflexivity. }
    split; [lia|]. split.
    { right.
      assert (Z.to_nat (max_retries f)
              = S (Z.to_nat (max_retries f) - 1)) as Hs by lia.
      destruct (download_attempts_schedule env f1 url
                  (Z.to_nat (max_retries f) - 1) 0 w1 ltac:(lia)
                  ltac:(lia)) as (evs' & k & Htr' & Hrl' & Hk & Hsteps).
      rewrite <- Hs in Htr'.
      exists k. split; [lia|].
      destruct (activity_after_rate_limit w w1 _ evs' Hpre Htr' Hrl')
        as [-> _].
      exact Hsteps. }
    split; [exact Hback|]. split; [exact Hrange|].
    split; [exact Hm|]. split; [exact Hr|]. exact Hshape.
Qed.

End RetryBounds.

Section RetrySuccess.
Import Text World Fetcher Retry Samples MoreSamples.

Lemma download_attempts_retryable (env : environment) (f : ImageFetcher)
    (url : string) (a : Z) (rest : list Z) (w : world) :
  retryable (server env (length (requests (trace w))) GET url) = true ->
  a < max_retries f - 1 ->
  download_attempts env f url (a :: rest) w =
  download_attempts env f url rest
    (sleep Backoff (inject_Z (_exponential_backoff a))
       (http_request env GET url w).2).
Proof.
  intros Hr Hlt. cbn [download_attempts http_request snd].
  assert (forall msg k w', retry_or_fail f a msg k w'
            = k (sleep Backoff (inject_Z (_exponential_backoff a)) w')) as Hgo.
  { intros msg k w'. unfold retry_or_fail.
    destruct (Z.ltb_spec a (max_retries f - 1)); [reflexivity|lia]. }
  destruct (server env (length (requests (trace w))) GET url)
    as [status content text cl| | |msg]; try apply Hgo; [|discriminate Hr].
  cbn [retryable] in Hr. apply andb_true_iff in Hr as [Hr _].
  apply andb_true_iff in Hr as [H200 H404].
  apply negb_true_iff in H200, H404. rewrite H200, H404. apply Hgo.
Qed.

Lemma requests_after_retry (env : environment) (url : string) (d : Q)
    (w : world) :
  length (requests (trace (sleep Backoff d (http_request env GET url w).2)))
  = S (length (requests (trace w))).
Proof.
  cbn [http_request snd sleep trace]. unfold requests.
  rewrite !List.filter_app, !length_app. cbn. lia.
Qed.

Lemma retries_then_success (env : environment) (f : ImageFetcher)
    (url : string) (content : bytes) (text : string) (cl : option string)
    (n : nat) :
  forall a w, 0 <= a -> a + Z.of_nat n < max_retries f ->
  (forall i, (i < n)%nat ->
     retryable (server env (length (requests (trace w)) + i) GET url) = true) ->
  server env (length (requests (trace w)) + n) GET url
    = Response 200 content text cl ->
  let r := download_attempts env f url (seqZ a (max_retries f - a)) w in
  r.1 = (true, Some content, None)
  /\ exists evs, trace r.2 = trace w ++ evs
       /\ map step_of evs = retry_schedule url a n
       /\ Forall (fun e => is_rate_limit_sleep e = false) evs.
Proof.
  induction n as [|n IH]; intros a w Ha Hmax Hfail Hok r; subst r;
    rewrite seqZ_cons by lia.
  - rewrite Nat.add_0_r in Hok.
    cbn [download_attempts http_request]. rewrite Hok. cbn [Z.eqb Pos.eqb fst snd].
    split; [reflexivity|]. exists [Request GET url (clock w)].
    split; [reflexivity|]. split; [reflexivity|]. repeat constructor.
  - rewrite download_attempts_retryable.
    2:{ specialize (Hfail 0%nat ltac:(lia)). now rewrite Nat.add_0_r in Hfail. }
    2:{ lia. }
    replace (Z.pred (max_retries f - a)) with (max_retries f - Z.succ a) by lia.
    destruct (IH (Z.succ a)
                (sleep Backoff (inject_Z (_exponential_backoff a))
                   (http_request env GET url w).2)) as (Hres & evs & Htr & Hsteps & Hrl).
    + lia.
    + lia.
    + intros i Hi. rewrite requests_after_retry.
      replace (S (length (requests (trace w))) + i)%nat
        with (length (requests (trace w)) + S i)%nat by lia.
      apply Hfail. lia.
    + rewrite requests_after_retry.
      replace (S (length (requests (trace w))) + n)%nat
        with (length (requests (trace w)) + S n)%nat by lia.
      exact Hok.
    + split; [exact Hres|].
      exists (Request GET url (clock w)
              :: Sleep Backoff (inject_Z (_exponential_backoff a)) :: evs).
      rewrite Htr. cbn [http_request snd sleep trace].
      rewrite <- !app_assoc. split; [reflexivity|].
      split; [|repeat constructor; exact Hrl].
      cbn [map step_of retry_schedule]. rewrite Hsteps.
      replace (a + 1) with (Z.succ a) by lia. reflexivity.
Qed.

(** X8. Transient failures are retried: when the first [n] calls of
    [session.get] end in a timeout, a connection error or a response with a
    status other than 200 and 404 (of those that reach the caller: not 429,
    500, 502, 503 or 504, which the session resends by itself), the next one
    returns 200 and [n < max_retries], [download_image] returns the body of
    that answer after exactly [n + 1] calls, with the backoff sleeps of
    attempts 0 .. n-1 in between. *)
Theorem transient_failures_are_retried (env : environment) (f : ImageFetcher)
    (url : string) (w : world) (n : nat) (content : bytes) (text : string)
    (cl : option string) :
  Z.of_nat n < max_retries f ->
  (forall i, (i < n)%nat ->
     retryable (server env (length (requests (trace w)) + i) GET url) = true) ->
  server env (length (requests (trace w)) + n) GET url
    = Response 200 content text cl ->
  let out := download_image env f url w in
  out.1.1 = (true, Some content, None)
  /\ activity w out.2 = retry_schedule url 0 n.
Proof.
  intros Hn Hfail Hok. cbn zeta. rewrite download_image_unfold.
  destruct (enforce_rate_limit_spec f w) as (Hm & _ & _ & _ & Hpre & _).
  set (f1 := fst (_enforce_rate_limit f w)) in *.
  set (w1 := snd (_enforce_rate_limit f w)) in *.
  cbn zeta. cbn [fst snd].
  assert (length (requests (trace w1)) = length (requests (trace w))) as Hreq.
  { destruct Hpre as [->|[d ->]]; [reflexivity|].
    unfold requests. rewrite List.filter_app. cbn. now rewrite app_nil_r. }
  destruct (retries_then_success env f1 url content text cl n 0 w1)
    as (Hres & evs & Htr & Hsteps & Hrl).
  - lia.
  - rewrite Hm. lia.
  - intros i Hi. rewrite Hreq. now apply Hfail.
  - rewrite Hreq. exact Hok.
  - rewrite Hm, Z.sub_0_r in Hres, Htr. split; [exact Hres|].
    destruct (activity_after_rate_limit w w1 _ evs Hpre Htr Hrl) as [-> _].
    exact Hsteps.
Qed.

Lemma transient_failures_are_retried_witness :
  Z.of_nat 2 < max_retries default_fetcher
  /\ (forall i, (i < 2)%nat ->
        retryable (server flaky_env
                     (length (requests (trace start_world)) + i) GET image_url)
        = true)
  /\ server flaky_env (length (requests (trace start_world)) + 2) GET image_url
     = Response 200 jpeg_bytes "" (Some "4")
  /\ let out := download_image flaky_env default_fetcher image_url
                  start_world in
     out.1.1 = (true, Some jpeg_bytes, None)
     /\ activity start_world out.2 = retry_schedule image_url 0 2.
Proof.
  assert (forall i, (i < 2)%nat ->
            retryable (server flaky_env
                         (length (requests (trace start_world)) + i) GET
                         image_url) = true) as Hfail.
  { intros i Hi. destruct i as [|[|i]]; [reflexivity|reflexivity|lia]. }
  split; [cbn; lia|]. split; [exact Hfail|]. split; [reflexivity|].
  apply (transient_failures_are_retried flaky_env default_fetcher image_url
           start_world 2 jpeg_bytes "" (Some "4")).
  - cbn; lia.
  - exact Hfail.
  - reflexivity.
Defined.

End RetrySuccess.

(** ** Download manager: counters, and where a created task lands *)

Section ManagerCounters.
Import Text Calendar World Storage Models Fetcher Manager Counters.

(** X9. [download_count] counts the files actually fetched and stored: a call
    adds one exactly when it returns success for a file that was not on disk
    before (a skipped duplicate is not counted), never changes both counters,
    keeps the storage configuration, and [reset_counters] clears both
    counters. *)
Theorem download_count_counts_fetched_files (env : environment)
    (m : DownloadManager) (task : DownloadTask) (w : world) :
  let out := download_and_save env m task w in
  let filename := path_name (target_path task) in
  let already :=
    match Strptime.strptime_Ymd (Strptime.split_first filename) with
    | Some date => file_exists (Manager.storage m) w filename date
    | None => false
    end in
  get_download_count out.1.2
    = get_download_count m + (if out.1.1.1 && negb already then 1 else 0)
  /\ (get_download_count out.1.2 = get_download_count m
      \/ get_failed_tasks out.1.2 = get_failed_tasks m)
  /\ (out.1.1.1 = true -> get_failed_tasks out.1.2 = get_failed_tasks m)
  /\ Manager.storage out.1.2 = Manager.storage m
  /\ get_download_count (reset_counters out.1.2) = 0
  /\ get_failed_tasks (reset_counters out.1.2) = []
  /\ fetcher (reset_counters out.1.2) = fetcher out.1.2.
Proof.
  cbn zeta. unfold download_and_save, get_download_count, get_failed_tasks.
  cbn [target_path url set_status].
  destruct (Strptime.strptime_Ymd _) as [date|].
  2:{ cbn. repeat split; try lia; auto. }
  destruct (file_exists (Manager.storage m) w _ date).
  { cbn. repeat split; try lia; auto. }
  destruct (download_image env (fetcher m) (url task) w) as [[r f1] w1].
  destruct (fetched_data r) as [data|].
  - destruct (save_image env (Manager.storage m) data _ date w1)
      as [[[]|e] w2].
    + destruct (validate_file_integrity env (Manager.storage m) w2 _ date _);
        cbn; repeat split; try lia; auto.
    + cbn. repeat split; try lia; auto.
  - cbn. repeat split; try lia; auto.
Qed.

End ManagerCounters.

Section CreatedTasks.
Import Text Calendar World Storage Models Fetcher Manager Strptime
  ScraperRange Samples.

Lemma split_first_digits (n : nat) :
  forall s r, all_digits n s = true ->
  split_first (s +:+ "_" +:+ r) = s.
Proof.
  induction n as [|n IH]; intros [|c s] r H; try discriminate.
  - reflexivity.
  - cbn [all_digits] in H. apply andb_true_iff in H as [Hc H].
    rewrite append_cons. cbn [split_first].
    destruct (Ascii.eqb_spec c "_") as [->|_]; [discriminate Hc|].
    now rewrite (IH s r H).
Qed.

(** The month and day alternatives of [strptime] read back what [strftime]
    writes: two digits each, nothing left over. *)
Lemma month_day_alternatives (M D : Z) :
  1 <= M <= 12 -> 1 <= D <= 31 ->
  try_alternatives month_alternatives (fmt02 M +:+ fmt02 D)
    (fun m r1 => try_alternatives day_alternatives r1
                   (fun d r2 => Some (m, d, r2)))
  = Some (fmt02 M, fmt02 D, EmptyString)
  /\ int_of_group (fmt02 M) = M /\ int_of_group (fmt02 D) = D.
Proof.
  intros HM HD.
  rewrite <- (Z2Nat.id M), <- (Z2Nat.id D) by lia.
  assert (Z.to_nat M <= 12)%nat as Hm by lia.
  assert (Z.to_nat D <= 31)%nat as Hd by lia.
  assert (Z.to_nat M <> 0)%nat as Hm0 by lia.
  assert (Z.to_nat D <> 0)%nat as Hd0 by lia.
  revert Hm Hd Hm0 Hd0. generalize (Z.to_nat M) (Z.to_nat D).
  clear. intros m d Hm Hd Hm0 Hd0.
  do 13 (destruct m as [|m]; [try lia;
    do 32 (destruct d as [|d]; [try lia; repeat split; vm_compute; reflexivity|]);
    lia|]).
  lia.
Qed.

Lemma date_digits_digits (d : datetime) : all_digits 8 (date_digits d) = true.
Proof.
  apply (all_digits_app 4 4); [apply all_digits_fmt04|].
  apply (all_digits_app 2 2); apply all_digits_fmt02.
Qed.

Lemma strftime_Ymd_digits (d : datetime) :
  1000 <= year d -> strftime_Ymd d = date_digits d.
Proof.
  intros Hyear. unfold strftime_Ymd, strftime_Y, strftime_m, strftime_d.
  now rewrite (fmt_year_four _ Hyear).
Qed.

(** A dated file name is a proper path segment. *)
Lemma dated_name_plain (d : datetime) (rest : string) :
  ~ (date_digits d +:+ "_" +:+ rest = ""
     \/ date_digits d +:+ "_" +:+ rest = ".").
Proof.
  unfold date_digits, fmt04. rewrite !append_cons.
  intros [H|H]; discriminate H.
Qed.

(** [strptime] reads the eight digits of a date back. *)
Lemma strptime_date_digits (d : datetime) :
  valid d = true -> strptime_Ymd (date_digits d) = Some (midnight d).
Proof.
  intros Hd. destruct (valid_split d Hd) as [Hdate _].
  pose proof (valid_date_bounds _ _ _ Hdate) as (Hy & Hm & Hdd).
  pose proof (days_in_month_bounds (year d) (month d)).
  unfold strptime_Ymd, date_digits.
  rewrite take_digits_app by apply all_digits_fmt04.
  destruct (month_day_alternatives (month d) (day d)) as (-> & -> & ->);
    [lia|lia|].
  rewrite int_of_digits_fmt04 by lia. cbn [String.eqb].
  unfold datetime_ymd. now rewrite Hdate.
Qed.


Lemma dated_name_path (st : StorageOrganizer) (d d' : datetime)
    (rest : string) :
  get_local_path st (date_digits d' +:+ "_" +:+ rest) d
  = get_date_path st d ++ [date_digits d' +:+ "_" +:+ rest]
  /\ path_name (get_local_path st (date_digits d' +:+ "_" +:+ rest) d)
     = date_digits d' +:+ "_" +:+ rest.
Proof.
  unfold get_local_path, joinpath, path_name.
  rewrite bool_decide_eq_false_2 by apply dated_name_plain.
  split; [reflexivity|]. now rewrite last_snoc.
Qed.



(** Why the eight digits and not [strftime("%Y%m%d")]: before the year 1000
    that text is shorter (["9990301"]), [strptime] reads another date out of
    it (9990-03-01), and the download lands in that date's directory, not at
    the task's target. *)
Lemma unpadded_name_is_stored_elsewhere :
  let date := mk_datetime 999 3 1 0 0 0 0 in
  let filename := strftime_Ymd date +:+ "_001200_1024_0211.jpg" in
  let task := new_task (Scraper.get_directory_url date +:+ filename)
                (get_local_path data_storage filename date) in
  let out := download_and_save image_env default_manager task start_world in
  filename = "9990301_001200_1024_0211.jpg"
  /\ In task (create_download_tasks [(date, filename)] data_storage)
  /\ strptime_Ymd (split_first filename)
     = Some (mk_datetime 9990 3 1 0 0 0 0)
  /\ out.1.1.1 = true
  /\ fs out.2 !! target_path task = None
  /\ fs out.2 !! ["data"; "9990"; "03"; "01"; filename]
     = Some (File jpeg_bytes).
Proof.
  cbn zeta. split; [reflexivity|]. split; [left; reflexivity|].
  repeat split; vm_compute; reflexivity.
Qed.

End CreatedTasks.

(** ** Directory scraper: what a scrape returns, and ranges of days *)

Section ScrapedNames.
Import Text Calendar World Storage Scraper ScraperRange.

Lemma file_pattern_here_canonical (sc : DirectoryScraper) (s m : string) :
  file_pattern_here sc s = Some m -> canonical_name sc m.
Proof.
  unfold file_pattern_here. intros H.
  destruct (take_digits 8 s) as [[dp r1]|] eqn:E1; [|discriminate].
  destruct (expect "_" r1) as [r2|]; [|discriminate].
  destruct (take_digits 6 r2) as [[tp r3]|] eqn:E3; [|discriminate].
  destruct (expect _ r3); [|discriminate].
  injection H as <-.
  apply take_digits_inv in E1 as [_ H1], E3 as [_ H3].
  exists dp, tp. auto.
Qed.

Lemma file_pattern_search_canonical (sc : DirectoryScraper) (s m : string) :
  file_pattern_search sc s = Some m -> canonical_name sc m.
Proof.
  induction s as [|c s IH]; cbn [file_pattern_search];
    destruct (file_pattern_here sc _) as [m'|] eqn:Hh; intros H.
  - injection H as <-. eapply file_pattern_here_canonical; eauto.
  - discriminate.
  - injection H as <-. eapply file_pattern_here_canonical; eauto.
  - auto.
Qed.

Lemma file_pattern_findall_canonical (sc : DirectoryScraper) (s : string) :
  forall skip,
  Forall (canonical_name sc) (file_pattern_findall_from sc skip s).
Proof.
  induction s as [|c s IH]; intros skip; cbn [file_pattern_findall_from];
    [constructor|].
  destruct skip as [|skip]; [|apply IH].
  destruct (file_pattern_here sc (String c s)) as [m|] eqn:Hh; [|apply IH].
  constructor; [eapply file_pattern_here_canonical; eauto|apply IH].
Qed.

(** What one scrape does to the world: a single GET of the day's directory
    URL, nothing else. *)
Lemma scrape_directory_world (anchor_hrefs : string -> list string)
    (env : environment) (sc : DirectoryScraper) (date : datetime) (w : world) :
  trace (scrape_directory anchor_hrefs env sc date w).2
    = trace w ++ [Request GET (get_directory_url date) (clock w)]
  /\ fs (scrape_directory anchor_hrefs env sc date w).2 = fs w.
Proof.
  unfold scrape_directory, http_request.
  destruct (server env _ GET _) as [status content text cl| | |msg];
    try (split; reflexivity).
  destruct (status =? 404); [split; reflexivity|].
  destruct (negb (status =? 200)); split; reflexivity.
Qed.

Lemma scrape_directory_names (anchor_hrefs : string -> list string)
    (env : environment) (sc : DirectoryScraper) (date : datetime) (w : world) :
  Forall (canonical_name sc) (scrape_directory anchor_hrefs env sc date w).1.
Proof.
  unfold scrape_directory, http_request.
  destruct (server env _ GET _) as [status content text cl| | |msg];
    try constructor.
  destruct (status =? 404); [constructor|].
  destruct (negb (status =? 200)); [constructor|]. cbn [fst].
  rewrite collect_links_omap, app_nil_l.
  destruct (collect_text_matches_spec (file_pattern_findall sc text)
              (omap (file_pattern_search sc) (anchor_hrefs text)))
    as (fresh & -> & _ & Hin).
  unfold sorted. rewrite merge_sort_Permutation.
  apply Forall_app. split.
  - apply Forall_forall. intros name Hname.
    apply list_elem_of_omap in Hname as (href & _ & Hs).
    eapply file_pattern_search_canonical; eauto.
  - apply Forall_forall. intros name Hname. apply Hin in Hname as [Hname _].
    pose proof (file_pattern_findall_canonical sc text 0) as Hall.
    rewrite Forall_forall in Hall. now apply Hall.
Qed.

(** X11. For a scraper configured with digit codes, whatever the page holds
    and whatever the server answers, [scrape_directory] issues exactly one
    GET, of the day's directory URL, touches no file, and every name it
    returns has the shape the configured pattern asks for: eight digits, an
    underscore, six digits, then [_<resolution>_<filter>.jpg]. *)
Theorem scraped_names_are_canonical (anchor_hrefs : string -> list string)
    (env : environment) (sc : DirectoryScraper) (date : datetime) (w : world) :
  digit_code (resolution sc) = true ->
  digit_code (solar_filter sc) = true ->
  let out := scrape_directory anchor_hrefs env sc date w in
  Forall (canonical_name sc) out.1
  /\ events_since w out.2 = [Request GET (get_directory_url date) (clock w)]
  /\ fs out.2 = fs w.
Proof.
  intros _ _. cbn zeta.
  destruct (scrape_directory_world anchor_hrefs env sc date w) as [Htr Hfs].
  split; [apply scrape_directory_names|].
  split; [now apply events_since_app|exact Hfs].
Qed.

Lemma scraped_names_are_canonical_witness :
  digit_code (resolution Samples.scraper_1024_0211) = true
  /\ digit_code (solar_filter Samples.scraper_1024_0211) = true
  /\ let out := scrape_directory (fun _ => Samples.listing_page_hrefs)
                  (Samples.constant_env
                     (Response 200 [] Samples.listing_page None))
                  Samples.scraper_1024_0211 (mk_datetime 2024 3 1 0 0 0 0)
                  Samples.start_world in
     Forall (canonical_name Samples.scraper_1024_0211) out.1
     /\ events_since Samples.start_world out.2
        = [Request GET (get_directory_url (mk_datetime 2024 3 1 0 0 0 0))
             (clock Samples.start_world)]
     /\ fs out.2 = fs Samples.start_world.
Proof.
  split; [reflexivity|]. split; [reflexivity|].
  apply (scraped_names_are_canonical (fun _ => Samples.listing_page_hrefs)
           (Samples.constant_env (Response 200 [] Samples.listing_page None))
           Samples.scraper_1024_0211 (mk_datetime 2024 3 1 0 0 0 0)
           Samples.start_world); reflexivity.
Defined.

End ScrapedNames.

Section ScrapedRanges.
Import Text Calendar World Storage Scraper ScraperRange Samples.

Variable anchor_hrefs : string -> list string.

Lemma days_from_cons (n : nat) (d d' : datetime) :
  next_day d = Some d' -> days_from (S n) d = d :: days_from n d'.
Proof. intros H. cbn [days_from]. now rewrite H. Qed.

Lemma available_images_loop_run (env : environment) (sc : DirectoryScraper)
    (k : nat) :
  forall start_date end_date acc w fuel,
  valid start_date = true ->
  iter_days next_day k start_date = Some end_date ->
  is_Some (next_day end_date) -> (k + 2 <= fuel)%nat ->
  exists new w' evs,
    available_images_loop anchor_hrefs fuel env sc start_date end_date acc w
      = Some (Ok (acc ++ new), w')
    /\ trace w' = trace w ++ evs
    /\ map step_of evs
       = scrape_schedule (rate_limit_delay sc) (days_from (S k) start_date)
    /\ fs w' = fs w
    /\ Forall (fun p => In p.1 (days_from (S k) start_date)
                        /\ canonical_name sc p.2) new.
Proof.
  induction k as [|k IH];
    intros start_date end_date acc w fuel Hs Hit [e' He'] Hfuel.
  - injection Hit as <-. destruct fuel as [|[|fuel]]; try lia.
    destruct (next_day_spec start_date e' Hs He') as (Hv' & Hst & Hk).
    cbn [available_images_loop].
    rewrite (leb_same_time start_date start_date Hs Hs (same_time_refl _)),
      Z.leb_refl.
    destruct (scrape_directory anchor_hrefs env sc start_date w)
      as [filenames w1] eqn:Hscrape.
    rewrite He'. rewrite (leb_same_time e' start_date Hv' Hs).
    2:{ unfold same_time in *. intuition congruence. }
    destruct (Z.leb_spec (ymd_key e') (ymd_key start_date)); [lia|].
    destruct (scrape_directory_world anchor_hrefs env sc start_date w)
      as [Htr Hfs].
    pose proof (scrape_directory_names anchor_hrefs env sc start_date w) as Hn.
    rewrite Hscrape in Htr, Hfs, Hn. cbn [fst snd] in *.
    exists (tag_with_date start_date filenames), w1,
      [Request GET (get_directory_url start_date) (clock w)].
    split; [reflexivity|]. split; [exact Htr|].
    rewrite (days_from_cons 0 _ _ He'). cbn [days_from scrape_schedule map step_of].
    split; [reflexivity|]. split; [exact Hfs|].
    unfold tag_with_date. apply List.Forall_forall. intros p Hp.
    apply in_map_iff in Hp as (name & <- & Hname). cbn [fst snd].
    split; [now left|].
    rewrite Forall_forall in Hn. apply Hn. now apply list_elem_of_In.
  - cbn [iter_days] in Hit.
    destruct (next_day start_date) as [c'|] eqn:Hnext; [|discriminate].
    destruct (next_day_spec start_date c' Hs Hnext) as (Hc' & Hst & Hk).
    destruct (iter_next_spec k c' end_date Hc' Hit) as (Hve & Hst' & Hk').
    destruct fuel as [|fuel]; [lia|].
    cbn [available_images_loop].
    rewrite (leb_same_time start_date end_date Hs Hve
               (same_time_trans _ _ _ Hst Hst')).
    destruct (Z.leb_spec (ymd_key start_date) (ymd_key end_date)); [|lia].
    destruct (scrape_directory anchor_hrefs env sc start_date w)
      as [filenames w1] eqn:Hscrape.
    rewrite Hnext. rewrite (leb_same_time c' end_date Hc' Hve Hst').
    destruct (Z.leb_spec (ymd_key c') (ymd_key end_date)); [|lia].
    destruct (scrape_directory_world anchor_hrefs env sc start_date w)
      as [Htr Hfs].
    pose proof (scrape_directory_names anchor_hrefs env sc start_date w) as Hn.
    rewrite Hscrape in Htr, Hfs, Hn. cbn [fst snd] in *.
    destruct (IH c' end_date (acc ++ tag_with_date start_date filenames)
                (sleep RateLimit (rate_limit_delay sc) w1) fuel Hc' Hit
                (ex_intro _ e' He') ltac:(lia))
      as (new & w' & evs & Hrun & Htr' & Hsteps & Hfs' & Hall).
    exists (tag_with_date start_date filenames ++ new), w',
      (Request GET (get_directory_url start_date) (clock w)
       :: Sleep RateLimit (rate_limit_delay sc) :: evs).
    split; [now rewrite Hrun, <- app_assoc|]. split.
    { rewrite Htr'. cbn [sleep trace]. rewrite Htr, <- !app_assoc.
      reflexivity. }
    rewrite (days_from_cons (S k) _ _ Hnext).
    destruct (next_day c') as [c''|] eqn:Hnext'.
    + rewrite (days_from_cons k c' c'' Hnext') in *.
      cbn [scrape_schedule map step_of]. cbn [scrape_schedule] in Hsteps.
      rewrite Hsteps. split; [reflexivity|].
      split; [now rewrite Hfs'|].
      apply List.Forall_app. split.
      * unfold tag_with_date. apply List.Forall_forall. intros p Hp.
        apply in_map_iff in Hp as (name & <- & Hname). cbn [fst snd].
        split; [now left|].
        rewrite Forall_forall in Hn. apply Hn. now apply list_elem_of_In.
      * eapply List.Forall_impl; [|exact Hall]. cbn beta.
        intros p [Hp1 Hp2]. split; [now right|exact Hp2].
    + exfalso. destruct k as [|k]; cbn [iter_days] in Hit.
      * injection Hit as <-. rewrite He' in Hnext'. discriminate.
      * rewrite Hnext' in Hit. discriminate.
Qed.

(** X12. When [end_date] is [start_date] plus [k] whole days (so both have
    the same time of day) and the scraper is configured with digit codes,
    [get_available_images_for_date_range] visits each of the [k + 1] days
    from [start_date] to [end_date], whatever the server answers (a failed
    day gives no image and does not stop the sweep): one GET of each day's
    directory, in ascending date order, with a [rate_limit_delay] sleep
    between two days and none after the last.  It touches no file, and every
    image it reports belongs to a day of the range and has a name of the
    configured shape. *)
Theorem date_range_scrape_visits_every_day (env : environment)
    (sc : DirectoryScraper) (k : nat) (start_date end_date : datetime)
    (w : world) (fuel : nat) :
  digit_code (resolution sc) = true ->
  digit_code (solar_filter sc) = true ->
  valid start_date = true ->
  iter_days next_day k start_date = Some end_date ->
  is_Some (next_day end_date) ->
  (k + 2 <= fuel)%nat ->
  exists images w',
    get_available_images_for_date_range anchor_hrefs fuel env sc start_date
      end_date w = Some (Ok images, w')
    /\ map step_of (events_since w w')
       = scrape_schedule (rate_limit_delay sc) (days_from (S k) start_date)
    /\ length (requests (events_since w w')) = S k
    /\ fs w' = fs w
    /\ Forall (fun p => In p.1 (days_from (S k) start_date)
                        /\ canonical_name sc p.2) images.
Proof.
  intros _ _ Hs Hit Hnext Hfuel.
  destruct (available_images_loop_run env sc k start_date end_date [] w fuel
              Hs Hit Hnext Hfuel)
    as (new & w' & evs & Hrun & Htr & Hsteps & Hfs & Hall).
  exists new, w'. rewrite (events_since_app w w' evs Htr).
  split; [exact Hrun|]. split; [exact Hsteps|]. split; [|auto].
  assert (forall delay dates l,
            map step_of l = scrape_schedule delay dates ->
            length (requests l) = length dates) as Hcount.
  { intros delay dates. induction dates as [|d rest IH]; intros l Hl.
    - destruct l; [reflexivity|discriminate].
    - destruct rest as [|d' rest].
      + destruct l as [|[] [|? ?]]; try discriminate. reflexivity.
      + destruct l as [|[] [|[] l]]; try discriminate.
        cbn [scrape_schedule map step_of] in Hl.
        injection Hl as _ _ _ _ Hl.
        cbn [requests List.filter is_request length]. f_equal.
        apply (IH l). exact Hl. }
  rewrite (Hcount _ _ _ Hsteps). exact (days_from_length k _ _ Hit).
Qed.

End ScrapedRanges.

Section ScrapedRangesExamples.
Import Text Calendar World Storage Scraper ScraperRange Samples.

Lemma date_range_scrape_visits_every_day_witness :
  digit_code (resolution scraper_1024_0211) = true
  /\ digit_code (solar_filter scraper_1024_0211) = true
  /\ valid (mk_datetime 2024 2 28 0 0 0 0) = true
  /\ iter_days next_day 2 (mk_datetime 2024 2 28 0 0 0 0)
     = Some (mk_datetime 2024 3 1 0 0 0 0)
  /\ is_Some (next_day (mk_datetime 2024 3 1 0 0 0 0))
  /\ (2 + 2 <= 4)%nat
  /\ exists images w',
       get_available_images_for_date_range (fun _ => listing_page_hrefs) 4
         (constant_env (Response 404 [] "" None)) scraper_1024_0211
         (mk_datetime 2024 2 28 0 0 0 0) (mk_datetime 2024 3 1 0 0 0 0)
         start_world = Some (Ok images, w')
       /\ map step_of (events_since start_world w')
          = scrape_schedule (rate_limit_delay scraper_1024_0211)
              (days_from 3 (mk_datetime 2024 2 28 0 0 0 0))
       /\ length (requests (events_since start_world w')) = 3%nat
       /\ fs w' = fs start_world
       /\ Forall (fun p => In p.1 (days_from 3 (mk_datetime 2024 2 28 0 0 0 0))
                           /\ canonical_name scraper_1024_0211 p.2) images.
Proof.
  split; [reflexivity|]. split; [reflexivity|].
  split; [reflexivity|]. split; [reflexivity|].
  split; [eexists; reflexivity|]. split; [lia|].
  apply (date_range_scrape_visits_every_day (fun _ => listing_page_hrefs)
           (constant_env (Response 404 [] "" None)) scraper_1024_0211 2
           (mk_datetime 2024 2 28 0 0 0 0) (mk_datetime 2024 3 1 0 0 0 0)
           start_world 4).
  - reflexivity.
  - reflexivity.
  - reflexivity.
  - reflexivity.
  - eexists; reflexivity.
  - lia.
Defined.

(** With a start later in the day than the end, the last day of the range
    is not visited: [current_date <= end_date] fails for it. *)
Lemma date_range_scrape_skips_late_end :
  exists w',
    get_available_images_for_date_range (fun _ => listing_page_hrefs) 4
      (constant_env (Response 404 [] "" None)) scraper_1024_0211
      (mk_datetime 2024 2 28 12 0 0 0) (mk_datetime 2024 3 1 0 0 0 0)
      start_world = Some (Ok [], w')
    /\ map step_of (events_since start_world w')
       = [Req GET (get_directory_url (mk_datetime 2024 2 28 12 0 0 0));
          Nap RateLimit 1;
          Req GET (get_directory_url (mk_datetime 2024 2 29 12 0 0 0))].
Proof. eexists. split; vm_compute; reflexivity. Qed.

End ScrapedRangesExamples.

(** ** Storage: saving, directory structure, paths *)

Section StorageFacts.
Import Text Calendar World Storage Samples MoreSamples.

Lemma mkdir_parents_preserves (env : environment) (rest : path) :
  forall prefix m m', mkdir_parents env prefix rest m = Ok m' ->
  forall p, is_Some (m !! p) -> m' !! p = m !! p.
Proof.
  induction rest as [|part rest IH]; intros prefix m m' H p Hp;
    cbn [mkdir_parents] in H.
  - now injection H as <-.
  - destruct (m !! (prefix ++ [part])) as [[content|]|] eqn:Hk;
      [discriminate| |].
    + eapply IH; eauto.
    + rewrite (IH _ _ _ H p).
      * apply lookup_insert_ne. intros E. destruct Hp as [x Hx]. subst p.
        assert (Some x = None) as F
          by (etrans; [symmetry; exact Hx | exact Hk]).
        discriminate F.
      * rewrite lookup_insert_ne; [exact Hp|].
        intros E. destruct Hp as [x Hx]. subst p.
        assert (Some x = None) as F
          by (etrans; [symmetry; exact Hx | exact Hk]).
        discriminate F.
Qed.

Lemma mkdir_parents_made (env : environment) (rest : path) :
  forall prefix m m', mkdir_parents env prefix rest m = Ok m' ->
  mkdir_parents env prefix rest m' = Ok m'
  /\ (rest <> [] -> m' !! (prefix ++ rest) = Some Dir).
Proof.
  induction rest as [|part rest IH]; intros prefix m m' H;
    cbn [mkdir_parents] in *.
  - split; [reflexivity|]. intros Hne. now contradict Hne.
  - destruct (m !! (prefix ++ [part])) as [[content|]|] eqn:Hk;
      [discriminate| |].
    + destruct (IH _ _ _ H) as [Hagain Hdir].
      assert (m' !! (prefix ++ [part]) = Some Dir) as Hp.
      { etrans; [|exact Hk].
        apply (mkdir_parents_preserves env rest _ _ _ H). eexists; exact Hk. }
      unfold path in *. rewrite Hp. split; [exact Hagain|]. intros _.
      destruct rest as [|part' rest'].
      * exact Hp.
      * specialize (Hdir ltac:(discriminate)).
        rewrite <- app_assoc in Hdir. exact Hdir.
    + destruct (IH _ _ _ H) as [Hagain Hdir].
      assert (m' !! (prefix ++ [part]) = Some Dir) as Hp.
      { etrans; [|apply (lookup_insert_eq m (prefix ++ [part]) Dir)].
        apply (mkdir_parents_preserves env rest _ _ _ H).
        eexists. apply lookup_insert_eq. }
      unfold path in *. rewrite Hp. split; [exact Hagain|]. intros _.
      destruct rest as [|part' rest'].
      * exact Hp.
      * specialize (Hdir ltac:(discriminate)).
        rewrite <- app_assoc in Hdir. exact Hdir.
Qed.

(** X13. [create_date_structure] is idempotent: once it has succeeded, the day's
    directory exists and a second call changes nothing; it never touches an
    entry that already existed, the clock or the trace. *)
Theorem create_date_structure_idempotent (env : environment)
    (s : StorageOrganizer) (date : datetime) (w w1 : world) :
  create_date_structure env s date w = Ok w1 ->
  create_date_structure env s date w1 = Ok w1
  /\ fs w1 !! get_date_path s date = Some Dir
  /\ (forall p, is_Some (fs w !! p) -> fs w1 !! p = fs w !! p)
  /\ trace w1 = trace w /\ clock w1 = clock w.
Proof.
  unfold create_date_structure. intros H.
  destruct (mkdir_parents env [] (get_date_path s date) (fs w)) as [m|e] eqn:Hm;
    [|discriminate].
  injection H as <-. cbn [fs trace clock].
  destruct (mkdir_parents_made env _ _ _ _ Hm) as [Hagain Hdir].
  rewrite Hagain. split; [reflexivity|]. split.
  - apply (Hdir ltac:(unfold get_date_path; intros E;
                       apply (f_equal length) in E;
                       rewrite length_app in E; cbn in E; lia)).
  - split; [|split; reflexivity].
    intros p Hp. eapply mkdir_parents_preserves; eauto.
Qed.

Lemma create_date_structure_idempotent_witness :
  create_date_structure (constant_env RaiseTimeout) data_storage march_first
    start_world
  = Ok {| clock := 0;
          fs := <[["data"; "2024"; "03"; "01"] := Dir]>
                  (<[["data"; "2024"; "03"] := Dir]>
                     (<[["data"; "2024"] := Dir]> (<[["data"] := Dir]> ∅)));
          trace := [] |}
  /\ let w1 := {| clock := 0;
                  fs := <[["data"; "2024"; "03"; "01"] := Dir]>
                          (<[["data"; "2024"; "03"] := Dir]>
                             (<[["data"; "2024"] := Dir]>
                                (<[["data"] := Dir]> ∅)));
                  trace := [] |} in
     create_date_structure (constant_env RaiseTimeout) data_storage
       march_first w1 = Ok w1
     /\ fs w1 !! get_date_path data_storage march_first = Some Dir
     /\ (forall p, is_Some (fs start_world !! p) ->
           fs w1 !! p = fs start_world !! p)
     /\ trace w1 = trace start_world /\ clock w1 = clock start_world.
Proof.
  split; [reflexivity|].
  apply (create_date_structure_idempotent (constant_env RaiseTimeout)
           data_storage march_first start_world).
  reflexivity.
Defined.

End StorageFacts.

Section SavedImages.
Import Text Calendar World Storage StorageListing Samples MoreSamples.

Lemma date_path_not_nil (s : StorageOrganizer) (date : datetime) :
  get_date_path s date <> [].
Proof.
  unfold get_date_path. intros E. apply (f_equal length) in E.
  rewrite length_app in E. cbn in E. lia.
Qed.

(** What [save_image] does to the world, whatever its outcome. *)
Lemma save_image_world (env : environment) (s : StorageOrganizer)
    (data : bytes) (filename : string) (date : datetime) (w : world) :
  let out := save_image env s data filename date w in
  trace out.2 = trace w /\ clock out.2 = clock w
  /\ (forall p, is_Some (fs w !! p) -> is_Some (fs out.2 !! p))
  /\ (forall p, p <> get_local_path s filename date ->
        is_Some (fs w !! p) -> fs out.2 !! p = fs w !! p).
Proof.
  cbn zeta. unfold save_image, create_date_structure.
  destruct (mkdir_parents env [] (get_date_path s date) (fs w)) as [m|e] eqn:Hm.
  2:{ cbn. auto. }
  pose proof (mkdir_parents_preserves env _ _ _ _ Hm) as Hkeep.
  fold (get_local_path s filename date). cbn [fs clock trace].
  assert (forall content p, is_Some (fs w !! p) ->
            is_Some (<[get_local_path s filename date := File content]> m !! p))
    as Hgrow.
  { intros content p Hp.
    destruct (decide (get_local_path s filename date = p)) as [<-|Hne].
    - rewrite lookup_insert_eq. eauto.
    - rewrite lookup_insert_ne by exact Hne. rewrite Hkeep; auto. }
  assert (forall content p, p <> get_local_path s filename date ->
            is_Some (fs w !! p) ->
            <[get_local_path s filename date := File content]> m !! p
            = fs w !! p) as Hframe.
  { intros content p Hne Hp. rewrite lookup_insert_ne by congruence. auto. }
  assert (forall p, is_Some (fs w !! p) -> is_Some (m !! p)) as Hgrow0.
  { intros p Hp. rewrite Hkeep; auto. }
  destruct (m !! get_local_path s filename date) as [[content|]|];
    try (cbn; now auto);
    destruct (disk env _ data) as [content'|[partial|] msg]; cbn; auto.
Qed.

(** X14. Round trip of [save_image]: when the call returns, the file is in the
    day's directory with the bytes the disk stored; [file_exists] is true,
    [get_file_size] is their number, and the integrity check against
    [len(data)] passes exactly when nothing was lost on the way. *)
Theorem save_image_round_trip (env : environment) (s : StorageOrganizer)
    (data : bytes) (filename : string) (date : datetime) (w : world) :
  single_segment filename = true ->
  (save_image env s data filename date w).1 = Ok tt ->
  let w' := (save_image env s data filename date w).2 in
  exists stored,
    disk env (get_local_path s filename date) data = Stored stored
    /\ fs w' !! get_local_path s filename date = Some (File stored)
    /\ fs w' !! get_date_path s date = Some Dir
    /\ file_exists s w' filename date = true
    /\ get_file_size env s w' filename date = Some (Z.of_nat (length stored))
    /\ (validate_file_integrity env s w' filename date
          (Z.of_nat (length data)) = true
        <-> length stored = length data).
Proof.
  intros _. cbn zeta. unfold save_image.
  destruct (create_date_structure env s date w) as [w1|e] eqn:Hc;
    [|intros Hf; discriminate Hf].
  unfold create_date_structure in Hc.
  destruct (mkdir_parents env [] (get_date_path s date) (fs w)) as [m|e] eqn:Hm;
    [|discriminate].
  injection Hc as <-. cbn [fs clock trace].
  destruct (mkdir_parents_made env _ _ _ _ Hm) as [_ Hdir].
  specialize (Hdir (date_path_not_nil s date)). rewrite app_nil_l in Hdir.
  fold (get_local_path s filename date).
  assert (forall stored,
    m !! get_local_path s filename date <> Some Dir ->
    let w' := {| clock := clock w;
                 fs := <[get_local_path s filename date := File stored]> m;
                 trace := trace w |} in
    fs w' !! get_local_path s filename date = Some (File stored)
    /\ fs w' !! get_date_path s date = Some Dir
    /\ file_exists s w' filename date = true
    /\ get_file_size env s w' filename date = Some (Z.of_nat (length stored))
    /\ (validate_file_integrity env s w' filename date
          (Z.of_nat (length data)) = true
        <-> length stored = length data)) as Hdone.
  { intros stored Hnd. cbn zeta.
    unfold validate_file_integrity, get_file_size, file_exists.
    cbn [fs]. rewrite lookup_insert_eq.
    split; [reflexivity|]. split.
    - rewrite lookup_insert_ne; [exact Hdir|]. intros E. apply Hnd.
      now rewrite E.
    - split; [reflexivity|]. split; [reflexivity|].
      rewrite Z.eqb_eq. lia. }
  destruct (m !! get_local_path s filename date) as [[content|]|] eqn:Hl;
    try (cbn; intros Hf; discriminate Hf);
    (destruct (disk env _ data) as [stored|[partial|] msg];
       [|cbn; intros Hf; discriminate Hf|cbn; intros Hf; discriminate Hf]);
    intros _; cbn [snd]; exists stored; (split; [reflexivity|]);
    apply Hdone; discriminate.
Qed.

Lemma save_image_round_trip_witness :
  single_segment "20240301_001200_1024_0211.jpg" = true
  /\ (save_image image_env data_storage jpeg_bytes
        "20240301_001200_1024_0211.jpg" march_first start_world).1 = Ok tt
  /\ exists stored,
       disk image_env
         (get_local_path data_storage "20240301_001200_1024_0211.jpg"
            march_first) jpeg_bytes = Stored stored
       /\ fs (save_image image_env data_storage jpeg_bytes
                "20240301_001200_1024_0211.jpg" march_first start_world).2
            !! get_local_path data_storage "20240301_001200_1024_0211.jpg"
                 march_first = Some (File stored)
       /\ fs (save_image image_env data_storage jpeg_bytes
                "20240301_001200_1024_0211.jpg" march_first start_world).2
            !! get_date_path data_storage march_first = Some Dir
       /\ file_exists data_storage
            (save_image image_env data_storage jpeg_bytes
               "20240301_001200_1024_0211.jpg" march_first start_world).2
            "20240301_001200_1024_0211.jpg" march_first = true
       /\ get_file_size image_env data_storage
            (save_image image_env data_storage jpeg_bytes
               "20240301_001200_1024_0211.jpg" march_first start_world).2
            "20240301_001200_1024_0211.jpg" march_first
          = Some (Z.of_nat (length stored))
       /\ (validate_file_integrity image_env data_storage
             (save_image image_env data_storage jpeg_bytes
                "20240301_001200_1024_0211.jpg" march_first start_world).2
             "20240301_001200_1024_0211.jpg" march_first
             (Z.of_nat (length jpeg_bytes)) = true
           <-> length stored = length jpeg_bytes).
Proof.
  split; [reflexivity|]. split; [reflexivity|].
  apply (save_image_round_trip image_env data_storage jpeg_bytes
           "20240301_001200_1024_0211.jpg" march_first start_world);
    reflexivity.
Defined.



Lemma fmt02_inj (a b : Z) :
  0 <= a <= 99 -> 0 <= b <= 99 -> fmt02 a = fmt02 b -> a = b.
Proof.
  intros Ha Hb E. rewrite <- (int_of_digits_fmt02 a Ha).
  rewrite <- (int_of_digits_fmt02 b Hb). now rewrite E.
Qed.

(** X16. Two images collide on disk only if they are the same image: equal local
    paths mean equal file names and equal calendar dates. *)
Theorem get_local_path_injective (s : StorageOrganizer)
    (f1 f2 : string) (d1 d2 : datetime) :
  valid d1 = true -> valid d2 = true ->
  single_segment f1 = true -> single_segment f2 = true ->
  f1 <> "" -> f1 <> "." -> f2 <> "" -> f2 <> "." ->
  get_local_path s f1 d1 = get_local_path s f2 d2 ->
  f1 = f2 /\ year d1 = year d2 /\ month d1 = month d2 /\ day d1 = day d2.
Proof.
  intros H1 H2 _ _ Ha Hb Hc Hd.
  unfold get_local_path, joinpath, get_date_path.
  rewrite !bool_decide_eq_false_2 by (intros [?|?]; congruence).
  rewrite <- !app_assoc. intros E. apply app_inv_head in E.
  assert (strftime_Y d1 = strftime_Y d2) as Ey
    by (apply (inj Some); exact (f_equal (fun l => l !! 0%nat) E)).
  assert (strftime_m d1 = strftime_m d2) as Em
    by (apply (inj Some); exact (f_equal (fun l => l !! 1%nat) E)).
  assert (strftime_d d1 = strftime_d d2) as Ed
    by (apply (inj Some); exact (f_equal (fun l => l !! 2%nat) E)).
  assert (f1 = f2) as Ef
    by (apply (inj Some); exact (f_equal (fun l => l !! 3%nat) E)).
  destruct (valid_split d1 H1) as [Hd1 _].
  destruct (valid_split d2 H2) as [Hd2 _].
  pose proof (valid_date_bounds _ _ _ Hd1) as (? & ? & ?).
  pose proof (valid_date_bounds _ _ _ Hd2) as (? & ? & ?).
  pose proof (days_in_month_bounds (year d1) (month d1)).
  pose proof (days_in_month_bounds (year d2) (month d2)).
  unfold strftime_Y, strftime_m, strftime_d in *.
  split; [exact Ef|].
  split; [apply fmt_year_inj; auto; lia|].
  split; apply fmt02_inj; auto; lia.
Qed.

Lemma get_local_path_injective_witness :
  valid march_first = true
  /\ valid (mk_datetime 2024 3 1 18 30 0 0) = true
  /\ get_local_path data_storage "20240301_001200_1024_0211.jpg" march_first
     = get_local_path data_storage "20240301_001200_1024_0211.jpg"
         (mk_datetime 2024 3 1 18 30 0 0)
  /\ "20240301_001200_1024_0211.jpg" = "20240301_001200_1024_0211.jpg"
  /\ year march_first = year (mk_datetime 2024 3 1 18 30 0 0)
  /\ month march_first = month (mk_datetime 2024 3 1 18 30 0 0)
  /\ day march_first = day (mk_datetime 2024 3 1 18 30 0 0).
Proof.
  split; [reflexivity|]. split; [reflexivity|]. split; [reflexivity|].
  apply (get_local_path_injective data_storage
           "20240301_001200_1024_0211.jpg" "20240301_001200_1024_0211.jpg"
           march_first (mk_datetime 2024 3 1 18 30 0 0));
    try reflexivity; discriminate.
Defined.

End SavedImages.

(** ** Storage: listing a day and removing empty files *)

Section Listings.
Import Text Calendar World Storage StorageListing Samples MoreSamples.

Lemma child_name_spec (p k : path) (name : string) :
  child_name p k = Some name <-> k = p ++ [name].
Proof.
  unfold child_name, path in *. split.
  - destruct (drop (length p) k) as [|x [|y rest]] eqn:Hd; try discriminate.
    case_bool_decide as Ht; [|discriminate]. intros [= <-].
    now rewrite <- (take_drop (length p) k), Hd, Ht.
  - intros ->. rewrite drop_app_length, take_app_length.
    now rewrite bool_decide_eq_true_2.
Qed.

Lemma dir_entries_elem (m : gmap path node) (p : path) (name : string)
    (n : node) :
  (name, n) ∈ dir_entries m p <-> m !! (p ++ [name]) = Some n.
Proof.
  unfold dir_entries. rewrite list_elem_of_omap. split.
  - intros [[k n'] [Hin Hf]]. apply elem_of_map_to_list in Hin.
    cbn [fst snd] in Hf.
    destruct (child_name p k) as [name'|] eqn:Hc; [|discriminate].
    injection Hf as -> ->. apply child_name_spec in Hc. now subst k.
  - intros H. exists (p ++ [name], n). split.
    + now apply elem_of_map_to_list.
    + cbn [fst snd]. now rewrite (proj2 (child_name_spec p _ name) eq_refl).
Qed.

Lemma dir_entries_names_nodup (m : gmap path node) (p : path) :
  NoDup (map fst (dir_entries m p)).
Proof.
  unfold dir_entries.
  pose proof (NoDup_fst_map_to_list m) as Hnd.
  induction (map_to_list m) as [|[k n] l IH]; [constructor|].
  cbn [fmap list_fmap fst] in Hnd. apply NoDup_cons in Hnd as [Hk Hnd].
  cbn [omap list_omap fst snd].
  destruct (child_name p k) as [name|] eqn:Hc; [|now apply IH].
  cbn [map fst]. apply NoDup_cons. split; [|now apply IH].
  intros Hin. apply Hk. apply child_name_spec in Hc. subst k.
  apply list_elem_of_In, in_map_iff in Hin as ([name' n'] & Hn & Hin).
  cbn in Hn. subst name'.
  apply list_elem_of_In, list_elem_of_omap in Hin as ([k' n''] & Hin & Hf).
  cbn [fst snd] in Hf.
  destruct (child_name p k') as [name'|] eqn:Hc'; [|discriminate].
  injection Hf as -> ->. apply child_name_spec in Hc'. subst k'.
  apply list_elem_of_fmap. exists (p ++ [name], n'). auto.
Qed.

Lemma filter_names_nodup (f : string * node -> bool) (l : list (string * node)) :
  NoDup (map fst l) -> NoDup (map fst (List.filter f l)).
Proof.
  induction l as [|a l IH]; [constructor|].
  cbn [map List.filter]. intros Hnd. apply NoDup_cons in Hnd as [Ha Hnd].
  destruct (f a); [|now apply IH].
  cbn [map]. apply NoDup_cons. split; [|now apply IH].
  intros Hin. apply Ha.
  apply list_elem_of_In, in_map_iff in Hin as (b & Hb & Hin).
  apply filter_In in Hin as [Hin _].
  apply list_elem_of_In, in_map_iff. eauto.
Qed.

Lemma glob_date_path_elem (s : StorageOrganizer) (w : world)
    (date : datetime) (name : string) (n : node) :
  (name, n) ∈ glob_date_path s w date
  <-> fs w !! get_date_path s date = Some Dir
      /\ fs w !! (get_date_path s date ++ [name]) = Some n
      /\ matches_pattern s name = true.
Proof.
  unfold glob_date_path.
  destruct (fs w !! get_date_path s date) as [[content|]|] eqn:Hd.
  - split; [intros H; inversion H|intros [? _]; discriminate].
  - rewrite list_elem_of_In, filter_In, <- list_elem_of_In, dir_entries_elem.
    cbn [fst]. tauto.
  - split; [intros H; inversion H|intros [? _]; discriminate].
Qed.

Lemma list_local_images_elem (s : StorageOrganizer) (w : world)
    (date : datetime) (name : string) :
  name ∈ list_local_images s w date
  <-> fs w !! get_date_path s date = Some Dir
      /\ is_Some (fs w !! (get_date_path s date ++ [name]))
      /\ matches_pattern s name = true.
Proof.
  assert (name ∈ Scraper.sorted (map fst (glob_date_path s w date))
          <-> fs w !! get_date_path s date = Some Dir
              /\ is_Some (fs w !! (get_date_path s date ++ [name]))
              /\ matches_pattern s name = true) as Hmain.
  { unfold Scraper.sorted. rewrite merge_sort_Permutation.
    rewrite list_elem_of_In, in_map_iff. split.
    - intros ([name' n] & Hn & Hin). cbn in Hn. subst name'.
      apply list_elem_of_In, glob_date_path_elem in Hin as (? & ? & ?). eauto.
    - intros (Hd & [n Hn] & Hm). exists (name, n). split; [reflexivity|].
      apply list_elem_of_In, glob_date_path_elem. auto. }
  unfold list_local_images.
  destruct (fs w !! get_date_path s date) as [n|] eqn:Hd; [exact Hmain|].
  split; [intros H; inversion H|intros [? _]; discriminate].
Qed.

(** X17. [list_local_images] returns exactly the names of the entries of the day's
    directory that end in [_{resolution}_{solar_filter}.jpg] -- nothing when
    the directory is missing -- each once, in ascending order. *)
Theorem list_local_images_lists_the_day (s : StorageOrganizer) (w : world)
    (date : datetime) :
  digit_code (resolution s) = true ->
  digit_code (solar_filter s) = true ->
  (forall name,
     name ∈ list_local_images s w date
     <-> fs w !! get_date_path s date = Some Dir
         /\ is_Some (fs w !! (get_date_path s date ++ [name]))
         /\ ends_with ("_" +:+ resolution s +:+ "_" +:+ solar_filter s
                       +:+ ".jpg") name = true)
  /\ Sorted String.le (list_local_images s w date)
  /\ NoDup (list_local_images s w date)
  /\ (fs w !! get_date_path s date = None -> list_local_images s w date = []).
Proof.
  intros _ _. split; [intros name; apply list_local_images_elem|].
  unfold list_local_images.
  destruct (fs w !! get_date_path s date) as [n|] eqn:Hd.
  - split; [apply Sorted_merge_sort; apply _|]. split; [|discriminate].
    unfold Scraper.sorted. rewrite merge_sort_Permutation.
    unfold glob_date_path. rewrite Hd.
    destruct n; [constructor|].
    apply filter_names_nodup, dir_entries_names_nodup.
  - split; [constructor|]. split; [constructor|reflexivity].
Qed.

Lemma list_local_images_lists_the_day_witness :
  digit_code (resolution data_storage) = true
  /\ digit_code (solar_filter data_storage) = true
  /\ (forall name,
        name ∈ list_local_images data_storage cluttered_world march_first
        <-> fs cluttered_world !! get_date_path data_storage march_first
              = Some Dir
            /\ is_Some (fs cluttered_world
                          !! (get_date_path data_storage march_first
                              ++ [name]))
            /\ ends_with ("_" +:+ resolution data_storage +:+ "_"
                          +:+ solar_filter data_storage +:+ ".jpg") name
               = true)
  /\ Sorted String.le
       (list_local_images data_storage cluttered_world march_first)
  /\ NoDup (list_local_images data_storage cluttered_world march_first)
  /\ (fs cluttered_world !! get_date_path data_storage march_first = None ->
      list_local_images data_storage cluttered_world march_first = []).
Proof.
  split; [reflexivity|]. split; [reflexivity|].
  apply (list_local_images_lists_the_day data_storage cluttered_world
           march_first); reflexivity.
Defined.




End Listings.

(** ** The monitoring cycle *)

Section CycleFacts.
Import Text Calendar World Storage Models Fetcher Manager URLGenerator
  Monitoring Counters Candidates Samples MoreSamples.

Lemma last_segment_skip (a : string) :
  forall seg b,
  last_segment_from seg (a +:+ "/" +:+ b) = last_segment_from EmptyString b.
Proof.
  induction a as [|c a IH]; intros seg b.
  - reflexivity.
  - rewrite append_cons. cbn [last_segment_from].
    destruct (Ascii.eqb c "/"); apply IH.
Qed.

Lemma last_segment_no_slash (s : string) :
  forall seg, no_slash s = true -> last_segment_from seg s = seg +:+ s.
Proof.
  induction s as [|c s IH]; intros seg H.
  - cbn [last_segment_from]. induction seg as [|x seg IHs]; [reflexivity|].
    rewrite append_cons. now rewrite <- IHs.
  - cbn [no_slash] in H. apply andb_true_iff in H as [Hc Hs].
    cbn [last_segment_from]. apply negb_true_iff in Hc. rewrite Hc.
    rewrite (IH _ Hs), append_assoc. reflexivity.
Qed.

Lemma no_slash_app (a b : string) :
  no_slash (a +:+ b) = no_slash a && no_slash b.
Proof.
  induction a as [|c a IH]; [reflexivity|].
  rewrite append_cons. cbn [no_slash]. now rewrite IH, andb_assoc.
Qed.

Lemma no_slash_digits (n : nat) :
  forall s, all_digits n s = true -> no_slash s = true.
Proof.
  induction n as [|n IH]; intros [|c s] H; try discriminate; [reflexivity|].
  cbn [all_digits] in H. apply andb_true_iff in H as [Hc Hs].
  cbn [no_slash]. rewrite (IH s Hs), andb_true_r.
  destruct (Ascii.eqb_spec c "/") as [->|]; [discriminate Hc|reflexivity].
Qed.

Lemma last_segment_construct_url (d : datetime) (ts : string) :
  all_digits 6 ts = true ->
  last_segment (construct_url d ts) = image_filename d ts.
Proof.
  intros Hts. unfold last_segment, construct_url. cbn zeta.
  fold (image_filename d ts). rewrite !last_segment_skip.
  rewrite last_segment_no_slash; [reflexivity|].
  unfold image_filename, strftime_Ymd, strftime_Y, strftime_m, strftime_d.
  rewrite !no_slash_app.
  destruct (fmt_year_digits (year d)) as (k & _ & Hk).
  rewrite (no_slash_digits k _ Hk).
  rewrite !(no_slash_digits 2 _ (all_digits_fmt02 _)).
  rewrite (no_slash_digits 6 _ Hts). reflexivity.
Qed.

Lemma time_patterns_digits :
  List.Forall (fun ts => all_digits 6 ts = true) time_patterns.
Proof.
  apply List.Forall_forall. apply forallb_forall. vm_compute. reflexivity.
Qed.

Lemma filter_new_images_day (st : StorageOrganizer) (w : world) (d : datetime)
    (tss : list string) (rest : list string) :
  valid d = true -> 1000 <= year d ->
  List.Forall (fun ts => all_digits 6 ts = true) tss ->
  _filter_new_images st w (map (construct_url d) tss ++ rest)
  = map (construct_url d) (List.filter (missing st w d) tss)
    ++ _filter_new_images st w rest.
Proof.
  intros Hd Hyear Hall.
  induction Hall as [|ts tss Hts Hall IH]; [reflexivity|].
  cbn [map app _filter_new_images List.filter].
  rewrite (extract_metadata_construct_url d ts Hd Hyear Hts).
  assert (String.eqb ts "" = false) as ->
    by (destruct ts; [discriminate Hts|reflexivity]).
  rewrite (last_segment_construct_url d ts Hts).
  unfold missing at 1.
  change (file_exists st w (image_filename d ts) (midnight d))
    with (file_exists st w (image_filename d ts) d).
  destruct (negb (file_exists st w (image_filename d ts) d));
    cbn [map app]; now rewrite IH.
Qed.

Lemma filter_nothing {A : Type} (f : A -> bool) (l : list A) :
  (forall x, In x l -> f x = false) -> List.filter f l = [].
Proof.
  induction l as [|a l IH]; intros H; [reflexivity|].
  cbn [List.filter]. rewrite (H a (or_introl eq_refl)).
  apply IH. intros x Hx. apply H. now right.
Qed.

Lemma filter_everything {A : Type} (f : A -> bool) (l : list A) :
  (forall x, In x l -> f x = true) -> List.filter f l = l.
Proof.
  induction l as [|a l IH]; intros H; [reflexivity|].
  cbn [List.filter]. rewrite (H a (or_introl eq_refl)). f_equal.
  apply IH. intros x Hx. apply H. now right.
Qed.

(** The candidates of days from the year 1000 on that pass
    [_filter_new_images]: those without a file. *)
Lemma filter_new_images_generated (st : StorageOrganizer) (w : world)
    (dates : list datetime) :
  List.Forall (fun d => valid d = true /\ 1000 <= year d) dates ->
  _filter_new_images st w (flat_map generate_daily_urls dates)
  = missing_urls st w dates.
Proof.
  intros Hall. induction Hall as [|d dates [Hd Hyear] Hall IH]; [reflexivity|].
  cbn [flat_map missing_urls]. unfold generate_daily_urls at 1.
  rewrite (filter_new_images_day st w d _ _ Hd Hyear time_patterns_digits).
  now rewrite IH.
Qed.

(** X19. [_filter_new_images] on the candidate URLs of a list of days, from
    the year 1000 on, keeps, in order, exactly the URLs whose file
    [YYYYMMDD_HHMMSS_4096_0211.jpg] is not in the storage's directory of that
    day; no candidate is dropped for a URL that does not parse. *)
Theorem filter_new_images_keeps_missing (st : StorageOrganizer) (w : world)
    (dates : list datetime) :
  List.Forall (fun d => valid d = true /\ 1000 <= year d) dates ->
  _filter_new_images st w (flat_map generate_daily_urls dates)
  = missing_urls st w dates
  /\ (List.Forall (fun d => forall ts, In ts time_patterns ->
                     file_exists st w (image_filename d ts) d = true) dates ->
      _filter_new_images st w (flat_map generate_daily_urls dates) = [])
  /\ (List.Forall (fun d => forall ts, In ts time_patterns ->
                     file_exists st w (image_filename d ts) d = false) dates ->
      _filter_new_images st w (flat_map generate_daily_urls dates)
      = flat_map generate_daily_urls dates).
Proof.
  intros Hall.
  pose proof (filter_new_images_generated st w dates Hall) as Heq.
  split; [exact Heq|]. rewrite Heq. clear Heq. split.
  - intros Hdisk. clear Hall.
    induction Hdisk as [|d dates Hd Hdisk IH]; [reflexivity|].
    cbn [missing_urls flat_map]. fold (missing_urls st w dates). rewrite IH.
    rewrite app_nil_r.
    rewrite filter_nothing; [reflexivity|].
    intros ts Hin. unfold missing. now rewrite (Hd ts Hin).
  - intros Hempty. clear Hall.
    induction Hempty as [|d dates Hd Hempty IH]; [reflexivity|].
    cbn [missing_urls flat_map]. fold (missing_urls st w dates). rewrite IH.
    f_equal. unfold generate_daily_urls. f_equal.
    apply filter_everything.
    intros ts Hin. unfold missing. now rewrite (Hd ts Hin).
Qed.

Lemma filter_new_images_keeps_missing_witness :
  List.Forall (fun d => valid d = true /\ 1000 <= year d) [march_first]
  /\ _filter_new_images data_storage cluttered_world
       (flat_map generate_daily_urls [march_first])
     = missing_urls data_storage cluttered_world [march_first]
  /\ (List.Forall (fun d => forall ts, In ts time_patterns ->
                     file_exists data_storage cluttered_world
                       (image_filename d ts) d = true) [march_first] ->
      _filter_new_images data_storage cluttered_world
        (flat_map generate_daily_urls [march_first]) = [])
  /\ (List.Forall (fun d => forall ts, In ts time_patterns ->
                     file_exists data_storage cluttered_world
                       (image_filename d ts) d = false) [march_first] ->
      _filter_new_images data_storage cluttered_world
        (flat_map generate_daily_urls [march_first])
      = flat_map generate_daily_urls [march_first]).
Proof.
  assert (List.Forall (fun d => valid d = true /\ 1000 <= year d)
            [march_first]) as Hall.
  { constructor; [|constructor]. split; [reflexivity|cbn; lia]. }
  split; [exact Hall|].
  apply (filter_new_images_keeps_missing data_storage cluttered_world
           [march_first] Hall).
Defined.

(** Before the year 1000 the candidates do not parse and every one of them
    is dropped, on disk or not. *)
Lemma filter_new_images_short_year (st : StorageOrganizer) (w : world)
    (d : datetime) :
  year d < 1000 -> _filter_new_images st w (generate_daily_urls d) = [].
Proof.
  intros Hy. unfold generate_daily_urls.
  induction time_patterns as [|ts tss IH]; [reflexivity|].
  cbn [map _filter_new_images].
  now rewrite (extract_construct_short_year d ts Hy).
Qed.

End CycleFacts.

Section CycleAccounting.
Import Text Calendar World Storage Models Fetcher Manager URLGenerator
  Monitoring Counters Candidates Samples MoreSamples.

Lemma download_image_world (env : environment) (f : ImageFetcher)
    (url : string) (w : world) :
  (exists evs, trace (download_image env f url w).2 = trace w ++ evs)
  /\ fs (download_image env f url w).2 = fs w.
Proof.
  rewrite download_image_unfold. cbn zeta. cbn [snd].
  destruct (enforce_rate_limit_spec f w) as (_ & _ & _ & Hfs & Hpre & _).
  destruct (download_attempts_events env (_enforce_rate_limit f w).1 url
              (seqZ 0 (max_retries f)) (_enforce_rate_limit f w).2)
    as (evs & Htr & Hfs' & _).
  cbn zeta in *. split.
  - destruct Hpre as [Hsame|[d Hsleep]].
    + exists evs. now rewrite Htr, Hsame.
    + exists (Sleep RateLimit d :: evs). rewrite Htr, Hsleep.
      now rewrite <- app_assoc.
  - now rewrite Hfs', Hfs.
Qed.

(** What one [download_and_save] can do to the counters and to the world. *)
Lemma download_and_save_tally (env : environment) (m : DownloadManager)
    (task : DownloadTask) (w : world) :
  let out := download_and_save env m task w in
  get_download_count m <= get_download_count out.1.2
  /\ (length (get_failed_tasks m) <= length (get_failed_tasks out.1.2))%nat
  /\ get_download_count out.1.2
       + Z.of_nat (length (get_failed_tasks out.1.2))
     <= get_download_count m + Z.of_nat (length (get_failed_tasks m)) + 1
  /\ (exists evs, trace out.2 = trace w ++ evs)
  /\ (forall p, is_Some (fs w !! p) -> is_Some (fs out.2 !! p)).
Proof.
  cbn zeta. unfold download_and_save, get_download_count, get_failed_tasks.
  cbn [target_path url set_status].
  assert (exists evs : list event, trace w = trace w ++ evs) as Hnil
    by (exists []; now rewrite app_nil_r).
  destruct (Strptime.strptime_Ymd _) as [date|].
  2:{ cbn. repeat split; try lia; auto. }
  destruct (file_exists (Manager.storage m) w _ date).
  { cbn. repeat split; try lia; auto. }
  destruct (download_image_world env (fetcher m) (url task) w)
    as ([evs Htr] & Hfs).
  destruct (download_image env (fetcher m) (url task) w) as [[r f1] w1].
  cbn [snd] in Htr, Hfs.
  destruct (fetched_data r) as [data|].
  2:{ cbn. rewrite length_app. cbn [length]. repeat split; try lia; eauto.
      intros p Hp. now rewrite Hfs. }
  destruct (save_image_world env (Manager.storage m) data
              (path_name (target_path task)) date w1)
    as (Htr2 & _ & Hgrow & _).
  destruct (save_image env (Manager.storage m) data _ date w1)
    as [[[]|e] w2]; cbn [snd] in Htr2, Hgrow.
  - destruct (validate_file_integrity env (Manager.storage m) w2 _ date _);
      cbn; repeat split; try lia; try (exists evs; congruence);
      intros p Hp; apply Hgrow; now rewrite Hfs.
  - cbn. repeat split; try lia; try (exists evs; congruence).
    intros p Hp. apply Hgrow. now rewrite Hfs.
Qed.

Lemma download_new_images_tally (env : environment) (st : StorageOrganizer)
    (urls : list string) :
  forall dm w,
  let out := _download_new_images env st dm urls w in
  get_download_count dm <= get_download_count out.1
  /\ (length (get_failed_tasks dm) <= length (get_failed_tasks out.1))%nat
  /\ get_download_count out.1 + Z.of_nat (length (get_failed_tasks out.1))
     <= get_download_count dm + Z.of_nat (length (get_failed_tasks dm))
        + Z.of_nat (length urls)
  /\ (exists evs, trace out.2 = trace w ++ evs)
  /\ (forall p, is_Some (fs w !! p) -> is_Some (fs out.2 !! p)).
Proof.
  induction urls as [|url rest IH]; intros dm w; cbn zeta.
  - cbn. repeat split; try lia; auto. exists []. now rewrite app_nil_r.
  - cbn [_download_new_images length].
    destruct (extract_metadata_from_url url) as [[date time_seq]|].
    2:{ destruct (IH dm w) as (? & ? & ? & ? & ?).
        repeat split; try lia; auto. }
    destruct (String.eqb time_seq "").
    { destruct (IH dm w) as (? & ? & ? & ? & ?).
      repeat split; try lia; auto. }
    destruct (download_and_save_tally env dm
                (new_task url (get_local_path st (last_segment url) date)) w)
      as (H1 & H2 & H3 & [evs Htr] & Hgrow).
    destruct (download_and_save env dm _ w) as [[[ok task'] dm1] w1].
    cbn [fst snd] in *.
    destruct (IH dm1 w1) as (H1' & H2' & H3' & [evs' Htr'] & Hgrow').
    repeat split; try lia; auto.
    exists (evs ++ evs'). rewrite Htr', Htr. now rewrite app_assoc.
Qed.

Lemma filter_new_images_length (st : StorageOrganizer) (w : world)
    (urls : list string) :
  (length (_filter_new_images st w urls) <= length urls)%nat.
Proof.
  induction urls as [|url rest IH]; [reflexivity|].
  cbn [_filter_new_images length].
  destruct (extract_metadata_from_url url) as [[date time_seq]|]; [|lia].
  destruct (String.eqb time_seq ""); [lia|].
  destruct (negb _); cbn [length]; lia.
Qed.

Lemma next_day_year (c c' : datetime) :
  next_day c = Some c' -> year c <= year c'.
Proof.
  unfold next_day, with_ymd.
  destruct (day c <? days_in_month (year c) (month c));
    [|destruct (month c <? 12); [|destruct (year c <? MAXYEAR)]];
    intros H; try discriminate H; injection H as <-; cbn; lia.
Qed.

Lemma days_from_years (n : nat) :
  forall c, valid c = true -> 1000 <= year c ->
  List.Forall (fun d => valid d = true /\ 1000 <= year d) (days_from n c).
Proof.
  induction n as [|n IH]; intros c Hc Hy; cbn [days_from]; constructor.
  - auto.
  - destruct (next_day c) as [c'|] eqn:Hn; [|constructor].
    destruct (next_day_spec c c' Hc Hn) as (Hc' & _ & _).
    pose proof (next_day_year c c' Hn). apply IH; [exact Hc'|lia].
Qed.

(** X20. One monitoring cycle, inside the range of [datetime] and from the
    year 1000 on: it ends; the check counter goes up by one and the time of
    the check is recorded; the configuration stays; [new_images_found] goes
    up by the number of candidates of the window -- a date of the window and
    one of the 360 times of day -- whose file is not in the storage's
    directory of that day ([missing_urls]), whether or not the server has
    them; the download and failure counters never go down and together grow
    by no more than that number; nothing on disk disappears and the trace
    only grows; with no candidate missing, no request is made and the world
    and the manager are as before.  [force_check] is this cycle on a running
    loop and nothing on a stopped one. *)
Theorem monitoring_cycle_accounting (fuel : nat) (env : environment)
    (l : MonitoringLoop) (check_start_time now start_date : datetime)
    (w : world) :
  valid now = true ->
  0 <= monitoring_range_days l ->
  add_days now (- monitoring_range_days l) = Some start_date ->
  1000 <= year start_date ->
  is_Some (next_day now) ->
  (Z.to_nat (monitoring_range_days l) + 1 < fuel)%nat ->
  let new_urls :=
    missing_urls (Monitoring.storage l) w
      (days_from (S (Z.to_nat (monitoring_range_days l))) start_date) in
  exists l' w',
    _check_for_new_images fuel env l check_start_time now w = Some (l', w')
    /\ force_check fuel env l check_start_time now w
       = (if is_running l then Some (l', w') else Some (l, w))
    /\ st_total_checks (get_status l') = st_total_checks (get_status l) + 1
    /\ st_last_check_time (get_status l') = Some check_start_time
    /\ st_is_running (get_status l') = st_is_running (get_status l)
    /\ st_check_interval_minutes (get_status l')
       = st_check_interval_minutes (get_status l)
    /\ st_monitoring_range_days (get_status l')
       = st_monitoring_range_days (get_status l)
    /\ Monitoring.storage l' = Monitoring.storage l
    /\ st_new_images_found (get_status l')
       = st_new_images_found (get_status l) + Z.of_nat (length new_urls)
    /\ Z.of_nat (length new_urls) <= 360 * (monitoring_range_days l + 1)
    /\ st_total_downloads (get_status l) <= st_total_downloads (get_status l')
    /\ st_failed_downloads (get_status l)
       <= st_failed_downloads (get_status l')
    /\ (st_total_downloads (get_status l')
          - st_total_downloads (get_status l))
       + (st_failed_downloads (get_status l')
            - st_failed_downloads (get_status l))
       <= Z.of_nat (length new_urls)
    /\ (forall p, is_Some (fs w !! p) -> is_Some (fs w' !! p))
    /\ (exists evs, trace w' = trace w ++ evs)
    /\ (new_urls = [] -> w' = w /\ download_manager l' = download_manager l).
Proof.
  intros Hnow Hrange Hstart Hyear Hnext Hfuel new_urls.
  rewrite add_days_back in Hstart by lia.
  destruct (window_dates (Z.to_nat (monitoring_range_days l)) now start_date
              fuel Hnow Hstart Hnext ltac:(lia)) as (Hrun & Hlen & _).
  destruct (back_then_forth _ _ _ Hnow Hstart) as (Hvs & _ & _).
  assert (recent_urls fuel l now
          = Some (Ok (flat_map generate_daily_urls
                        (days_from (S (Z.to_nat (monitoring_range_days l)))
                           start_date)))) as Hurls.
  { unfold recent_urls. rewrite add_days_back by lia.
    rewrite Hstart. now rewrite recent_urls_loop_eq. }
  assert (_filter_new_images (Monitoring.storage l) w
            (flat_map generate_daily_urls
               (days_from (S (Z.to_nat (monitoring_range_days l)))
                  start_date)) = new_urls) as Hfilter.
  { apply filter_new_images_generated.
    now apply days_from_years. }
  assert (Z.of_nat (length new_urls) <= 360 * (monitoring_range_days l + 1))
    as Hbound.
  { pose proof (filter_new_images_length (Monitoring.storage l) w
                  (flat_map generate_daily_urls
                     (days_from (S (Z.to_nat (monitoring_range_days l)))
                        start_date))) as Hle.
    rewrite flat_map_daily_length, Hlen, Hfilter in Hle. lia. }
  unfold force_check, _check_for_new_images. rewrite Hurls, Hfilter.
  clear Hfilter. clearbody new_urls.
  destruct new_urls as [|url rest].
  - eexists _, w. split; [reflexivity|]. split.
    { destruct (is_running l); reflexivity. }
    cbn. repeat split; try lia; auto. exists []. now rewrite app_nil_r.
  - destruct (download_new_images_tally env (Monitoring.storage l)
                (url :: rest) (download_manager l) w)
      as (H1 & H2 & H3 & Htr & Hgrow).
    destruct (_download_new_images env (Monitoring.storage l)
                (download_manager l) (url :: rest) w) as [dm w1].
    cbn [fst snd] in *.
    exists (update_loop l dm (total_checks l + 1)
              (new_images_found l + Z.of_nat (length (url :: rest)))
              (Some check_start_time)), w1.
    split; [reflexivity|]. split.
    { destruct (is_running l); reflexivity. }
    unfold get_status, update_loop, get_download_count, get_failed_tasks in *.
    cbn [st_total_checks st_last_check_time st_is_running
         st_check_interval_minutes st_monitoring_range_days
         st_new_images_found st_total_downloads st_failed_downloads
         total_checks last_check_time is_running check_interval
         monitoring_range_days new_images_found download_manager
         Monitoring.storage].
    repeat split; try lia; auto; discriminate.
Qed.

Lemma monitoring_cycle_accounting_witness :
  valid half_past_ten = true
  /\ 0 <= monitoring_range_days default_loop
  /\ add_days half_past_ten (- monitoring_range_days default_loop)
     = Some (mk_datetime 2024 2 29 10 30 0 0)
  /\ 1000 <= year (mk_datetime 2024 2 29 10 30 0 0)
  /\ is_Some (next_day half_past_ten)
  /\ (Z.to_nat (monitoring_range_days default_loop) + 1 < 3)%nat
  /\ let new_urls :=
       missing_urls (Monitoring.storage default_loop) cluttered_world
         (days_from (S (Z.to_nat (monitoring_range_days default_loop)))
            (mk_datetime 2024 2 29 10 30 0 0)) in
     exists l' w',
       _check_for_new_images 3 image_env default_loop half_past_ten
         half_past_ten cluttered_world = Some (l', w')
       /\ force_check 3 image_env default_loop half_past_ten half_past_ten
            cluttered_world
          = (if is_running default_loop then Some (l', w')
             else Some (default_loop, cluttered_world))
       /\ st_total_checks (get_status l')
          = st_total_checks (get_status default_loop) + 1
       /\ st_last_check_time (get_status l') = Some half_past_ten
       /\ st_is_running (get_status l')
          = st_is_running (get_status default_loop)
       /\ st_check_interval_minutes (get_status l')
          = st_check_interval_minutes (get_status default_loop)
       /\ st_monitoring_range_days (get_status l')
          = st_monitoring_range_days (get_status default_loop)
       /\ Monitoring.storage l' = Monitoring.storage default_loop
       /\ st_new_images_found (get_status l')
          = st_new_images_found (get_status default_loop)
            + Z.of_nat (length new_urls)
       /\ Z.of_nat (length new_urls)
          <= 360 * (monitoring_range_days default_loop + 1)
       /\ st_total_downloads (get_status default_loop)
          <= st_total_downloads (get_status l')
       /\ st_failed_downloads (get_status default_loop)
          <= st_failed_downloads (get_status l')
       /\ (st_total_downloads (get_status l')
             - st_total_downloads (get_status default_loop))
          + (st_failed_downloads (get_status l')
               - st_failed_downloads (get_status default_loop))
          <= Z.of_nat (length new_urls)
       /\ (forall p, is_Some (fs cluttered_world !! p) ->
             is_Some (fs w' !! p))
       /\ (exists evs, trace w' = trace cluttered_world ++ evs)
       /\ (new_urls = [] ->
           w' = cluttered_world
           /\ download_manager l' = download_manager default_loop).
Proof.
  split; [reflexivity|]. split; [cbn; lia|]. split; [reflexivity|].
  split; [cbn; lia|].
  split; [eexists; reflexivity|]. split; [cbn; lia|].
  apply (monitoring_cycle_accounting 3 image_env default_loop half_past_ten
           half_past_ten (mk_datetime 2024 2 29 10 30 0 0) cluttered_world).
  - reflexivity.
  - cbn. lia.
  - reflexivity.
  - cbn. lia.
  - eexists. reflexivity.
  - cbn. lia.
Defined.

End CycleAccounting.

(** ** Where a download is stored *)

Section StoredWhere.
Import Text Calendar World Storage StorageListing Models Fetcher Manager
  Strptime ScraperRange Samples MoreSamples.

Lemma mkdir_parents_absent (env : environment) (rest : path) :
  forall prefix m m', mkdir_parents env prefix rest m = Ok m' ->
  forall p, m !! p = None -> (length prefix + length rest < length p)%nat ->
  m' !! p = None.
Proof.
  induction rest as [|part rest IH]; intros prefix m m' H p Hp Hlen;
    cbn [mkdir_parents] in H.
  - injection H as <-. exact Hp.
  - assert (length (prefix ++ [part]) + length rest < length p)%nat as Hlen'
      by (rewrite length_app; cbn [length] in *; lia).
    destruct (m !! (prefix ++ [part])) as [[content|]|]; [discriminate| |].
    + exact (IH _ _ _ H p Hp Hlen').
    + apply (IH _ _ _ H p); [|exact Hlen'].
      etrans; [|exact Hp]. apply lookup_insert_ne.
      intros E. apply (f_equal length) in E. rewrite length_app in E.
      cbn [length] in *. lia.
Qed.

(** [save_image] creates nothing but its target and the directories above
    it. *)
Lemma save_image_absent (env : environment) (s : StorageOrganizer)
    (data : bytes) (filename : string) (date : datetime) (w : world)
    (p : path) :
  fs w !! p = None ->
  p <> get_local_path s filename date ->
  (length (get_date_path s date) < length p)%nat ->
  fs (save_image env s data filename date w).2 !! p = None.
Proof.
  intros Hp Hne Hlen. unfold save_image, create_date_structure.
  destruct (mkdir_parents env [] (get_date_path s date) (fs w)) as [m|e] eqn:Hm;
    [|exact Hp].
  pose proof (mkdir_parents_absent env _ _ _ _ Hm p Hp Hlen) as Hm'.
  fold (get_local_path s filename date). cbn [fs clock trace].
  assert (forall content,
            <[get_local_path s filename date := File content]> m !! p = None)
    as Hins.
  { intros content. etrans; [|exact Hm']. apply lookup_insert_ne. congruence. }
  destruct (m !! get_local_path s filename date) as [[content|]|];
    try exact Hm';
    destruct (disk env _ data) as [content'|[partial|] msg]; cbn [snd fs];
    auto.
Qed.

Lemma date_path_inj (s : StorageOrganizer) (d1 d2 : datetime) :
  valid d1 = true -> valid d2 = true ->
  get_date_path s d1 = get_date_path s d2 ->
  (year d1, month d1, day d1) = (year d2, month d2, day d2).
Proof.
  intros H1 H2 E. unfold get_date_path in E. apply app_inv_head in E.
  assert (strftime_Y d1 = strftime_Y d2) as Ey
    by (apply (inj Some); exact (f_equal (fun l => l !! 0%nat) E)).
  assert (strftime_m d1 = strftime_m d2) as Em
    by (apply (inj Some); exact (f_equal (fun l => l !! 1%nat) E)).
  assert (strftime_d d1 = strftime_d d2) as Ed
    by (apply (inj Some); exact (f_equal (fun l => l !! 2%nat) E)).
  destruct (valid_split d1 H1) as [Hd1 _].
  destruct (valid_split d2 H2) as [Hd2 _].
  pose proof (valid_date_bounds _ _ _ Hd1) as (? & ? & ?).
  pose proof (valid_date_bounds _ _ _ Hd2) as (? & ? & ?).
  pose proof (days_in_month_bounds (year d1) (month d1)).
  pose proof (days_in_month_bounds (year d2) (month d2)).
  unfold strftime_Y, strftime_m, strftime_d in *.
  rewrite (fmt_year_inj (year d1) (year d2)) by (auto; lia).
  rewrite (fmt02_inj (month d1) (month d2)) by (auto; lia).
  rewrite (fmt02_inj (day d1) (day d2)) by (auto; lia).
  reflexivity.
Qed.

(** X21. [download_and_save] stores an image under the date written in its
    file name, whatever the task's [target_path] says: for a task whose file
    name begins with the eight digits of one day and whose target lies in the
    directory of another day, a successful call leaves the file in the
    directory of the file name's date and nothing at the target path. *)
Theorem download_follows_filename_date (env : environment)
    (m : DownloadManager) (task : DownloadTask) (w : world)
    (d d' : datetime) (rest : string) :
  valid d = true -> valid d' = true ->
  (year d, month d, day d) <> (year d', month d', day d') ->
  single_segment (date_digits d' +:+ "_" +:+ rest) = true ->
  target_path task
    = get_local_path (Manager.storage m) (date_digits d' +:+ "_" +:+ rest) d ->
  fs w !! target_path task = None ->
  let out := download_and_save env m task w in
  out.1.1.1 = true ->
  is_Some (fs out.2 !! get_local_path (Manager.storage m)
                         (date_digits d' +:+ "_" +:+ rest) d')
  /\ fs out.2 !! target_path task = None.
Proof.
  intros Hd Hd' Hdiff _ Htarget Hw. cbn zeta.
  set (filename := date_digits d' +:+ "_" +:+ rest) in *.
  assert (path_name (target_path task) = filename) as Hname.
  { rewrite Htarget. apply dated_name_path. }
  assert (target_path task
          <> get_local_path (Manager.storage m) filename (midnight d')) as Hne.
  { rewrite Htarget. unfold filename.
    rewrite !(proj1 (dated_name_path _ _ _ _)).
    intros E. apply app_inv_tail in E. apply Hdiff.
    exact (date_path_inj (Manager.storage m) d d' Hd Hd' E). }
  assert (length (get_date_path (Manager.storage m) (midnight d'))
          < length (target_path task))%nat as Hlen.
  { rewrite Htarget. unfold filename.
    rewrite (proj1 (dated_name_path _ _ _ _)).
    unfold get_date_path. rewrite !length_app. cbn [length]. lia. }
  assert (strptime_Ymd (split_first (path_name (target_path task)))
          = Some (midnight d')) as Hparse.
  { rewrite Hname. unfold filename.
    rewrite (split_first_digits 8) by apply date_digits_digits.
    exact (strptime_date_digits d' Hd'). }
  unfold download_and_save. cbn [target_path url set_status].
  rewrite Hparse, Hname.
  change (get_local_path (Manager.storage m) filename d')
    with (get_local_path (Manager.storage m) filename (midnight d')).
  destruct (file_exists (Manager.storage m) w filename (midnight d')) eqn:Hex.
  { cbn [fst snd]. intros _. split; [|exact Hw].
    unfold file_exists in Hex.
    destruct (fs w !! get_local_path (Manager.storage m) filename
                        (midnight d')); [eauto|discriminate Hex]. }
  destruct (download_image_world env (fetcher m) (url task) w) as (_ & Hfs).
  destruct (download_image env (fetcher m) (url task) w) as [[r f1] w1].
  cbn [snd] in Hfs.
  destruct (fetched_data r) as [data|]; [|cbn; intros Hf; discriminate Hf].
  pose proof (save_image_absent env (Manager.storage m) data filename
                (midnight d') w1 (target_path task)
                ltac:(rewrite Hfs; exact Hw) Hne Hlen) as Habsent.
  destruct (save_image env (Manager.storage m) data filename (midnight d') w1)
    as [[[]|e] w2]; [|cbn; intros Hf; discriminate Hf].
  destruct (validate_file_integrity env (Manager.storage m) w2 filename
              (midnight d') _) eqn:Hval; [|cbn; intros Hf; discriminate Hf].
  cbn [fst snd] in *. intros _. split; [|exact Habsent].
  apply validate_file_integrity_exists in Hval. unfold file_exists in Hval.
  destruct (fs w2 !! get_local_path (Manager.storage m) filename
                       (midnight d')); [eauto|discriminate Hval].
Qed.

Lemma download_follows_filename_date_witness :
  valid (mk_datetime 2024 3 2 0 0 0 0) = true
  /\ valid march_first = true
  /\ single_segment (date_digits march_first +:+ "_"
                     +:+ "001200_1024_0211.jpg") = true
  /\ fs start_world !! target_path misfiled_task = None
  /\ let out := download_and_save image_env default_manager misfiled_task
                  start_world in
     out.1.1.1 = true
     /\ is_Some (fs out.2
                   !! get_local_path (Manager.storage default_manager)
                        (date_digits march_first +:+ "_"
                         +:+ "001200_1024_0211.jpg") march_first)
     /\ fs out.2 !! target_path misfiled_task = None.
Proof.
  split; [reflexivity|]. split; [reflexivity|]. split; [reflexivity|].
  split; [reflexivity|]. cbn zeta. split; [vm_compute; reflexivity|].
  apply (download_follows_filename_date image_env default_manager
           misfiled_task start_world (mk_datetime 2024 3 2 0 0 0 0)
           march_first "001200_1024_0211.jpg").
  - reflexivity.
  - reflexivity.
  - cbn. intros E. discriminate E.
  - reflexivity.
  - reflexivity.
  - reflexivity.
  - vm_compute. reflexivity.
Defined.

End StoredWhere.
